(** * LifeOps backend ([backend/main.py]): a shallow embedding and its properties

    The development follows the order of the source file: Python values and
    exceptions, calendar dates, the log store and its upsert endpoint, the
    window selector, the statistics engine, the Gemini gateway with its retry
    loop, the response cache, the fallback reporter and the coach
    orchestrator.

    Modelling conventions.
    - Python [float] is IEEE-754 binary64, here the kernel's primitive
      [float].  [sum] over floats is the left-to-right accumulation (CPython
      before 3.12; later versions add a compensation term that vanishes
      whenever every partial sum is exact), [x ** 2] is [x * x] and
      [x ** 0.5] is the correctly rounded square root.
    - Python [int] is [Z]; [int / int] is the binary64 nearest to the exact
      quotient, and [round(x, k)] is the nearest binary64 to the decimal
      with [k] digits nearest to [x].
    - Python [str] is [string], one [ascii] per character: the model speaks
      about ASCII text (the fixed messages that carry accents are kept as
      the bytes of their UTF-8 form).
    - A function that can raise returns [res A]: [Ok a] or [Raise e].
    - The current date, the clock, the random jitter and the network are
      explicit arguments. *)

From Stdlib Require Import ZArith Lia Floats Reals Lra Psatz String Ascii List.
From Stdlib Require Import Sorted Permutation.
From stdpp Require Import gmap strings list pretty.

Open Scope string_scope.
Open Scope Z_scope.

(** ** Python exceptions and results *)

Inductive exn : Type :=
| ValueError
| OverflowError
| ZeroDivisionError
| IndexError
| HTTPException (status_code : Z) (detail : string)
| HTTPError (code : Z) (body : string)
| URLError (reason : string)
| OtherError (msg : string).

Inductive res (A : Type) : Type :=
| Ok (a : A)
| Raise (e : exn).

Arguments Ok {A} a.
Arguments Raise {A} e.

Definition res_bind {A B : Type} (r : res A) (k : A -> res B) : res B :=
  match r with
  | Ok a => k a
  | Raise e => Raise e
  end.

Notation "'do' x <- r ; k" := (res_bind r (fun x => k))
  (at level 10, x name, r at level 100, k at level 200).

Definition is_ok {A : Type} (r : res A) : bool :=
  match r with Ok _ => true | Raise _ => false end.

(** ** Strings *)

Definition chars (s : string) : list ascii := list_ascii_of_string s.

Definition code_of (c : ascii) : Z := Z.of_N (N_of_ascii c).

(** [s[i]] for an index within the string. *)
Definition char_at (i : nat) (s : string) : option ascii := String.get i s.

(** [s[:n]] *)
Fixpoint str_take (n : nat) (s : string) : string :=
  match n, s with
  | O, _ => ""
  | S n', String c s' => String c (str_take n' s')
  | S _, EmptyString => ""
  end.

(** [needle in hay] *)
Fixpoint str_contains (needle hay : string) : bool :=
  String.prefix needle hay ||
  match hay with
  | EmptyString => false
  | String _ hay' => str_contains needle hay'
  end.

(** ["\n".join(lines)] *)
Fixpoint join_lines (lines : list string) : string :=
  match lines with
  | [] => ""
  | [l] => l
  | l :: rest => l +:+ String "010"%char (join_lines rest)
  end.


(** ** Calendar dates ([datetime.date])

    A date is its proleptic Gregorian ordinal, 1 for 0001-01-01 up to
    [MAXORDINAL] for 9999-12-31; comparisons of dates are comparisons of
    ordinals. *)

Definition MAXORDINAL : Z := 3652059.

Definition _is_leap (year : Z) : bool :=
  (year mod 4 =? 0) && (negb (year mod 100 =? 0) || (year mod 400 =? 0)).

Definition _days_before_year (year : Z) : Z :=
  let y := year - 1 in y * 365 + y / 4 - y / 100 + y / 400.

Definition _DAYS_IN_MONTH (month : Z) : Z :=
  match month with
  | 1 => 31 | 2 => 28 | 3 => 31 | 4 => 30 | 5 => 31 | 6 => 30
  | 7 => 31 | 8 => 31 | 9 => 30 | 10 => 31 | 11 => 30 | 12 => 31
  | _ => -1
  end.

Definition _DAYS_BEFORE_MONTH (month : Z) : Z :=
  match month with
  | 1 => 0 | 2 => 31 | 3 => 59 | 4 => 90 | 5 => 120 | 6 => 151
  | 7 => 181 | 8 => 212 | 9 => 243 | 10 => 273 | 11 => 304 | 12 => 334
  | _ => -1
  end.

Definition _days_in_month (year month : Z) : Z :=
  if (month =? 2) && _is_leap year then 29 else _DAYS_IN_MONTH month.

Definition _days_before_month (year month : Z) : Z :=
  _DAYS_BEFORE_MONTH month + (if (2 <? month) && _is_leap year then 1 else 0).

Definition _ymd2ord (year month day : Z) : Z :=
  _days_before_year year + _days_before_month year month + day.

Definition _DI400Y : Z := 146097.
Definition _DI100Y : Z := 36524.
Definition _DI4Y : Z := 1461.

Definition _ord2ymd (n0 : Z) : Z * Z * Z :=
  let n := n0 - 1 in
  let n400 := n / _DI400Y in
  let n := n mod _DI400Y in
  let year := n400 * 400 + 1 in
  let n100 := n / _DI100Y in
  let n := n mod _DI100Y in
  let n4 := n / _DI4Y in
  let n := n mod _DI4Y in
  let n1 := n / 365 in
  let n := n mod 365 in
  let year := year + n100 * 100 + n4 * 4 + n1 in
  if (n1 =? 4) || (n100 =? 4) then (year - 1, 12, 31)
  else
    let leapyear := (n1 =? 3) && (negb (n4 =? 24) || (n100 =? 3)) in
    let month := Z.shiftr (n + 50) 5 in
    let preceding :=
      _DAYS_BEFORE_MONTH month + (if (2 <? month) && leapyear then 1 else 0) in
    if n <? preceding then
      let month := month - 1 in
      let preceding :=
        preceding
        - (_DAYS_IN_MONTH month + (if (month =? 2) && leapyear then 1 else 0)) in
      (year, month, n - preceding + 1)
    else (year, month, n - preceding + 1).

(** [date(year, month, day)]: the constructor checks its fields. *)
Definition mk_date (year month day : Z) : res Z :=
  if (1 <=? year) && (year <=? 9999) && (1 <=? month) && (month <=? 12)
     && (1 <=? day) && (day <=? _days_in_month year month)
  then Ok (_ymd2ord year month day)
  else Raise ValueError.

(** [d + timedelta(days=k)]; out of the supported range it raises. *)
Definition date_add_days (d k : Z) : res Z :=
  let o := d + k in
  if (0 <? o) && (o <=? MAXORDINAL) then Ok o else Raise OverflowError.

Definition pad_left (width : nat) (s : string) : string :=
  String.concat "" (repeat "0" (width - String.length s)) +:+ s.

(** [d.isoformat()] *)
Definition isoformat (d : Z) : string :=
  let '(y, m, dd) := _ord2ymd d in
  pad_left 4 (pretty y) +:+ "-" +:+ pad_left 2 (pretty m)
           +:+ "-" +:+ pad_left 2 (pretty dd).

(** *** [datetime.strptime(s, "%Y-%m-%d")]

    The format compiles to the regular expression
    [(\d\d\d\d)-(1[0-2]|0[1-9]|[1-9])-(3[01]|[12]\d|0[1-9]|[1-9]| [1-9])],
    matched at the start of the text; text left over after the match is an
    error, and so is a field combination that is no calendar date. *)

Definition digit_of (c : ascii) : option Z :=
  let n := code_of c in
  if (48 <=? n) && (n <=? 57) then Some (n - 48) else None.

Definition digit_in (lo hi : Z) (c : ascii) : option Z :=
  match digit_of c with
  | Some v => if (lo <=? v) && (v <=? hi) then Some v else None
  | None => None
  end.

Definition is_dash (c : ascii) : bool := code_of c =? 45.
Definition is_space (c : ascii) : bool := code_of c =? 32.

Definition match_year (s : list ascii) : option (Z * list ascii) :=
  match s with
  | a :: b :: c :: d :: rest =>
      match digit_of a, digit_of b, digit_of c, digit_of d with
      | Some a, Some b, Some c, Some d =>
          Some (1000 * a + 100 * b + 10 * c + d, rest)
      | _, _, _, _ => None
      end
  | _ => None
  end.

Definition match_dash (s : list ascii) : option (list ascii) :=
  match s with
  | c :: rest => if is_dash c then Some rest else None
  | [] => None
  end.

(** Two characters [a b] with [a] in [alo..ahi] and [b] in [blo..bhi]. *)
Definition two_digits (alo ahi blo bhi : Z) (s : list ascii)
  : option (Z * list ascii) :=
  match s with
  | a :: b :: rest =>
      match digit_in alo ahi a, digit_in blo bhi b with
      | Some a, Some b => Some (10 * a + b, rest)
      | _, _ => None
      end
  | _ => None
  end.

Definition one_digit (lo hi : Z) (s : list ascii) : option (Z * list ascii) :=
  match s with
  | a :: rest =>
      match digit_in lo hi a with
      | Some a => Some (a, rest)
      | None => None
      end
  | [] => None
  end.

Definition space_digit (s : list ascii) : option (Z * list ascii) :=
  match s with
  | a :: rest => if is_space a then one_digit 1 9 rest else None
  | [] => None
  end.

(** First alternative, in order, that matches and is followed by [k]. *)
Fixpoint first_alt {A : Type}
  (alts : list (list ascii -> option (Z * list ascii)))
  (k : Z -> list ascii -> option A) (s : list ascii) : option A :=
  match alts with
  | [] => None
  | alt :: alts' =>
      match alt s with
      | Some (v, rest) =>
          match k v rest with
          | Some r => Some r
          | None => first_alt alts' k s
          end
      | None => first_alt alts' k s
      end
  end.

Definition month_alts : list (list ascii -> option (Z * list ascii)) :=
  [two_digits 1 1 0 2; two_digits 0 0 1 9; one_digit 1 9].

Definition day_alts : list (list ascii -> option (Z * list ascii)) :=
  [two_digits 3 3 0 1; two_digits 1 2 0 9; two_digits 0 0 1 9;
   one_digit 1 9; space_digit].

(** The regular expression: the fields and the text left after the match. *)
Definition strptime_match (s : list ascii) : option (Z * Z * Z * list ascii) :=
  match match_year s with
  | None => None
  | Some (y, s1) =>
      match match_dash s1 with
      | None => None
      | Some s2 =>
          first_alt month_alts
            (fun m s3 =>
               match match_dash s3 with
               | None => None
               | Some s4 =>
                   first_alt day_alts (fun d s5 => Some (y, m, d, s5)) s4
               end) s2
      end
  end.

Definition _parse_yyyy_mm_dd (s : string) : res Z :=
  match strptime_match (chars s) with
  | Some (y, m, d, []) => mk_date y m d
  | Some (_, _, _, _ :: _) => Raise ValueError
  | None => Raise ValueError
  end.

(** ** Daily logs and the log store *)

(** The request body of [POST /logs] (class [LogIn]). *)
Module LogIn.
Record t : Type := mk {
  date : string;
  sleep : float;
  sleepQual : Z;
  trained : bool;
  trainMin : Z;
  trainType : option string;
  foodScore : Z;
  water : bool;
  meals : bool;
  mood : Z;
  anxiety : Z;
  notes : string
}.
End LogIn.

(** A stored log as [_row_to_log] hands it to the rest of the program:
    every key is present, flags are booleans, texts are never [None]. *)
Module Log.
Record t : Type := mk {
  date : string;
  sleep : float;
  sleepQual : Z;
  trained : bool;
  trainMin : Z;
  trainType : string;
  foodScore : Z;
  water : bool;
  meals : bool;
  mood : Z;
  anxiety : Z;
  notes : string
}.
End Log.

(** Table [logs]: at most one row per [date] text (its primary key). *)
Abbreviation store := (gmap string Log.t).

(** [s[i]] raises outside the text. *)
Definition str_index (s : string) (i : nat) : res ascii :=
  match char_at i s with
  | Some c => Ok c
  | None => Raise IndexError
  end.

(** [a or b] evaluates [b] only when [a] is false. *)
Definition py_or (a : res bool) (b : res bool) : res bool :=
  do x <- a; if x then Ok true else b.

Definition not_dash_at (s : string) (i : nat) : res bool :=
  do c <- str_index s i; Ok (negb (is_dash c)).

(** The guard of [upsert_log] and [delete_log]:
    [len(d) != 10 or d[4] != "-" or d[7] != "-"]. *)
Definition date_guard_fails (d : string) : res bool :=
  py_or (Ok (negb (Nat.eqb (String.length d) 10)))
        (py_or (not_dash_at d 4) (not_dash_at d 7)).

Definition date_format_detail : string :=
  "date deve estar no formato YYYY-MM-DD.".

Definition unprocessable (detail : string) : exn := HTTPException 422 detail.

Definition out_of_range_f (lo hi x : float) : bool :=
  PrimFloat.ltb x lo || PrimFloat.ltb hi x.

Definition out_of_range (lo hi x : Z) : bool := (x <? lo) || (hi <? x).

(** The checks of [upsert_log] that precede the SQL statement; they read the
    payload only. *)
Definition validate_log (payload : LogIn.t) : res Log.t :=
  do bad <- date_guard_fails (LogIn.date payload);
  if bad then Raise (unprocessable date_format_detail) else
  let sleep := LogIn.sleep payload in
  let sleep_qual := LogIn.sleepQual payload in
  let food := LogIn.foodScore payload in
  let mood := LogIn.mood payload in
  let anx := LogIn.anxiety payload in
  let train_min := LogIn.trainMin payload in
  if out_of_range_f 0 24 sleep then
    Raise (unprocessable "sleep deve estar entre 0 e 24.")
  else if out_of_range 1 5 sleep_qual then
    Raise (unprocessable "sleepQual deve estar entre 1 e 5.")
  else if out_of_range 1 5 food then
    Raise (unprocessable "foodScore deve estar entre 1 e 5.")
  else if out_of_range 0 10 mood then
    Raise (unprocessable "mood deve estar entre 0 e 10.")
  else if out_of_range 0 10 anx then
    Raise (unprocessable "anxiety deve estar entre 0 e 10.")
  else if out_of_range 0 600 train_min then
    Raise (unprocessable "trainMin fora do intervalo esperado (0–600).")
  else
    Ok {| Log.date := LogIn.date payload;
          Log.sleep := sleep;
          Log.sleepQual := sleep_qual;
          Log.trained := LogIn.trained payload;
          Log.trainMin := train_min;
          Log.trainType := default "" (LogIn.trainType payload);
          Log.foodScore := food;
          Log.water := LogIn.water payload;
          Log.meals := LogIn.meals payload;
          Log.mood := mood;
          Log.anxiety := anx;
          Log.notes := LogIn.notes payload |}.

(** [POST /logs]: the answer and the store afterwards.  The statement
    [INSERT ... ON CONFLICT(date) DO UPDATE] writes the row under its date,
    replacing the row already there. *)
Definition upsert_log (db : store) (payload : LogIn.t) : res unit * store :=
  match validate_log payload with
  | Raise e => (Raise e, db)
  | Ok row => (Ok tt, <[Log.date row := row]> db)
  end.

(** [DELETE /logs/{date_str}] *)
Definition delete_log (db : store) (date_str : string) : res unit * store :=
  match date_guard_fails date_str with
  | Raise e => (Raise e, db)
  | Ok true => (Raise (unprocessable date_format_detail), db)
  | Ok false => (Ok tt, delete date_str db)
  end.

(** The shape the endpoint asks of a date text, in the words of its error
    message and of the specification: ten characters, dashes at 4 and 7. *)
Definition date_shape (d : string) : Prop :=
  String.length d = 10%nat /\ char_at 4 d = Some "-"%char
  /\ char_at 7 d = Some "-"%char.

(** ** Window selector *)

Record Selection : Type := mkSelection {
  window : list Log.t;
  future_count : Z;
  used_start_date : string;
  used_end_date : string;
  used_past_only : bool
}.

Definition len {A : Type} (l : list A) : Z := Z.of_nat (List.length l).

(** The first loop of [_select_window_from_logs]: a log whose date does not
    parse is skipped ([except Exception: continue]), the others are appended
    to [past_or_today] or to [future], in the order met. *)
Fixpoint split_by_today (today : Z) (logs : list Log.t)
  : list Log.t * list Log.t :=
  match logs with
  | [] => ([], [])
  | l :: rest =>
      let '(past_or_today, future) := split_by_today today rest in
      match _parse_yyyy_mm_dd (Log.date l) with
      | Raise _ => (past_or_today, future)
      | Ok d =>
          if d <=? today then (l :: past_or_today, future)
          else (past_or_today, l :: future)
      end
  end.

(** [sorted(base, key=lambda x: x["date"])]: a stable sort on the date
    text, compared character by character. *)
Fixpoint insert_by_date (l : Log.t) (sorted : list Log.t) : list Log.t :=
  match sorted with
  | [] => [l]
  | h :: t =>
      if String.leb (Log.date l) (Log.date h) then l :: h :: t
      else h :: insert_by_date l t
  end.

Definition sorted_by_date (logs : list Log.t) : list Log.t :=
  List.fold_right insert_by_date [] logs.

(** [l[-1]] *)
Fixpoint last_item {A : Type} (l : list A) : res A :=
  match l with
  | [] => Raise IndexError
  | [x] => Ok x
  | _ :: rest => last_item rest
  end.

(** The list the window is cut from. *)
Definition select_base (today : Z) (logs_desc : list Log.t) : list Log.t :=
  let '(past_or_today, _) := split_by_today today logs_desc in
  if 3 <=? len past_or_today then past_or_today else logs_desc.

(** The second loop: logs of the sorted base dated within
    [start_date .. end_date]; a date that does not parse is skipped. *)
Definition in_window (start_date end_date : Z) (l : Log.t) : bool :=
  match _parse_yyyy_mm_dd (Log.date l) with
  | Raise _ => false
  | Ok d => (start_date <=? d) && (d <=? end_date)
  end.

Definition _select_window_from_logs
  (today : Z) (logs_desc : list Log.t) (days : Z) : res Selection :=
  let '(past_or_today, future) := split_by_today today logs_desc in
  let base := select_base today logs_desc in
  let base_sorted := sorted_by_date base in
  do newest <- last_item base_sorted;
  do end_date <- _parse_yyyy_mm_dd (Log.date newest);
  do start_date <- date_add_days end_date (- (days - 1));
  let window := List.filter (in_window start_date end_date) base_sorted in
  Ok {| window := window;
        future_count := len future;
        used_start_date := isoformat start_date;
        used_end_date := isoformat end_date;
        used_past_only := 3 <=? len past_or_today |}.

(** A log is dated on or before [today] when its date text parses to such a
    date. *)
Definition dated_by (today : Z) (l : Log.t) : bool :=
  match _parse_yyyy_mm_dd (Log.date l) with
  | Ok d => d <=? today
  | Raise _ => false
  end.

Definition dated_after (today : Z) (l : Log.t) : bool :=
  match _parse_yyyy_mm_dd (Log.date l) with
  | Ok d => today <? d
  | Raise _ => false
  end.

(** ** Numbers *)

(** A binary64 value given by a sign and an integer magnitude. *)
Definition sf_of_int (negative : bool) (magnitude : Z) : spec_float :=
  match magnitude with
  | Zpos p => S754_finite negative p 0
  | _ => S754_zero negative
  end.

(** The binary64 nearest to the quotient of two integers. *)
Definition nearest_quotient (negative : bool) (a b : Z) : float :=
  SF2Prim (SFdiv prec emax (sf_of_int negative a) (sf_of_int false b)).

(** [float(z)] *)
Definition Z2F (z : Z) : float := nearest_quotient (z <? 0) (Z.abs z) 1.

(** [a / b] on [int]s: the nearest binary64 to the exact quotient. *)
Definition int_truediv (a b : Z) : res float :=
  if b =? 0 then Raise ZeroDivisionError
  else
    let r := nearest_quotient (xorb (a <? 0) (b <? 0)) (Z.abs a) (Z.abs b) in
    if PrimFloat.is_infinity r then Raise OverflowError else Ok r.

(** [x / y] on [float]s. *)
Definition float_truediv (x y : float) : res float :=
  if PrimFloat.eqb y 0 then Raise ZeroDivisionError else Ok (x / y)%float.

(** [x ** 2] on a [float]: an overflow of a finite operand raises. *)
Definition float_sq (x : float) : res float :=
  let r := (x * x)%float in
  if PrimFloat.is_infinity r && negb (PrimFloat.is_infinity x)
  then Raise OverflowError else Ok r.

(** Nearest integer to [p / q] for [q > 0], ties to the even one. *)
Definition round_half_even (p q : Z) : Z :=
  let k := p / q in
  let r := p mod q in
  match 2 * r ?= q with
  | Lt => k
  | Gt => k + 1
  | Eq => if Z.even k then k else k + 1
  end.

(** [round(x, ndigits)] for [ndigits >= 0]: the decimal with that many
    digits nearest to the exact value of [x] (ties to even), read back as
    the nearest binary64.  Zeros, infinities and NaN are returned as they
    are; with [ndigits >= 0] the call never raises. *)
Definition py_round (x : float) (ndigits : Z) : float :=
  match Prim2SF x with
  | S754_finite s m e =>
      let scaled := Z.pos m * 10 ^ ndigits in
      let N := if 0 <=? e then scaled * 2 ^ e
               else round_half_even scaled (2 ^ (- e)) in
      nearest_quotient s N (10 ^ ndigits)
  | _ => x
  end.

(** [sum(xs)] over [int]s and over [float]s (the start value is [0]). *)
Definition sum_Z (xs : list Z) : Z := List.fold_left Z.add xs 0.
Definition sum_F (xs : list float) : float :=
  List.fold_left PrimFloat.add xs 0%float.

(** [float(v or 0)] on a float field: a zero of either sign becomes [0.0]. *)
Definition float_or0 (v : float) : float :=
  if PrimFloat.eqb v 0 then 0%float else v.

(** ** Pearson correlation

    The function is written once over the arithmetic it uses, so that it can
    be read in binary64, as the program runs it, and in the real numbers. *)

Record arith (num : Type) : Type := mkArith {
  a_zero : num;                    (* the start value of [sum] *)
  a_of_len : nat -> num;           (* a length used as a divisor *)
  a_add : num -> num -> num;
  a_sub : num -> num -> num;
  a_mul : num -> num -> num;
  a_div : num -> num -> res num;   (* [x / y] *)
  a_sq : num -> res num;           (* [x ** 2] *)
  a_sqrt : num -> num;             (* [x ** 0.5] *)
  a_is_zero : num -> bool          (* [x == 0] *)
}.

Arguments a_zero {num} _.
Arguments a_of_len {num} _ _.
Arguments a_add {num} _ _ _.
Arguments a_sub {num} _ _ _.
Arguments a_mul {num} _ _ _.
Arguments a_div {num} _ _ _.
Arguments a_sq {num} _ _.
Arguments a_sqrt {num} _ _.
Arguments a_is_zero {num} _ _.

Definition binary64 : arith float :=
  {| a_zero := 0%float;
     a_of_len := fun n => Z2F (Z.of_nat n);
     a_add := PrimFloat.add;
     a_sub := PrimFloat.sub;
     a_mul := PrimFloat.mul;
     a_div := float_truediv;
     a_sq := float_sq;
     a_sqrt := PrimFloat.sqrt;
     a_is_zero := fun x => PrimFloat.eqb x 0 |}.

Definition R_is_zero (x : R) : bool :=
  if Req_dec_T x 0%R then true else false.

Definition exact_reals : arith R :=
  {| a_zero := 0%R;
     a_of_len := INR;
     a_add := Rplus;
     a_sub := Rminus;
     a_mul := Rmult;
     a_div := fun x y => if R_is_zero y then Raise ZeroDivisionError
                         else Ok (x / y)%R;
     a_sq := fun x => Ok (x * x)%R;
     a_sqrt := sqrt;
     a_is_zero := R_is_zero |}.

(** A comprehension whose body can raise: the first failure ends it. *)
Fixpoint map_res {A B : Type} (f : A -> res B) (l : list A) : res (list B) :=
  match l with
  | [] => Ok []
  | x :: rest =>
      do y <- f x;
      do ys <- map_res f rest;
      Ok (y :: ys)
  end.

Section Pearson.
Context {num : Type} (ar : arith num).

Definition a_sum (xs : list num) : num :=
  List.fold_left (a_add ar) xs (a_zero ar).

Definition _pearson_corr (xs ys : list num) : res (option num) :=
  if negb (Nat.eqb (List.length xs) (List.length ys))
     || Nat.ltb (List.length xs) 4
  then Ok None
  else
    let n := a_of_len ar (List.length xs) in
    do mx <- a_div ar (a_sum xs) n;
    do my <- a_div ar (a_sum ys) n;
    let num_ :=
      a_sum (List.map (fun p => a_mul ar (a_sub ar (fst p) mx)
                                            (a_sub ar (snd p) my))
                      (List.combine xs ys)) in
    do sqx <- map_res (fun x => a_sq ar (a_sub ar x mx)) xs;
    let denx := a_sqrt ar (a_sum sqx) in
    do sqy <- map_res (fun y => a_sq ar (a_sub ar y my)) ys;
    let deny := a_sqrt ar (a_sum sqy) in
    if a_is_zero ar denx || a_is_zero ar deny then Ok None
    else
      do r <- a_div ar num_ (a_mul ar denx deny);
      Ok (Some r).
End Pearson.

(** ** Statistics engine *)

Record Goals : Type := mkGoals {
  sleepMin : float;
  workoutsPerWeek : Z;
  foodTarget : Z;
  anxietyMax : Z
}.

Definition DEFAULT_GOALS : Goals :=
  {| sleepMin := 7%float; workoutsPerWeek := 3; foodTarget := 4;
     anxietyMax := 6 |}.

Record Trend : Type := mkTrend {
  anxiety_delta : float;
  sleep_delta : float;
  mood_delta : float
}.

(** The dictionary [_summarize_window] returns; an absent value is [None],
    the empty [trend] dictionary is [None]. *)
Module Stats.
Record t : Type := mk {
  n : Z;
  window_start : option string;
  window_end : option string;
  missing_days_in_range : Z;
  anxiety_limit : Z;
  avg_sleep : float;
  avg_mood : float;
  avg_anxiety : float;
  avg_food : float;
  workouts : Z;
  high_anxiety_days : Z;
  peak_anxiety : Z;
  peak_date : option string;
  train_effect : option float;
  corr_sleep_vs_anxiety : option float;
  trend : option Trend
}.
End Stats.

(** [sum(1 for x in xs if p(x))] *)
Definition count_if {A : Type} (p : A -> bool) (xs : list A) : Z :=
  len (List.filter p xs).

(** [max(xs)] for a non-empty list. *)
Definition max_of (x : Z) (xs : list Z) : Z := List.fold_left Z.max xs x.

Definition min_of (x : Z) (xs : list Z) : Z := List.fold_left Z.min xs x.

(** [xs.index(v)]: the first position holding [v]. *)
Fixpoint index_of (v : Z) (xs : list Z) : res nat :=
  match xs with
  | [] => Raise ValueError
  | x :: rest => if x =? v then Ok O else do i <- index_of v rest; Ok (S i)
  end.

(** [logs[i]] *)
Definition item_at {A : Type} (l : list A) (i : nat) : res A :=
  match l !! i with
  | Some x => Ok x
  | None => Raise IndexError
  end.

(** [[a for a, t in zip(anx, trained) if t]] and its complement. *)
Definition anx_where (flag : bool) (anx : list Z) (trained : list bool)
  : list Z :=
  List.map fst
    (List.filter (fun p : Z * bool => Bool.eqb (snd p) flag)
                 (List.combine anx trained)).

(** The [train_effect] value of [_summarize_window]. *)
Definition train_effect_of (anx : list Z) (trained : list bool)
  : res (option float) :=
  let anx_train := anx_where true anx trained in
  let anx_not := anx_where false anx trained in
  match anx_train, anx_not with
  | _ :: _, _ :: _ =>
      do mean_not <- int_truediv (sum_Z anx_not) (len anx_not);
      do mean_train <- int_truediv (sum_Z anx_train) (len anx_train);
      Ok (Some (py_round (mean_not - mean_train)%float 3))
  | _, _ => Ok None
  end.

(** The loop that counts the calendar days of [start .. end] without a
    log: [steps] iterations, each ending in [cur += timedelta(days=1)]. *)
Fixpoint missing_loop (steps : nat) (cur : Z) (have : gset Z) (missing : Z)
  : res Z :=
  match steps with
  | O => Ok missing
  | S k =>
      let missing' := if bool_decide (cur ∈ have) then missing
                      else missing + 1 in
      do cur' <- date_add_days cur 1;
      missing_loop k cur' have missing'
  end.

(** [logs[-3:]] and [logs[-6:-3]] for a list of at least six items. *)
Definition last3 {A : Type} (l : list A) : list A :=
  List.skipn (List.length l - 3) l.
Definition prev3 {A : Type} (l : list A) : list A :=
  List.firstn 3 (List.skipn (List.length l - 6) l).

(** The local [mean(arr, key)]: a float sum over the length. *)
Definition mean_key (key : Log.t -> float) (arr : list Log.t) : res float :=
  float_truediv (sum_F (List.map key arr)) (Z2F (len arr)).

Definition delta_of (key : Log.t -> float) (logs : list Log.t) : res float :=
  do a <- mean_key key (last3 logs);
  do b <- mean_key key (prev3 logs);
  Ok (py_round (a - b)%float 2).

Definition trend_of (logs : list Log.t) : res (option Trend) :=
  if 6 <=? len logs then
    do da <- delta_of (fun l => Z2F (Log.anxiety l)) logs;
    do ds <- delta_of (fun l => float_or0 (Log.sleep l)) logs;
    do dm <- delta_of (fun l => Z2F (Log.mood l)) logs;
    Ok (Some {| anxiety_delta := da; sleep_delta := ds; mood_delta := dm |})
  else Ok None.

(** [round(sum(xs) / n, 2)] over [int]s. *)
Definition avg_int (xs : list Z) (n : Z) : res float :=
  do q <- int_truediv (sum_Z xs) n; Ok (py_round q 2).

Definition _summarize_window (goals : Goals) (logs : list Log.t)
  : res Stats.t :=
  let n := len logs in
  let anx_limit := anxietyMax goals in
  let sleep := List.map (fun l => float_or0 (Log.sleep l)) logs in
  let mood := List.map Log.mood logs in
  let anx := List.map Log.anxiety logs in
  let food := List.map Log.foodScore logs in
  let trained := List.map Log.trained logs in
  let workouts := count_if (fun t : bool => t) trained in
  let high_anx_days := count_if (fun a => anx_limit <? a) anx in
  let peak_anx := match anx with [] => 0 | a :: rest => max_of a rest end in
  do peak_idx <- match anx with [] => Ok O | _ => index_of peak_anx anx end;
  do peak_date <- match logs with
                  | [] => Ok None
                  | _ => do l <- item_at logs peak_idx; Ok (Some (Log.date l))
                  end;
  do train_effect <- train_effect_of anx trained;
  do corr <- _pearson_corr binary64 sleep (List.map Z2F anx);
  let corr_sleep_anx := option_map (fun r => py_round r 3) corr in
  do dts <- map_res (fun l => _parse_yyyy_mm_dd (Log.date l)) logs;
  let start := match dts with [] => None | d :: rest => Some (min_of d rest) end in
  let end_ := match dts with [] => None | d :: rest => Some (max_of d rest) end in
  do missing <- match start, end_ with
                | Some s, Some e =>
                    missing_loop (Z.to_nat (e - s + 1)) s (list_to_set dts) 0
                | _, _ => Ok 0
                end;
  do trend <- trend_of logs;
  do avg_sleep_q <- float_truediv (sum_F sleep) (Z2F n);
  let avg_sleep := py_round avg_sleep_q 2 in
  do avg_mood <- avg_int mood n;
  do avg_anxiety <- avg_int anx n;
  do avg_food <- avg_int food n;
  Ok {| Stats.n := n;
        Stats.window_start := option_map isoformat start;
        Stats.window_end := option_map isoformat end_;
        Stats.missing_days_in_range := missing;
        Stats.anxiety_limit := anx_limit;
        Stats.avg_sleep := avg_sleep;
        Stats.avg_mood := avg_mood;
        Stats.avg_anxiety := avg_anxiety;
        Stats.avg_food := avg_food;
        Stats.workouts := workouts;
        Stats.high_anxiety_days := high_anx_days;
        Stats.peak_anxiety := peak_anx;
        Stats.peak_date := peak_date;
        Stats.train_effect := train_effect;
        Stats.corr_sleep_vs_anxiety := corr_sleep_anx;
        Stats.trend := trend |}.

(** ** Configuration (the module-level constants read from the environment) *)

Record Config : Type := mkConfig {
  GEMINI_API_KEY : string;
  GEMINI_MODEL : string;
  SNIX_CACHE_TTL_SEC : Z;
  SNIX_RETRIES : Z;
  SNIX_BACKOFF_BASE : float;
  SNIX_BACKOFF_CAP : float;
  SNIX_MAX_OUTPUT_TOKENS : Z
}.

(** ** More text operations *)

(** Whitespace as [str.strip] sees it among the ASCII characters. *)
Definition is_py_space (c : ascii) : bool :=
  let k := code_of c in
  ((9 <=? k) && (k <=? 13)) || ((28 <=? k) && (k <=? 32)).

Fixpoint drop_spaces (s : list ascii) : list ascii :=
  match s with
  | c :: rest => if is_py_space c then drop_spaces rest else s
  | [] => []
  end.

(** [s.strip()] *)
Definition str_strip (s : string) : string :=
  string_of_list_ascii
    (List.rev (drop_spaces (List.rev (drop_spaces (chars s))))).

Definition lower_char (c : ascii) : ascii :=
  let k := code_of c in
  if (65 <=? k) && (k <=? 90) then ascii_of_N (Z.to_N (k + 32)) else c.

(** [s.lower()] *)
Fixpoint str_lower (s : string) : string :=
  match s with
  | EmptyString => EmptyString
  | String c rest => String (lower_char c) (str_lower rest)
  end.

(** [s[n:]] *)
Fixpoint str_drop (k : nat) (s : string) : string :=
  match k, s with
  | O, _ => s
  | S k', String _ rest => str_drop k' rest
  | S _, EmptyString => EmptyString
  end.

(** [s or fallback] on a text. *)
Definition str_or (s fallback : string) : string :=
  match s with EmptyString => fallback | _ => s end.

(** ** Gemini gateway *)

Definition service_unavailable (detail : string) : exn :=
  HTTPException 503 detail.
Definition bad_gateway (detail : string) : exn := HTTPException 502 detail.

Definition _validate_gemini_model_name (model : string) : res string :=
  let m := str_strip model in
  if String.eqb m "" then
    Raise (service_unavailable "GEMINI_MODEL vazio. Ex.: gemini-2.5-flash.")
  else
    let m := if String.prefix "models/" m
             then str_strip (str_drop 7 m) else m in
    let low := str_lower m in
    if str_contains "llama" low || str_contains "mixtral" low then
      Raise (unprocessable
               ("GEMINI_MODEL inválido para Gemini: '" +:+ m
                +:+ "'. Use um modelo Gemini (ex.: gemini-2.5-flash)."))
    else if negb (String.prefix "gemini-" low) then
      Raise (unprocessable
               ("GEMINI_MODEL suspeito: '" +:+ m
                +:+ "'. Use um modelo que comece com 'gemini-'."))
    else Ok m.

(** What [_gemini_generate_once] builds from the provider's answer. *)
Record GenMeta : Type := mkGenMeta {
  block_reason : option string;
  finish_reason : option string;
  usage : option string
}.

Record GenOut : Type := mkGenOut {
  text : string;
  meta : GenMeta;
  raw_head : string
}.

(** The request sent upstream. *)
Record GenRequest : Type := mkGenRequest {
  rq_model : string;
  rq_system_text : string;
  rq_user_text : string;
  rq_temperature : float;
  rq_max_output_tokens : Z;
  rq_top_p : float
}.

(** The provider, seen from [_gemini_generate_once]: for the request of a
    given attempt, either the [{text, meta, raw_head}] value the function
    builds from the answer, or the exception that [urlopen] or the decoding
    of the answer raises. *)
Definition upstream_t : Type := GenRequest -> Z -> res GenOut.

(** What a gateway call does besides returning. *)
Inductive event : Type :=
| UpstreamCall (attempt : Z)
| Sleep (seconds : float).

Definition is_call (e : event) : bool :=
  match e with UpstreamCall _ => true | Sleep _ => false end.
Definition is_sleep (e : event) : bool :=
  match e with Sleep _ => true | UpstreamCall _ => false end.

Definition _gemini_generate_once
  (cfg : Config) (upstream : upstream_t) (attempt : Z)
  (system_text user_text model : string)
  (temperature : float) (max_output_tokens : Z) (top_p : float)
  : res GenOut * list event :=
  if String.eqb (GEMINI_API_KEY cfg) "" then
    (Raise (service_unavailable "GEMINI_API_KEY não configurada no .env."), [])
  else
    match _validate_gemini_model_name model with
    | Raise e => (Raise e, [])
    | Ok model =>
        (upstream {| rq_model := model;
                     rq_system_text := system_text;
                     rq_user_text := user_text;
                     rq_temperature := temperature;
                     rq_max_output_tokens := max_output_tokens;
                     rq_top_p := top_p |} attempt,
         [UpstreamCall attempt])
    end.

(** [str(e)] for the exceptions the gateway's last handler can meet. *)
Definition exn_str (e : exn) : string :=
  match e with
  | HTTPException status detail => pretty status +:+ ": " +:+ detail
  | HTTPError code body => "HTTP Error " +:+ pretty code +:+ ": " +:+ body
  | URLError reason => "<urlopen error " +:+ reason +:+ ">"
  | OtherError msg => msg
  | ValueError => "ValueError"
  | OverflowError => "OverflowError"
  | ZeroDivisionError => "ZeroDivisionError"
  | IndexError => "IndexError"
  end.

(** [min(a, b)] *)
Definition py_min (a b : float) : float := if PrimFloat.ltb b a then b else a.

(** The pause before the next attempt, jitter included. *)
Definition backoff (cfg : Config) (jitter : Z -> float) (attempt : Z) : float :=
  (py_min (SNIX_BACKOFF_CAP cfg) (SNIX_BACKOFF_BASE cfg * Z2F (2 ^ attempt))
   + jitter attempt)%float.

(** The [for attempt in range(SNIX_RETRIES + 1)] loop of [_gemini_generate]
    over the attempts still to make; [trace] collects the effects so far. *)
Fixpoint retry_loop
  (cfg : Config) (upstream : upstream_t) (jitter : Z -> float)
  (system_text user_text model : string)
  (temperature : float) (max_output_tokens : Z) (top_p : float)
  (attempts : list Z) (last_err : option string) (trace : list event)
  : res GenOut * list event :=
  match attempts with
  | [] =>
      (Raise (bad_gateway
                (match last_err with
                 | Some e => str_or e "Falha desconhecida no Gemini."
                 | None => "Falha desconhecida no Gemini."
                 end)), trace)
  | attempt :: rest =>
      let '(r, evs) :=
        _gemini_generate_once cfg upstream attempt system_text user_text
          model temperature max_output_tokens top_p in
      let trace := (trace ++ evs)%list in
      let again (last_err : string) :=
        retry_loop cfg upstream jitter system_text user_text model
          temperature max_output_tokens top_p rest (Some last_err)
          (trace ++ [Sleep (backoff cfg jitter attempt)])%list in
      match r with
      | Ok out => (Ok out, trace)
      | Raise (HTTPError code body) =>
          let last_err :=
            "Gemini HTTPError: " +:+ pretty code +:+ " " +:+ str_take 300 body in
          let retriable := (code =? 429) || (code =? 500) || (code =? 503) in
          if negb retriable || (SNIX_RETRIES cfg <=? attempt)
          then (Raise (bad_gateway last_err), trace)
          else again last_err
      | Raise (URLError reason) =>
          let last_err :=
            "Gemini URLError: " +:+ str_take 200 (exn_str (URLError reason)) in
          if SNIX_RETRIES cfg <=? attempt
          then (Raise (bad_gateway last_err), trace)
          else again last_err
      | Raise e =>
          let last_err := "Gemini erro inesperado: " +:+ str_take 200 (exn_str e) in
          if SNIX_RETRIES cfg <=? attempt
          then (Raise (bad_gateway last_err), trace)
          else again last_err
      end
  end.

Definition _gemini_generate
  (cfg : Config) (upstream : upstream_t) (jitter : Z -> float)
  (system_text user_text model : string)
  (temperature : float) (max_output_tokens : Z) (top_p : float)
  : res GenOut * list event :=
  retry_loop cfg upstream jitter system_text user_text model
    temperature max_output_tokens top_p
    (seqZ 0 (SNIX_RETRIES cfg + 1)) None [].

(** ** Coach data *)

Module SnixCoachIn.
Record t : Type := mk {
  days : Z;
  max_items : Z;
  focus : string;
  include_notes : bool
}.
End SnixCoachIn.

(** [stats["llm_meta"]]: the gateway's [meta], or the error marker of the
    fallback path. *)
Inductive LlmMeta : Type :=
| MetaOfGen (m : GenMeta)
| MetaError (error : string).

(** The [stats] dictionary of an answer: the statistics record and the keys
    the orchestrator adds to it. *)
Record StatsOut : Type := mkStatsOut {
  so_stats : Stats.t;
  so_sleepMin : float;
  window_start_selected : string;
  window_end_selected : string;
  so_used_past_only : bool;
  so_future_count : Z;
  llm_meta : LlmMeta;
  cache_key : string
}.

Module SnixCoachOut.
Record t : Type := mk {
  ok : bool;
  coach : string;
  model : string;
  days : Z;
  n_logs_used : Z;
  report : string;
  stats : StatsOut
}.
End SnixCoachOut.

(** An entry of [_snix_cache]. *)
Record CacheItem : Type := mkCacheItem {
  ts : float;
  value : SnixCoachOut.t
}.

Abbreviation cache_t := (gmap string CacheItem).

(** Row 1 of table [state] after [_merge_goals] (absent when the row is),
    and table [logs]. *)
Record Db : Type := mkDb {
  db_goals : option Goals;
  db_logs : store
}.

(** [SELECT ... FROM logs ORDER BY date DESC LIMIT ?]; every row is stored
    under its own date. *)
Definition rows_desc (logs : store) (limit : Z) : list Log.t :=
  List.firstn (Z.to_nat limit)
    (List.rev (sorted_by_date (List.map snd (map_to_list logs)))).

(** ** Response cache *)

Definition _cache_get (cfg : Config) (now : float) (key : string)
  (cache : cache_t) : option SnixCoachOut.t * cache_t :=
  match cache !! key with
  | None => (None, cache)
  | Some item =>
      if PrimFloat.ltb (Z2F (SNIX_CACHE_TTL_SEC cfg)) (now - ts item)
      then (None, delete key cache)
      else (Some (value item), cache)
  end.

Definition _cache_set (now : float) (key : string) (v : SnixCoachOut.t)
  (cache : cache_t) : cache_t :=
  <[key := {| ts := now; value := v |}]> cache.

Section Coach.
(** How Python prints a float ([repr]), and [json.dumps] on the prompt
    payload: library functions, kept as parameters. *)
Variable float_repr : float -> string.

(** [f"{v}"] for the values a report shows. *)
Definition fmt_opt_str (v : option string) : string := default "None" v.
Definition fmt_opt_float (v : option float) : string :=
  match v with Some x => float_repr x | None => "None" end.

(** *** Fallback reporter *)

Definition is_some {A : Type} (o : option A) : bool :=
  match o with Some _ => true | None => false end.

Definition _snix_fallback_report (stats : StatsOut) (focus : string)
  : string :=
  let focus := str_strip (str_or focus "ansiedade") in
  let s := so_stats stats in
  join_lines
    ([ "# Snix (modo offline) — foco: " +:+ focus;
       "";
       "## Leitura objetiva";
       "- Janela: " +:+ fmt_opt_str (Stats.window_start s) +:+ " → "
         +:+ fmt_opt_str (Stats.window_end s) +:+ " ("
         +:+ pretty (Stats.n s) +:+ " registros)";
       "- Sono médio: " +:+ float_repr (Stats.avg_sleep s) +:+ "h (meta: "
         +:+ float_repr (so_sleepMin stats) +:+ "h)";
       "- Humor médio: " +:+ float_repr (Stats.avg_mood s) +:+ "/10";
       "- Ansiedade média: " +:+ float_repr (Stats.avg_anxiety s)
         +:+ "/10 (limite: " +:+ pretty (Stats.anxiety_limit s) +:+ ")";
       "- Dias acima do limite: " +:+ pretty (Stats.high_anxiety_days s);
       "- Pico de ansiedade: " +:+ pretty (Stats.peak_anxiety s)
         +:+ "/10 em " +:+ fmt_opt_str (Stats.peak_date s);
       "- Treinos na janela: " +:+ pretty (Stats.workouts s) ]
     ++ (if is_some (Stats.corr_sleep_vs_anxiety s)
         then [ "- Correlação sono×ansiedade: "
                  +:+ fmt_opt_float (Stats.corr_sleep_vs_anxiety s)
                  +:+ " (sinal, não causalidade)" ]
         else [])
     ++ (if is_some (Stats.train_effect s)
         then [ "- Efeito treino (heurístico): "
                  +:+ fmt_opt_float (Stats.train_effect s)
                  +:+ " (positivo sugere treino associado a menor ansiedade)" ]
         else [])
     ++ [ "";
          "## Plano mínimo (7 dias)";
          "- 1) Sono: manter horário fixo de dormir/acordar (±30 min).";
          "- 2) Treino: 10–20 min em dias alternados (caminhada/força leve).";
          "- 3) Registro: preencher todos os dias (reduz viés e melhora análise).";
          "";
          "## Protocolo rápido (1–5 min)";
          "- Respiração 4-6 (inspirar 4s, expirar 6s) por 2 min.";
          "- “Descarrego” mental: anotar 3 preocupações + 1 próxima ação possível (2 min).";
          "- Alongamento leve de pescoço/ombros (1–2 min).";
          "";
          "## 3 métricas para amanhã";
          "- Horário de dormir e acordar (objetivo: consistência).";
          "- Ansiedade (0–10) antes de dormir.";
          "- Treino (sim/não + minutos).";
          "";
          "> Nota: Sem quota do Gemini, eu viro estatístico. Quando a cota voltar, eu viro coach de novo." ])%list.

(** *** Prompt builder *)

Record CompactLog : Type := mkCompactLog {
  c_date : string;
  sleep_h : float;
  sleep_qual_1to5 : Z;
  c_trained : bool;
  train_min : Z;
  train_type : string;
  food_1to5 : Z;
  water_ok : bool;
  meals_ok : bool;
  mood_0to10 : Z;
  anxiety_0to10 : Z;
  c_notes : string
}.

(** The payload handed to [json.dumps]; its [tarefas], [restricoes] and
    [formato] entries are constants of the source. *)
Record UserPayload : Type := mkUserPayload {
  up_focus : string;
  up_goals : Goals;
  up_stats : Stats.t;
  up_logs : list CompactLog
}.

Variable json_dumps : UserPayload -> string.

Definition compact_of (include_notes : bool) (l : Log.t) : CompactLog :=
  {| c_date := Log.date l;
     sleep_h := Log.sleep l;
     sleep_qual_1to5 := Log.sleepQual l;
     c_trained := Log.trained l;
     train_min := Log.trainMin l;
     train_type := str_take 20 (Log.trainType l);
     food_1to5 := Log.foodScore l;
     water_ok := Log.water l;
     meals_ok := Log.meals l;
     mood_0to10 := Log.mood l;
     anxiety_0to10 := Log.anxiety l;
     c_notes := if include_notes then str_take 200 (Log.notes l) else "" |}.

Definition snix_system_text : string :=
  join_lines
    [ "Você é o Snix, coach de hábitos guiado por dados do LifeOps.";
      "Missão: reduzir ansiedade e estabilizar humor com intervenções pequenas, realistas e mensuráveis.";
      "Regras:";
      "- Não faça diagnóstico médico/psicológico.";
      "- Não use linguagem alarmista.";
      "- Se perceber ansiedade alta e persistente, recomende conversar com um adulto de confiança e, se possível, um profissional.";
      "- Use linguagem direta, objetiva e prática em PT-BR.";
      "- Baseie recomendações em stats/padrões e proponha experimentos simples.";
      "- Inclua no máximo 1 linha curta de humor sagaz, sem banalizar o tema.";
      "" ].

Definition _build_snix_prompt
  (goals : Goals) (window : list Log.t) (focus : string)
  (include_notes : bool) : res (string * string * Stats.t) :=
  let compact := List.map (compact_of include_notes) window in
  do stats <- _summarize_window goals window;
  let user_payload :=
    {| up_focus := str_take 40 (str_or focus "ansiedade");
       up_goals := goals;
       up_stats := stats;
       up_logs := compact |} in
  Ok (snix_system_text, json_dumps user_payload, stats).

(** *** Coach orchestrator *)

(** What does not change while a request is served, other than the store
    and the cache: configuration, the current date, the provider and the
    random jitter of the retry loop. *)
Record World : Type := mkWorld {
  w_cfg : Config;
  w_today : Z;
  w_upstream : upstream_t;
  w_jitter : Z -> float
}.

(** What [snix_coach] has computed when it reaches the cache. *)
Record Prepared : Type := mkPrepared {
  p_days : Z;
  p_focus : string;
  p_goals : Goals;
  p_sel : Selection;
  p_system_text : string;
  p_user_text : string;
  p_stats : Stats.t;
  p_cache_key : string
}.

Definition clamp (lo hi v : Z) : Z := Z.max lo (Z.min hi v).

Definition internal_error (detail : string) : exn := HTTPException 500 detail.

Definition make_cache_key (days : Z) (focus : string) (include_notes : bool)
  (used_end : string) (n_window : Z) : string :=
  "days=" +:+ pretty days +:+ "|focus=" +:+ focus +:+ "|notes="
  +:+ (if include_notes then "1" else "0") +:+ "|end=" +:+ used_end
  +:+ "|n=" +:+ pretty n_window.

(** [snix_coach] from its first line to the cache key. *)
Definition coach_prepare (w : World) (db : Db) (payload : SnixCoachIn.t)
  : res Prepared :=
  let days := clamp 3 60 (SnixCoachIn.days payload) in
  let max_items := clamp 10 240 (SnixCoachIn.max_items payload) in
  let focus :=
    str_take 40 (str_strip (str_or (SnixCoachIn.focus payload) "ansiedade")) in
  let include_notes := SnixCoachIn.include_notes payload in
  match db_goals db with
  | None => Raise (internal_error "State não inicializado (id=1 ausente).")
  | Some goals =>
      let logs_desc := rows_desc (db_logs db) max_items in
      match logs_desc with
      | [] => Raise (unprocessable "Sem logs suficientes para análise do Snix.")
      | _ =>
          do sel <- _select_window_from_logs (w_today w) logs_desc days;
          let window := window sel in
          if len window <? 3 then
            Raise (unprocessable "Poucos dados na janela (mínimo 3 dias).")
          else
            do prompt <- _build_snix_prompt goals window focus include_notes;
            let '(system_text, user_text, stats) := prompt in
            Ok {| p_days := days;
                  p_focus := focus;
                  p_goals := goals;
                  p_sel := sel;
                  p_system_text := system_text;
                  p_user_text := user_text;
                  p_stats := stats;
                  p_cache_key :=
                    make_cache_key days focus include_notes
                      (used_end_date sel) (len window) |}
      end
  end.

Definition stats_out_of (p : Prepared) (m : LlmMeta) : StatsOut :=
  {| so_stats := p_stats p;
     so_sleepMin := sleepMin (p_goals p);
     window_start_selected := used_start_date (p_sel p);
     window_end_selected := used_end_date (p_sel p);
     so_used_past_only := used_past_only (p_sel p);
     so_future_count := future_count (p_sel p);
     llm_meta := m;
     cache_key := p_cache_key p |}.

Definition blocked_report : string :=
  join_lines
    [ "Sem resposta do Snix: a API bloqueou o conteúdo desta solicitação.";
      "Tente foco diferente (ex.: 'sono', 'rotina') ou desative include_notes." ].

Definition empty_report : string :=
  join_lines
    [ "Sem resposta do Snix (texto vazio).";
      "Aumente a janela (ex.: 21 dias) ou reduza notas (include_notes=false)." ].

Definition future_note : string :=
  join_lines
    [ ""; "";
      "Nota técnica: detectei registros em datas futuras. A inferência prioriza dados até a data atual; o futuro é melhor como planejamento." ].

(** A value is true in a condition when it is a non-empty text. *)
Definition truthy (o : option string) : bool :=
  match o with
  | Some s => negb (String.eqb s "")
  | None => false
  end.

(** The [try] body after a gateway call that returned [out]. *)
Definition answer_of_llm (w : World) (p : Prepared) (out : GenOut)
  : res SnixCoachOut.t :=
  let report := str_strip (text out) in
  let meta := meta out in
  let report := if truthy (block_reason meta) then blocked_report else report in
  let report := if String.eqb report "" then empty_report else report in
  let report := if 0 <? future_count (p_sel p)
                then report +:+ future_note else report in
  let stats_out := stats_out_of p (MetaOfGen meta) in
  do model <- _validate_gemini_model_name (GEMINI_MODEL (w_cfg w));
  Ok {| SnixCoachOut.ok := true;
        SnixCoachOut.coach := "Snix";
        SnixCoachOut.model := model;
        SnixCoachOut.days := p_days p;
        SnixCoachOut.n_logs_used := len (window (p_sel p));
        SnixCoachOut.report := report;
        SnixCoachOut.stats := stats_out |}.

(** The classification made by the [except HTTPException] handler. *)
Definition is_quota (detail : string) : bool :=
  str_contains " 429 " detail
  || str_contains "RESOURCE_EXHAUSTED" detail
  || str_contains "exceeded your current quota" detail.

Definition fallback_answer (p : Prepared) : SnixCoachOut.t :=
  let stats_out := stats_out_of p (MetaError "quota_exhausted") in
  {| SnixCoachOut.ok := true;
     SnixCoachOut.coach := "Snix";
     SnixCoachOut.model := "offline-fallback";
     SnixCoachOut.days := p_days p;
     SnixCoachOut.n_logs_used := len (window (p_sel p));
     SnixCoachOut.report := _snix_fallback_report stats_out (p_focus p);
     SnixCoachOut.stats := stats_out |}.

(** The gateway call [snix_coach] makes. *)
Definition coach_llm_call (w : World) (p : Prepared)
  : res GenOut * list event :=
  _gemini_generate (w_cfg w) (w_upstream w) (w_jitter w)
    (p_system_text p) (p_user_text p) (GEMINI_MODEL (w_cfg w))
    0x1.6666666666666p-2%float (SNIX_MAX_OUTPUT_TOKENS (w_cfg w))
    0x1.e666666666666p-1%float.

(** [snix_coach] from the cache lookup on; [now_get] and [now_set] are
    the clock readings of [_cache_get] and [_cache_set]. *)
Definition coach_answer (w : World) (p : Prepared) (cache : cache_t)
  (now_get now_set : float)
  : res SnixCoachOut.t * cache_t * list event :=
  match _cache_get (w_cfg w) now_get (p_cache_key p) cache with
  | (Some cached, cache) => (Ok cached, cache, [])
  | (None, cache) =>
      let '(llm, trace) := coach_llm_call w p in
      let tried := do out <- llm; answer_of_llm w p out in
      match tried with
      | Ok result =>
          (Ok result, _cache_set now_set (p_cache_key p) result cache, trace)
      | Raise (HTTPException status detail) =>
          if is_quota detail then
            let result := fallback_answer p in
            (Ok result, _cache_set now_set (p_cache_key p) result cache,
             trace)
          else (Raise (HTTPException status detail), cache, trace)
      | Raise e => (Raise e, cache, trace)
      end
  end.

Definition snix_coach (w : World) (db : Db) (cache : cache_t)
  (now_get now_set : float) (payload : SnixCoachIn.t)
  : res SnixCoachOut.t * cache_t * list event :=
  match coach_prepare w db payload with
  | Raise e => (Raise e, cache, [])
  | Ok p => coach_answer w p cache now_get now_set
  end.
End Coach.

(** ** Sample data used by the examples below *)

(** A request body with the given date and all other fields in range. *)
Definition sample_payload (d : string) : LogIn.t :=
  {| LogIn.date := d;
     LogIn.sleep := 7%float;
     LogIn.sleepQual := 4;
     LogIn.trained := true;
     LogIn.trainMin := 30;
     LogIn.trainType := Some "corrida";
     LogIn.foodScore := 4;
     LogIn.water := true;
     LogIn.meals := false;
     LogIn.mood := 6;
     LogIn.anxiety := 5;
     LogIn.notes := "" |}.

(** The row [sample_payload d] is stored as. *)
Definition sample_row (d : string) : Log.t :=
  {| Log.date := d;
     Log.sleep := 7%float;
     Log.sleepQual := 4;
     Log.trained := true;
     Log.trainMin := 30;
     Log.trainType := "corrida";
     Log.foodScore := 4;
     Log.water := true;
     Log.meals := false;
     Log.mood := 6;
     Log.anxiety := 5;
     Log.notes := "" |}.

(** A log with the given date, sleep, anxiety and training flag. *)
Definition day_log (d : string) (s : float) (a : Z) (t : bool) : Log.t :=
  {| Log.date := d;
     Log.sleep := s;
     Log.sleepQual := 3;
     Log.trained := t;
     Log.trainMin := if t then 20 else 0;
     Log.trainType := "";
     Log.foodScore := 3;
     Log.water := true;
     Log.meals := true;
     Log.mood := 5;
     Log.anxiety := a;
     Log.notes := "" |}.

(** Sample logs: three dated by 2024-01-07 and one after it; two dated by
    it and one after it. *)
Definition mixed_logs : list Log.t :=
  [ day_log "2024-01-09" 7 4 false; day_log "2024-01-07" 6 5 true;
    day_log "2024-01-06" 5 8 false; day_log "2024-01-05" 6 7 true ].

Definition sparse_logs : list Log.t :=
  [ day_log "2024-01-09" 7 4 false; day_log "2024-01-07" 6 5 true;
    day_log "2024-01-06" 5 8 false ].

(** The example week of the specification: seven consecutive days ending
    on 2024-01-07 (ordinal 738892). *)
Definition week_logs : list Log.t :=
  [ day_log "2024-01-01" 7 4 false; day_log "2024-01-02" 6 5 true;
    day_log "2024-01-03" 5 8 false; day_log "2024-01-04" 6 7 false;
    day_log "2024-01-05" 8 3 true; day_log "2024-01-06" 5 9 false;
    day_log "2024-01-07" 7 6 true ].

(** ** The train effect in the words of the specification

    Mean anxiety over the non-training days minus mean anxiety over the
    training days, rounded to three decimals; absent when all entries share
    the same [trained] value. *)

Definition mean_anxiety (group : list Log.t) : res float :=
  int_truediv (sum_Z (List.map Log.anxiety group)) (len group).

Definition same_trained (logs : list Log.t) : bool :=
  forallb Log.trained logs || forallb (fun l => negb (Log.trained l)) logs.

Definition train_effect_spec (logs : list Log.t) : res (option float) :=
  if same_trained logs then Ok None
  else
    do resting <- mean_anxiety (List.filter (fun l => negb (Log.trained l)) logs);
    do training <- mean_anxiety (List.filter Log.trained logs);
    Ok (Some (py_round (resting - training)%float 3)).

(** Logs that make the selector or the statistics engine raise. *)
Definition unparseable_logs : list Log.t := [ sample_row "2024-13-40" ].
Definition last_day_logs : list Log.t := [ sample_row "9999-12-31" ].

(** ** Real-number reading of the correlation *)




(** ** Sample configurations and worlds *)

(** The defaults of the source, with a key given ([0.8] is written in its
    binary64 form). *)
Definition default_config (key model : string) : Config :=
  {| GEMINI_API_KEY := key;
     GEMINI_MODEL := model;
     SNIX_CACHE_TTL_SEC := 900;
     SNIX_RETRIES := 3;
     SNIX_BACKOFF_BASE := 0x1.999999999999ap-1%float;
     SNIX_BACKOFF_CAP := 8%float;
     SNIX_MAX_OUTPUT_TOKENS := 800 |}.

Definition no_key_config : Config := default_config "" "gemini-2.5-flash".
Definition llama_config : Config := default_config "secret" "llama-3".
Definition good_config : Config := default_config "secret" "gemini-2.5-flash".

Definition undecodable : upstream_t :=
  fun _ _ => Raise (OtherError "Expecting value").
(** A provider that answers. *)
Definition answering : upstream_t :=
  fun _ _ => Ok {| text := "Durma mais cedo.";
                   meta := {| block_reason := None;
                              finish_reason := Some "STOP";
                              usage := None |};
                   raw_head := "" |}.

Definition no_jitter : Z -> float := fun _ => 0%float.

(** The example week in the store, with the default goals. *)
Definition week_db : Db :=
  {| db_goals := Some DEFAULT_GOALS;
     db_logs := list_to_map (List.map (fun l => (Log.date l, l)) week_logs) |}.

Definition week_request : SnixCoachIn.t :=
  {| SnixCoachIn.days := 14;
     SnixCoachIn.max_items := 60;
     SnixCoachIn.focus := "ansiedade";
     SnixCoachIn.include_notes := true |}.

(** Stand-ins for the two library printers, enough to run the examples. *)
Definition plain_repr : float -> string := fun _ => "<float>".
Definition plain_dumps : UserPayload -> string := fun _ => "{}".


Definition answering_world : World :=
  {| w_cfg := good_config; w_today := 738892;
     w_upstream := answering; w_jitter := no_jitter |}.

(** ** Further definitions: the store's invariant *)

(** The ranges [upsert_log] asks of a request body. *)
Definition payload_in_range (p : LogIn.t) : Prop :=
  out_of_range_f 0 24 (LogIn.sleep p) = false
  /\ 1 <= LogIn.sleepQual p <= 5
  /\ 1 <= LogIn.foodScore p <= 5
  /\ 0 <= LogIn.mood p <= 10
  /\ 0 <= LogIn.anxiety p <= 10
  /\ 0 <= LogIn.trainMin p <= 600.


(** The row a request body is stored as. *)
Definition row_of_payload (p : LogIn.t) : Log.t :=
  {| Log.date := LogIn.date p;
     Log.sleep := LogIn.sleep p;
     Log.sleepQual := LogIn.sleepQual p;
     Log.trained := LogIn.trained p;
     Log.trainMin := LogIn.trainMin p;
     Log.trainType := default "" (LogIn.trainType p);
     Log.foodScore := LogIn.foodScore p;
     Log.water := LogIn.water p;
     Log.meals := LogIn.meals p;
     Log.mood := LogIn.mood p;
     Log.anxiety := LogIn.anxiety p;
     Log.notes := LogIn.notes p |}.





(** ** Further definitions: order of logs *)

(** The order [sorted] and [ORDER BY date] use: date texts compared
    character by character. *)
Definition date_le (a b : Log.t) : Prop :=
  String.leb (Log.date a) (Log.date b) = true.

Definition date_ge (a b : Log.t) : Prop := date_le b a.

(** The logs whose date text is [k], in the order of the list. *)
Definition with_date (k : string) (logs : list Log.t) : list Log.t :=
  List.filter (fun l => String.eqb (Log.date l) k) logs.

(** ** Further definitions: the gateway's retry loop in closed form *)








(** ** Further definitions: the coach's answers *)

(** What every answer the coach builds satisfies. *)
Definition well_formed_answer (a : SnixCoachOut.t) : Prop :=
  SnixCoachOut.ok a = true
  /\ SnixCoachOut.coach a = "Snix"
  /\ 3 <= SnixCoachOut.days a <= 60
  /\ 3 <= SnixCoachOut.n_logs_used a <= 240
  /\ Stats.n (so_stats (SnixCoachOut.stats a)) = SnixCoachOut.n_logs_used a
  /\ SnixCoachOut.report a <> "".

(** A cache whose entries are well-formed answers, each stored under the
    fingerprint its statistics carry. *)
Definition cache_ok (cache : cache_t) : Prop :=
  forall (k : string) (item : CacheItem),
    cache !! k = Some item ->
    well_formed_answer (value item)
    /\ cache_key (SnixCoachOut.stats (value item)) = k.

(** ** Further definitions: what the statistics and the prompt read *)

(** Two logs that agree on the six fields [_summarize_window] reads. *)
Definition same_measures (a b : Log.t) : Prop :=
  Log.date a = Log.date b
  /\ Log.sleep a = Log.sleep b
  /\ Log.mood a = Log.mood b
  /\ Log.anxiety a = Log.anxiety b
  /\ Log.foodScore a = Log.foodScore b
  /\ Log.trained a = Log.trained b.

(** Two logs that agree on everything but the notes. *)
Definition same_but_notes (a b : Log.t) : Prop :=
  Log.date a = Log.date b
  /\ Log.sleep a = Log.sleep b
  /\ Log.sleepQual a = Log.sleepQual b
  /\ Log.trained a = Log.trained b
  /\ Log.trainMin a = Log.trainMin b
  /\ Log.trainType a = Log.trainType b
  /\ Log.foodScore a = Log.foodScore b
  /\ Log.water a = Log.water b
  /\ Log.meals a = Log.meals b
  /\ Log.mood a = Log.mood b
  /\ Log.anxiety a = Log.anxiety b.

(** The example week with a note on every day. *)
Definition week_logs_with_notes : list Log.t :=
  List.map (fun l =>
              {| Log.date := Log.date l; Log.sleep := Log.sleep l;
                 Log.sleepQual := Log.sleepQual l;
                 Log.trained := Log.trained l;
                 Log.trainMin := Log.trainMin l;
                 Log.trainType := Log.trainType l;
                 Log.foodScore := Log.foodScore l;
                 Log.water := Log.water l; Log.meals := Log.meals l;
                 Log.mood := Log.mood l; Log.anxiety := Log.anxiety l;
                 Log.notes := "dia difícil" |}) week_logs.

(** ** Goals ([_merge_goals]) *)

(** A value of a goals dictionary as [json.loads] or the request body
    gives it.  The items of a list and the entries of an inner dictionary
    are not kept: [int] and [float] reject both whatever they hold. *)
Inductive JVal : Type :=
| JNull
| JBool (b : bool)
| JInt (z : Z)
| JFloat (f : float)
| JStr (s : string)
| JArray
| JObject.

(** [int(x)] on a [float]: the integer part; NaN raises [ValueError], an
    infinity raises [OverflowError]. *)
Definition float_to_int (f : float) : res Z :=
  match Prim2SF f with
  | S754_zero _ => Ok 0
  | S754_finite s m e =>
      let magnitude := if 0 <=? e then Z.pos m * 2 ^ e
                       else Z.pos m / 2 ^ (- e) in
      Ok (if s then - magnitude else magnitude)
  | S754_infinity _ => Raise OverflowError
  | S754_nan => Raise ValueError
  end.

(** [float(z)] on an [int]: the nearest binary64, [OverflowError] beyond
    the range. *)
Definition int_to_float (z : Z) : res float :=
  let r := Z2F z in
  if PrimFloat.is_infinity r then Raise OverflowError else Ok r.

(** [DEFAULT_GOALS] as the dictionary the source writes. *)
Definition default_goals_dict : gmap string JVal :=
  {[ "sleepMin" := JFloat 7;
     "workoutsPerWeek" := JInt 3;
     "foodTarget" := JInt 4;
     "anxietyMax" := JInt 6 ]}.

(** A goals record as a dictionary. *)
Definition goals_dict (g : Goals) : gmap string JVal :=
  {[ "sleepMin" := JFloat (sleepMin g);
     "workoutsPerWeek" := JInt (workoutsPerWeek g);
     "foodTarget" := JInt (foodTarget g);
     "anxietyMax" := JInt (anxietyMax g) ]}.

(** The four keys [_merge_goals] reads. *)
Definition goal_keys : list string :=
  [ "sleepMin"; "workoutsPerWeek"; "foodTarget"; "anxietyMax" ].

Section MergeGoals.
(** [int(s)] and [float(s)] on a text are Python's parsers of number
    literals, kept as parameters; [None] stands for the exception. *)
Variable int_of_str : string -> option Z.
Variable float_of_str : string -> option float.

(** [int(x)] *)
Definition py_int (x : JVal) : res Z :=
  match x with
  | JInt z => Ok z
  | JBool b => Ok (if b then 1 else 0)
  | JFloat f => float_to_int f
  | JStr s => match int_of_str s with Some z => Ok z | None => Raise ValueError end
  | JNull | JArray | JObject => Raise (OtherError "TypeError")
  end.

(** [float(x)] *)
Definition py_float (x : JVal) : res float :=
  match x with
  | JFloat f => Ok f
  | JInt z => int_to_float z
  | JBool b => Ok (if b then 1 else 0)%float
  | JStr s =>
      match float_of_str s with Some f => Ok f | None => Raise ValueError end
  | JNull | JArray | JObject => Raise (OtherError "TypeError")
  end.

(** The local [as_int] and [as_float]: any exception gives the default. *)
Definition as_int (x : JVal) (default : Z) : Z :=
  match py_int x with Ok v => v | Raise _ => default end.

Definition as_float (x : JVal) (default : float) : float :=
  match py_float x with Ok v => v | Raise _ => default end.

(** [g.get(k)] *)
Definition dict_get (g : gmap string JVal) (k : string) : JVal :=
  default JNull (g !! k).

Definition _merge_goals (goals : gmap string JVal) : Goals :=
  let g := goals ∪ default_goals_dict in
  {| sleepMin := as_float (dict_get g "sleepMin") (sleepMin DEFAULT_GOALS);
     workoutsPerWeek :=
       as_int (dict_get g "workoutsPerWeek") (workoutsPerWeek DEFAULT_GOALS);
     foodTarget := as_int (dict_get g "foodTarget") (foodTarget DEFAULT_GOALS);
     anxietyMax := as_int (dict_get g "anxietyMax") (anxietyMax DEFAULT_GOALS) |}.
End MergeGoals.

(** Stand-ins for the two parsers, enough to run the examples: they accept
    no text. *)
Definition no_int : string -> option Z := fun _ => None.
Definition no_float : string -> option float := fun _ => None.

(** ** Further definitions: canonical date texts *)

Definition is_digit (c : ascii) : bool :=
  match digit_of c with Some _ => true | None => false end.

(** A date text written as [isoformat] writes dates: four digits, two
    digits and two digits, with a dash after the fourth and the sixth. *)
Definition canonical_date_text (s : string) : bool :=
  match chars s with
  | [a; b; c; d; p; e; f; q; g; h] =>
      is_digit a && is_digit b && is_digit c && is_digit d && is_dash p
      && is_digit e && is_digit f && is_dash q && is_digit g && is_digit h
  | _ => false
  end.

(** * Properties *)

(** ** Dates *)

Example parse_plain : _parse_yyyy_mm_dd "2024-01-07" = Ok 738892.
Proof. reflexivity. Qed.

Example parse_space_day : _parse_yyyy_mm_dd "2024-01- 7" = Ok 738892.
Proof. reflexivity. Qed.

Example parse_bad_month : _parse_yyyy_mm_dd "2024-13-40" = Raise ValueError.
Proof. reflexivity. Qed.

Example parse_slashes : _parse_yyyy_mm_dd "2024/01/01" = Raise ValueError.
Proof. reflexivity. Qed.

Example parse_last_day : _parse_yyyy_mm_dd "9999-12-31" = Ok MAXORDINAL.
Proof. reflexivity. Qed.

Example isoformat_example : isoformat 738892 = "2024-01-07".
Proof. reflexivity. Qed.

Example isoformat_first : isoformat 1 = "0001-01-01".
Proof. reflexivity. Qed.


(** ** Results *)

Lemma res_bind_ok {A B : Type} (r : res A) (k : A -> res B) (b : B) :
  res_bind r k = Ok b -> exists a, r = Ok a /\ k a = Ok b.
Proof.
  destruct r as [a|e]; cbn; intros H; [eauto | discriminate].
Qed.

(** ** The upsert endpoint *)

Lemma is_dash_true (c : ascii) : is_dash c = true <-> c = "-"%char.
Proof.
  unfold is_dash, code_of. split.
  - intros H. apply Z.eqb_eq in H.
    rewrite <- (ascii_N_embedding c).
    replace (N_of_ascii c) with 45%N by lia. reflexivity.
  - intros ->. reflexivity.
Qed.

Lemma not_dash_at_shape (d : string) (i : nat) :
  (i < String.length d)%nat ->
  exists c, char_at i d = Some c /\ not_dash_at d i = Ok (negb (is_dash c)).
Proof.
  unfold not_dash_at, str_index, char_at.
  revert i. induction d as [|a d IH]; intros i Hi; cbn in Hi; [lia|].
  destruct i as [|i]; cbn.
  - eauto.
  - apply IH. lia.
Qed.

(** The guard never raises, and it lets a text through exactly when the
    text has the required shape. *)
Lemma date_guard_fails_shape (d : string) :
  (date_guard_fails d = Ok false /\ date_shape d)
  \/ (date_guard_fails d = Ok true /\ ~ date_shape d).
Proof.
  unfold date_guard_fails, date_shape, py_or.
  destruct (Nat.eqb_spec (String.length d) 10) as [Hlen|Hlen]; cbn.
  - destruct (not_dash_at_shape d 4) as (c4 & H4 & G4); [lia|].
    destruct (not_dash_at_shape d 7) as (c7 & H7 & G7); [lia|].
    rewrite G4, G7, H4, H7. cbn.
    destruct (is_dash c4) eqn:E4; cbn.
    + apply is_dash_true in E4. subst c4.
      destruct (is_dash c7) eqn:E7; cbn.
      * apply is_dash_true in E7. subst c7. left. auto.
      * right. split; [reflexivity|]. intros (_ & _ & H).
        injection H as ->. discriminate.
    + right. split; [reflexivity|]. intros (_ & H & _).
      injection H as ->. discriminate.
  - right. split; [reflexivity|]. intros (H & _). contradiction.
Qed.

Lemma validate_log_bad_date (p : LogIn.t) :
  ~ date_shape (LogIn.date p) ->
  validate_log p = Raise (unprocessable date_format_detail).
Proof.
  intros Hbad. unfold validate_log.
  destruct (date_guard_fails_shape (LogIn.date p)) as [[_ H]|[-> _]];
    [contradiction | reflexivity].
Qed.

Lemma validate_log_good_date (p : LogIn.t) :
  date_shape (LogIn.date p) ->
  validate_log p <> Raise (unprocessable date_format_detail).
Proof.
  intros Hgood. unfold validate_log.
  destruct (date_guard_fails_shape (LogIn.date p)) as [[-> _]|[_ H]];
    [|contradiction].
  cbn.
  repeat match goal with
         | |- context [if ?b then _ else _] => destruct b
         end; discriminate.
Qed.

(** C8. Upserting a log whose date text is malformed (not ten characters
    with dashes at positions 4 and 7, as "2024/01/01") fails with the
    date-format validation error and the log store afterwards is the store
    before: no row is inserted, changed or removed. *)
Theorem upsert_malformed_date_keeps_store (db : store) (p : LogIn.t) :
  ~ date_shape (LogIn.date p) ->
  upsert_log db p = (Raise (unprocessable date_format_detail), db).
Proof.
  intros Hbad. unfold upsert_log.
  rewrite (validate_log_bad_date p Hbad). reflexivity.
Qed.

Lemma upsert_malformed_date_keeps_store_witness :
  let db : store := {[ "2024-01-01" := sample_row "2024-01-01" ]} in
  ~ date_shape "2024/01/01"
  /\ upsert_log db (sample_payload "2024/01/01")
     = (Raise (unprocessable date_format_detail), db).
Proof.
  split.
  - intros (_ & H & _). discriminate H.
  - apply (upsert_malformed_date_keeps_store _ (sample_payload "2024/01/01")).
    intros (_ & H & _). discriminate H.
Defined.

(** C9. The upsert endpoint answers with the date-format validation error
    exactly when the date text fails the shape test (ten characters, dashes
    at positions 4 and 7); a text that passes the test without being a
    calendar date, such as "2024-13-40", is accepted and its row is stored
    under that very text. *)
Theorem upsert_date_error_iff_shape :
  (forall (db : store) (p : LogIn.t),
      fst (upsert_log db p) = Raise (unprocessable date_format_detail)
      <-> ~ date_shape (LogIn.date p))
  /\ (date_shape "2024-13-40"
      /\ _parse_yyyy_mm_dd "2024-13-40" = Raise ValueError
      /\ forall db : store,
          upsert_log db (sample_payload "2024-13-40")
          = (Ok tt, <["2024-13-40" := sample_row "2024-13-40"]> db)
          /\ snd (upsert_log db (sample_payload "2024-13-40")) !! "2024-13-40"
             = Some (sample_row "2024-13-40")).
Proof.
  split.
  - intros db p. split.
    + intros H Hshape. unfold upsert_log in H.
      pose proof (validate_log_good_date p Hshape) as Hne.
      destruct (validate_log p) as [row|e]; cbn in H; [discriminate|].
      congruence.
    + intros Hbad. unfold upsert_log.
      rewrite (validate_log_bad_date p Hbad). reflexivity.
  - split; [|split].
    + repeat split.
    + reflexivity.
    + intros db.
      assert (upsert_log db (sample_payload "2024-13-40")
              = (Ok tt, <["2024-13-40" := sample_row "2024-13-40"]> db)) as ->
          by reflexivity.
      split; [reflexivity|]. cbn. apply lookup_insert_eq.
Qed.

(** ** The window selector *)

Lemma split_by_today_fst (today : Z) (logs : list Log.t) :
  fst (split_by_today today logs) = List.filter (dated_by today) logs.
Proof.
  induction logs as [|l rest IH]; [reflexivity|].
  cbn. unfold dated_by at 1.
  destruct (split_by_today today rest) as [p f]. cbn in IH. subst p.
  destruct (_parse_yyyy_mm_dd (Log.date l)) as [d|e]; [|reflexivity].
  destruct (d <=? today); reflexivity.
Qed.

Lemma split_by_today_snd (today : Z) (logs : list Log.t) :
  snd (split_by_today today logs) = List.filter (dated_after today) logs.
Proof.
  induction logs as [|l rest IH]; [reflexivity|].
  cbn. unfold dated_after at 1.
  destruct (split_by_today today rest) as [p f]. cbn in IH. subst f.
  destruct (_parse_yyyy_mm_dd (Log.date l)) as [d|e]; [|reflexivity].
  destruct (Z.leb_spec d today), (Z.ltb_spec today d); try lia; reflexivity.
Qed.

Lemma In_insert_by_date (x l : Log.t) (sorted : list Log.t) :
  In x (insert_by_date l sorted) <-> x = l \/ In x sorted.
Proof.
  induction sorted as [|h t IH]; cbn.
  - intuition.
  - destruct (String.leb (Log.date l) (Log.date h)); cbn; intuition.
Qed.

Lemma In_sorted_by_date (x : Log.t) (logs : list Log.t) :
  In x (sorted_by_date logs) <-> In x logs.
Proof.
  induction logs as [|l rest IH]; cbn; [tauto|].
  rewrite In_insert_by_date. intuition.
Qed.

Lemma insert_by_date_not_nil (l : Log.t) (sorted : list Log.t) :
  insert_by_date l sorted <> [].
Proof.
  destruct sorted as [|h t]; cbn; [discriminate|].
  destruct (String.leb (Log.date l) (Log.date h)); discriminate.
Qed.

Lemma last_item_In {A : Type} (l : list A) (x : A) :
  last_item l = Ok x -> In x l.
Proof.
  induction l as [|a [|b t] IH]; cbn; intros H.
  - discriminate.
  - injection H as ->. auto.
  - right. apply IH. exact H.
Qed.

Lemma last_item_total {A : Type} (l : list A) :
  l <> [] -> exists x, last_item l = Ok x.
Proof.
  induction l as [|a [|b t] IH]; intros Hne.
  - contradiction.
  - eauto.
  - apply IH. discriminate.
Qed.

Lemma select_base_past (today : Z) (logs : list Log.t) :
  (3 <= List.length (List.filter (dated_by today) logs))%nat ->
  select_base today logs = List.filter (dated_by today) logs.
Proof.
  intros H. unfold select_base.
  pose proof (split_by_today_fst today logs) as E.
  destruct (split_by_today today logs) as [p f]. cbn in E. subst p.
  unfold len. destruct (Z.leb_spec 3 (Z.of_nat (List.length (List.filter (dated_by today) logs)))); [reflexivity | lia].
Qed.

Lemma select_base_all (today : Z) (logs : list Log.t) :
  (List.length (List.filter (dated_by today) logs) < 3)%nat ->
  select_base today logs = logs.
Proof.
  intros H. unfold select_base.
  pose proof (split_by_today_fst today logs) as E.
  destruct (split_by_today today logs) as [p f]. cbn in E. subst p.
  unfold len. destruct (Z.leb_spec 3 (Z.of_nat (List.length (List.filter (dated_by today) logs)))); [lia | reflexivity].
Qed.

(** What a returned selection is made of. *)
Lemma select_window_inv (today : Z) (logs : list Log.t) (days : Z)
  (sel : Selection) :
  _select_window_from_logs today logs days = Ok sel ->
  used_past_only sel
  = (3 <=? len (List.filter (dated_by today) logs))
  /\ future_count sel = len (List.filter (dated_after today) logs)
  /\ forall l, In l (window sel) ->
       In l (select_base today logs) /\ is_ok (_parse_yyyy_mm_dd (Log.date l)) = true.
Proof.
  unfold _select_window_from_logs.
  pose proof (split_by_today_fst today logs) as E1.
  pose proof (split_by_today_snd today logs) as E2.
  destruct (split_by_today today logs) as [p f]. cbn in E1, E2. subst p f.
  intros H.
  apply res_bind_ok in H as (newest & _ & H).
  apply res_bind_ok in H as (end_date & _ & H).
  apply res_bind_ok in H as (start_date & _ & H).
  injection H as <-. cbn. split; [reflexivity|]. split; [reflexivity|].
  intros l Hl. apply filter_In in Hl as [Hin Hw].
  apply (proj1 (In_sorted_by_date _ _)) in Hin. split; [exact Hin|].
  unfold in_window in Hw.
  destruct (_parse_yyyy_mm_dd (Log.date l)); [reflexivity | discriminate].
Qed.

(** When three logs or more are dated by today the selector returns as
    soon as the window start is a representable date. *)
Lemma select_window_returns (today : Z) (logs : list Log.t) (days : Z) :
  (3 <= List.length (List.filter (dated_by today) logs))%nat ->
  1 <= days -> today <= MAXORDINAL ->
  (forall l d, In l logs -> _parse_yyyy_mm_dd (Log.date l) = Ok d -> days <= d) ->
  is_ok (_select_window_from_logs today logs days) = true.
Proof.
  intros Hn Hdays Htoday Hold.
  unfold _select_window_from_logs.
  destruct (split_by_today today logs) as [p f].
  rewrite (select_base_past today logs Hn).
  set (base := List.filter (dated_by today) logs) in *.
  assert (Hne : sorted_by_date base <> []).
  { destruct base as [|b rest]; [cbn in Hn; lia|].
    cbn. apply insert_by_date_not_nil. }
  destruct (last_item_total _ Hne) as (newest & Hlast).
  rewrite Hlast. cbn.
  apply last_item_In in Hlast.
  apply (proj1 (In_sorted_by_date _ _)) in Hlast.
  apply filter_In in Hlast as [Hin Hdated].
  unfold dated_by in Hdated.
  destruct (_parse_yyyy_mm_dd (Log.date newest)) as [d|e] eqn:Hparse;
    [|discriminate].
  cbn. specialize (Hold newest d Hin Hparse).
  apply Z.leb_le in Hdated.
  unfold date_add_days.
  destruct (Z.ltb_spec 0 (d + - (days - 1))); [|lia].
  destruct (Z.leb_spec (d + - (days - 1)) MAXORDINAL); [|lia].
  reflexivity.
Qed.

(** C4. When the log list holds three entries or more dated on or before
    the current date, every entry of the selected window is dated on or
    before the current date and [used_past_only] is true (and the selector
    does return, the window start being a representable date); with fewer
    than three such entries the base is the whole list, [used_past_only] is
    false, and a future-dated entry can be part of the window. *)
Theorem window_has_no_future_entry :
  (forall (today : Z) (logs_desc : list Log.t) (days : Z),
      (3 <= List.length (List.filter (dated_by today) logs_desc))%nat ->
      (forall sel, _select_window_from_logs today logs_desc days = Ok sel ->
                   Forall (fun l => dated_by today l = true) (window sel)
                   /\ used_past_only sel = true)
      /\ (1 <= days -> today <= MAXORDINAL ->
          (forall l d, In l logs_desc ->
                       _parse_yyyy_mm_dd (Log.date l) = Ok d -> days <= d) ->
          is_ok (_select_window_from_logs today logs_desc days) = true))
  /\ (forall (today : Z) (logs_desc : list Log.t) (days : Z),
         (List.length (List.filter (dated_by today) logs_desc) < 3)%nat ->
         select_base today logs_desc = logs_desc
         /\ forall sel, _select_window_from_logs today logs_desc days = Ok sel ->
                        used_past_only sel = false)
  /\ (exists sel,
         _select_window_from_logs 738892 sparse_logs 14 = Ok sel
         /\ Exists (fun l => dated_after 738892 l = true) (window sel)).
Proof.
  split; [|split].
  - intros today logs days Hn. split.
    + intros sel Hsel.
      destruct (select_window_inv _ _ _ _ Hsel) as (Hpast & _ & Hwin).
      split.
      * apply List.Forall_forall. intros l Hl.
        destruct (Hwin l Hl) as [Hbase _].
        rewrite (select_base_past today logs Hn) in Hbase.
        apply filter_In in Hbase. tauto.
      * rewrite Hpast. apply Z.leb_le. unfold len. lia.
    + intros. apply select_window_returns; assumption.
  - intros today logs days Hn. split.
    + apply select_base_all. exact Hn.
    + intros sel Hsel.
      destruct (select_window_inv _ _ _ _ Hsel) as (Hpast & _).
      rewrite Hpast. apply Z.leb_gt. unfold len. lia.
  - eexists. split; [reflexivity|].
    do 2 apply Exists_cons_tl. apply Exists_cons_hd. reflexivity.
Qed.

Lemma window_has_no_future_entry_witness :
  exists sel,
    _select_window_from_logs 738892 mixed_logs 14 = Ok sel
    /\ Forall (fun l => dated_by 738892 l = true) (window sel)
    /\ used_past_only sel = true
    /\ List.length (window sel) = 3%nat.
Proof.
  eexists. split; [reflexivity|].
  assert (Hn : (3 <= List.length (List.filter (dated_by 738892) mixed_logs))%nat)
    by (vm_compute; lia).
  destruct (proj1 (proj1 window_has_no_future_entry 738892 mixed_logs 14 Hn)
              _ eq_refl) as [Hall Hflag].
  split; [exact Hall|]. split; [exact Hflag|]. reflexivity.
Defined.

(** ** The statistics engine *)

Lemma len_map {A B : Type} (f : A -> B) (l : list A) :
  len (List.map f l) = len l.
Proof. unfold len. rewrite List.length_map. reflexivity. Qed.

Lemma max_of_In (x : Z) (xs : list Z) : In (max_of x xs) (x :: xs).
Proof.
  unfold max_of. revert x. induction xs as [|y ys IH]; intros x; cbn.
  - auto.
  - destruct (IH (Z.max x y)) as [H|H].
    + rewrite <- H.
      destruct (Z.max_spec x y) as [[_ E]|[_ E]]; rewrite E; auto.
    + auto.
Qed.

Lemma index_of_In (v : Z) (xs : list Z) :
  In v xs -> exists i, index_of v xs = Ok i /\ (i < List.length xs)%nat.
Proof.
  induction xs as [|x rest IH]; intros Hin; [destruct Hin|].
  cbn. destruct (Z.eqb_spec x v) as [->|Hne].
  - exists O. split; [reflexivity | lia].
  - destruct Hin as [->|Hin]; [contradiction|].
    destruct (IH Hin) as (i & -> & Hi). exists (S i). cbn.
    split; [reflexivity | lia].
Qed.

Lemma item_at_lt {A : Type} (l : list A) (i : nat) :
  (i < List.length l)%nat -> exists x, item_at l i = Ok x /\ l !! i = Some x.
Proof.
  intros Hi. unfold item_at.
  destruct (lookup_lt_is_Some_2 l i Hi) as [x ->]. eauto.
Qed.

(** The part of [_summarize_window] that locates the anxiety peak always
    returns. *)
Lemma peak_returns (logs : list Log.t) :
  let anx := List.map Log.anxiety logs in
  exists (i : nat) (pd : option string),
    match anx with [] => Ok O
              | _ => index_of (match anx with [] => 0 | a :: r => max_of a r end) anx
    end = Ok i
    /\ match logs with
       | [] => Ok None
       | _ => do l <- item_at logs i; Ok (Some (Log.date l))
       end = Ok pd
    /\ pd = Log.date <$> logs !! i.
Proof.
  destruct logs as [|l rest]; cbn zeta.
  - exists O, None. repeat split.
  - cbn [List.map].
    destruct (index_of_In _ _ (max_of_In (Log.anxiety l)
                                  (List.map Log.anxiety rest)))
      as (i & Hi & Hlt).
    cbn [List.length] in Hlt. rewrite List.length_map in Hlt.
    destruct (item_at_lt (l :: rest) i) as (x & Hx & Hlook);
      [cbn; lia|].
    exists i, (Some (Log.date x)).
    rewrite Hi, Hx, Hlook. repeat split.
Qed.

(** A float quotient raises on a zero divisor only. *)
Lemma float_truediv_ok (x y : float) :
  PrimFloat.eqb y 0 = false -> float_truediv x y = Ok (x / y)%float.
Proof. intros H. unfold float_truediv. rewrite H. reflexivity. Qed.

Lemma length_last3 {A : Type} (l : list A) :
  (6 <= List.length l)%nat -> List.length (last3 l) = 3%nat.
Proof. intros H. unfold last3. rewrite List.length_skipn. lia. Qed.

Lemma length_prev3 {A : Type} (l : list A) :
  (6 <= List.length l)%nat -> List.length (prev3 l) = 3%nat.
Proof.
  intros H. unfold prev3. rewrite List.length_firstn, List.length_skipn. lia.
Qed.

Lemma mean_key_three (key : Log.t -> float) (arr : list Log.t) :
  List.length arr = 3%nat -> exists v, mean_key key arr = Ok v.
Proof.
  intros H. unfold mean_key, len. rewrite H.
  eexists. apply float_truediv_ok. reflexivity.
Qed.

Lemma delta_of_returns (key : Log.t -> float) (logs : list Log.t) :
  (6 <= List.length logs)%nat -> exists v, delta_of key logs = Ok v.
Proof.
  intros H. unfold delta_of.
  destruct (mean_key_three key (last3 logs) (length_last3 _ H)) as (a & ->).
  destruct (mean_key_three key (prev3 logs) (length_prev3 _ H)) as (b & ->).
  cbn. eauto.
Qed.

(** The trend part always returns; its fields are present from six logs
    on. *)
Lemma trend_of_returns (logs : list Log.t) :
  exists t, trend_of logs = Ok t /\ is_some t = (6 <=? len logs).
Proof.
  unfold trend_of, len.
  destruct (Z.leb_spec 6 (Z.of_nat (List.length logs))) as [H|H].
  - assert (H6 : (6 <= List.length logs)%nat) by lia.
    destruct (delta_of_returns (fun l => Z2F (Log.anxiety l)) logs H6)
      as (da & ->).
    destruct (delta_of_returns (fun l => float_or0 (Log.sleep l)) logs H6)
      as (ds & ->).
    destruct (delta_of_returns (fun l => Z2F (Log.mood l)) logs H6)
      as (dm & ->).
    cbn. eauto.
  - eauto.
Qed.

(** The loop over the calendar days returns unless it steps past the last
    representable date. *)
Lemma missing_loop_returns (steps : nat) (cur : Z) (have : gset Z) (m : Z) :
  0 <= cur -> cur + Z.of_nat steps <= MAXORDINAL ->
  exists m', missing_loop steps cur have m = Ok m'.
Proof.
  revert cur m. induction steps as [|k IH]; intros cur m Hlo Hhi; cbn.
  - eauto.
  - unfold date_add_days.
    destruct (Z.ltb_spec 0 (cur + 1)); [|lia].
    destruct (Z.leb_spec (cur + 1) MAXORDINAL); [|lia].
    cbn. apply IH; lia.
Qed.

Lemma min_of_lower (lo x : Z) (xs : list Z) :
  lo <= x -> Forall (fun d => lo <= d) xs -> lo <= min_of x xs.
Proof.
  unfold min_of. revert x. induction xs as [|y ys IH]; intros x Hx Hall; cbn.
  - exact Hx.
  - apply Forall_cons_1 in Hall as [Hy Hys]. apply IH; [lia | exact Hys].
Qed.

Lemma min_of_upper (x : Z) (xs : list Z) : min_of x xs <= x.
Proof.
  unfold min_of. revert x. induction xs as [|y ys IH]; intros x; cbn.
  - lia.
  - specialize (IH (Z.min x y)). lia.
Qed.

Lemma max_of_upper (hi x : Z) (xs : list Z) :
  x <= hi -> Forall (fun d => d <= hi) xs -> max_of x xs <= hi.
Proof.
  unfold max_of. revert x. induction xs as [|y ys IH]; intros x Hx Hall; cbn.
  - exact Hx.
  - apply Forall_cons_1 in Hall as [Hy Hys]. apply IH; [lia | exact Hys].
Qed.

(** What a returned statistics record holds: each field is the value of
    the corresponding part of [_summarize_window]. *)
Lemma summarize_inv (goals : Goals) (logs : list Log.t) (st : Stats.t) :
  _summarize_window goals logs = Ok st ->
  Stats.n st = len logs
  /\ Stats.anxiety_limit st = anxietyMax goals
  /\ Stats.high_anxiety_days st
     = count_if (fun a => anxietyMax goals <? a) (List.map Log.anxiety logs)
  /\ Stats.workouts st = count_if (fun t : bool => t) (List.map Log.trained logs)
  /\ Stats.peak_anxiety st
     = match List.map Log.anxiety logs with [] => 0 | a :: r => max_of a r end
  /\ (exists i,
         match List.map Log.anxiety logs with
         | [] => Ok O
         | _ => index_of (Stats.peak_anxiety st) (List.map Log.anxiety logs)
         end = Ok i
         /\ Stats.peak_date st = Log.date <$> logs !! i)
  /\ train_effect_of (List.map Log.anxiety logs) (List.map Log.trained logs)
     = Ok (Stats.train_effect st)
  /\ (exists c,
         _pearson_corr binary64
           (List.map (fun l => float_or0 (Log.sleep l)) logs)
           (List.map Z2F (List.map Log.anxiety logs)) = Ok c
         /\ Stats.corr_sleep_vs_anxiety st = option_map (fun r => py_round r 3) c)
  /\ trend_of logs = Ok (Stats.trend st)
  /\ (exists q,
         float_truediv (sum_F (List.map (fun l => float_or0 (Log.sleep l)) logs))
                       (Z2F (len logs)) = Ok q
         /\ Stats.avg_sleep st = py_round q 2)
  /\ avg_int (List.map Log.mood logs) (len logs) = Ok (Stats.avg_mood st)
  /\ avg_int (List.map Log.anxiety logs) (len logs) = Ok (Stats.avg_anxiety st)
  /\ avg_int (List.map Log.foodScore logs) (len logs) = Ok (Stats.avg_food st).
Proof.
  unfold _summarize_window. intros H.
  apply res_bind_ok in H as (peak_idx & Hidx & H).
  apply res_bind_ok in H as (pd & Hpd & H).
  apply res_bind_ok in H as (te & Hte & H).
  apply res_bind_ok in H as (corr & Hcorr & H).
  apply res_bind_ok in H as (dts & Hdts & H).
  apply res_bind_ok in H as (missing & Hmiss & H).
  apply res_bind_ok in H as (tr & Htr & H).
  apply res_bind_ok in H as (q & Hq & H).
  apply res_bind_ok in H as (am & Ham & H).
  apply res_bind_ok in H as (aa & Haa & H).
  apply res_bind_ok in H as (af & Haf & H).
  injection H as <-. cbn.
  repeat match goal with |- _ /\ _ => split end; try reflexivity;
    try assumption.
  - exists peak_idx. split; [exact Hidx|].
    destruct logs as [|l rest]; cbn in *.
    + injection Hpd as <-. injection Hidx as <-. reflexivity.
    + apply res_bind_ok in Hpd as (x & Hx & Hpd). injection Hpd as <-.
      unfold item_at in Hx.
      destruct ((l :: rest) !! peak_idx) as [y|]; [|discriminate].
      injection Hx as ->. reflexivity.
  - exists corr. split; [exact Hcorr | reflexivity].
  - exists q. split; [exact Hq | reflexivity].
Qed.

(** Conditions under which [_summarize_window] returns a record. *)
Lemma summarize_returns (goals : Goals) (logs : list Log.t) (dts : list Z) :
  is_ok (train_effect_of (List.map Log.anxiety logs)
                         (List.map Log.trained logs)) = true ->
  is_ok (_pearson_corr binary64
           (List.map (fun l => float_or0 (Log.sleep l)) logs)
           (List.map Z2F (List.map Log.anxiety logs))) = true ->
  map_res (fun l => _parse_yyyy_mm_dd (Log.date l)) logs = Ok dts ->
  Forall (fun d => 1 <= d) dts ->
  Forall (fun d => d <= MAXORDINAL - 1) dts ->
  PrimFloat.eqb (Z2F (len logs)) 0 = false ->
  is_ok (avg_int (List.map Log.mood logs) (len logs)) = true ->
  is_ok (avg_int (List.map Log.anxiety logs) (len logs)) = true ->
  is_ok (avg_int (List.map Log.foodScore logs) (len logs)) = true ->
  exists st, _summarize_window goals logs = Ok st.
Proof.
  intros Hte Hcorr Hdts Hlo Hhi Hn Ham Haa Haf.
  unfold _summarize_window.
  destruct (peak_returns logs) as (i & pd & Hi & Hpd & _). cbn zeta in Hi.
  rewrite Hi. cbn [res_bind]. rewrite Hpd. cbn [res_bind].
  destruct (train_effect_of _ _) as [te|]; [|discriminate]. cbn [res_bind].
  destruct (_pearson_corr _ _ _) as [c|]; [|discriminate]. cbn [res_bind].
  rewrite Hdts. cbn [res_bind].
  assert (Hmiss : exists m,
             match match dts with [] => None | d :: r => Some (min_of d r) end,
                   match dts with [] => None | d :: r => Some (max_of d r) end
             with
             | Some s, Some e =>
                 missing_loop (Z.to_nat (e - s + 1)) s (list_to_set dts) 0
             | _, _ => Ok 0
             end = Ok m).
  { destruct dts as [|d r]; [eauto|].
    apply Forall_cons_1 in Hlo as [Hlo1 Hlo2].
    apply Forall_cons_1 in Hhi as [Hhi1 Hhi2].
    pose proof (min_of_lower 1 d r Hlo1 Hlo2).
    pose proof (min_of_upper d r).
    pose proof (max_of_upper (MAXORDINAL - 1) d r Hhi1 Hhi2).
    apply missing_loop_returns; lia. }
  destruct Hmiss as (m & ->). cbn [res_bind].
  destruct (trend_of_returns logs) as (t & -> & _). cbn [res_bind].
  rewrite (float_truediv_ok _ _ Hn). cbn [res_bind].
  destruct (avg_int (List.map Log.mood logs) _) as [am|]; [|discriminate].
  destruct (avg_int (List.map Log.anxiety logs) _) as [aa|]; [|discriminate].
  destruct (avg_int (List.map Log.foodScore logs) _) as [af|]; [|discriminate].
  cbn [res_bind]. eauto.
Qed.

Lemma map_res_of_map {A B : Type} (f : A -> res B) (l : list A) (vs : list B) :
  List.map f l = List.map Ok vs -> map_res f l = Ok vs.
Proof.
  revert vs. induction l as [|x rest IH]; intros [|v vs] H;
    try discriminate; [reflexivity|].
  cbn in H. injection H as Hx Hrest. cbn. rewrite Hx. cbn.
  rewrite (IH vs Hrest). reflexivity.
Qed.

Lemma fold_left_add_shift (xs : list Z) (a : Z) :
  List.fold_left Z.add xs a = a + sum_Z xs.
Proof.
  unfold sum_Z. revert a. induction xs as [|x rest IH]; intros a; cbn.
  - lia.
  - rewrite (IH (a + x)), (IH (0 + x)). lia.
Qed.

Lemma sum_Z_bounds (lo hi : Z) (xs : list Z) :
  Forall (fun x => lo <= x <= hi) xs ->
  lo * len xs <= sum_Z xs <= hi * len xs.
Proof.
  unfold len. induction 1 as [|x rest Hx Hall IH].
  - cbn. lia.
  - unfold sum_Z. cbn [List.fold_left List.length].
    rewrite fold_left_add_shift. lia.
Qed.

(** A weekly sum of scores between 0 and 10 has a binary64 mean. *)
Lemma avg_int_week (xs : list Z) :
  0 <= sum_Z xs <= 70 -> is_ok (avg_int xs 7) = true.
Proof.
  intros Hs. unfold avg_int.
  assert (Hall : forallb (fun s => is_ok (int_truediv s 7)) (seqZ 0 71) = true)
    by (vm_compute; reflexivity).
  rewrite forallb_forall in Hall.
  assert (Hin : In (sum_Z xs) (seqZ 0 71)).
  { apply list_elem_of_In, elem_of_seqZ. lia. }
  specialize (Hall _ Hin).
  destruct (int_truediv (sum_Z xs) 7); [reflexivity | discriminate].
Qed.

(** Whatever the training flags of the seven days, the train effect of the
    example week is computed without error. *)
Lemma train_effect_week (ts : list bool) :
  List.length ts = 7%nat ->
  is_ok (train_effect_of [4; 5; 8; 7; 3; 9; 6] ts) = true.
Proof.
  intros Hlen.
  destruct ts as [|t1 [|t2 [|t3 [|t4 [|t5 [|t6 [|t7 [|t8 ts]]]]]]]];
    try discriminate Hlen.
  destruct t1, t2, t3, t4, t5, t6, t7; vm_compute; reflexivity.
Qed.

(** C3 (as the code computes it). With the default goals and a window of
    seven logs dated on the seven consecutive days ending today, with
    anxiety 4,5,8,7,3,9,6 and sleep 7,6,5,6,8,5,7 (other scores within the
    ranges the store accepts), the statistics are computed and hold:
    average anxiety 6.0, peak anxiety 9 on the sixth date, three
    high-anxiety days (8, 7 and 9 are strictly above the limit 6), window
    size 7, and the trend deltas are present. *)
Theorem week_example_statistics (today : Z) (logs : list Log.t) :
  6 < today < MAXORDINAL ->
  List.map (fun l => _parse_yyyy_mm_dd (Log.date l)) logs
  = List.map (fun k => Ok (today - k)) [6; 5; 4; 3; 2; 1; 0] ->
  List.map Log.anxiety logs = [4; 5; 8; 7; 3; 9; 6] ->
  List.map Log.sleep logs = [7; 6; 5; 6; 8; 5; 7]%float ->
  Forall (fun l => 0 <= Log.mood l <= 10 /\ 1 <= Log.foodScore l <= 5) logs ->
  exists st,
    _summarize_window DEFAULT_GOALS logs = Ok st
    /\ Stats.avg_anxiety st = 6%float
    /\ Stats.peak_anxiety st = 9
    /\ (exists l6, logs !! 5%nat = Some l6
                   /\ _parse_yyyy_mm_dd (Log.date l6) = Ok (today - 1)
                   /\ Stats.peak_date st = Some (Log.date l6))
    /\ Stats.high_anxiety_days st = 3
    /\ Stats.n st = 7
    /\ is_some (Stats.trend st) = true.
Proof.
  intros Htoday Hdates Hanx Hsleep Hdom.
  assert (Hlen : List.length logs = 7%nat).
  { rewrite <- (List.length_map Log.anxiety), Hanx. reflexivity. }
  assert (Hn : len logs = 7) by (unfold len; rewrite Hlen; reflexivity).
  assert (Hsl : List.map (fun l => float_or0 (Log.sleep l)) logs
                = List.map float_or0 [7; 6; 5; 6; 8; 5; 7]%float).
  { rewrite <- Hsleep, List.map_map. reflexivity. }
  destruct (summarize_returns DEFAULT_GOALS logs
              (List.map (fun k => today - k) [6; 5; 4; 3; 2; 1; 0]))
    as (st & Hst).
  - rewrite Hanx. apply train_effect_week.
    rewrite List.length_map. exact Hlen.
  - rewrite Hsl, Hanx. vm_compute. reflexivity.
  - apply map_res_of_map. rewrite Hdates, List.map_map. reflexivity.
  - cbn [List.map]. repeat constructor; lia.
  - cbn [List.map]. repeat constructor; lia.
  - rewrite Hn. vm_compute. reflexivity.
  - rewrite Hn. apply avg_int_week.
    pose proof (sum_Z_bounds 0 10 (List.map Log.mood logs)) as Hb.
    rewrite len_map, Hn in Hb. apply Hb.
    apply Forall_map. eapply Forall_impl; [exact Hdom|].
    cbn. intros l (Hm & _). exact Hm.
  - rewrite Hn, Hanx. vm_compute. reflexivity.
  - rewrite Hn. apply avg_int_week.
    pose proof (sum_Z_bounds 1 5 (List.map Log.foodScore logs)) as Hb.
    rewrite len_map, Hn in Hb.
    assert (Forall (fun x => 1 <= x <= 5) (List.map Log.foodScore logs)) as Hf.
    { apply Forall_map. eapply Forall_impl; [exact Hdom|].
      cbn. intros l (_ & Hf). exact Hf. }
    specialize (Hb Hf). lia.
  - exists st. split; [exact Hst|].
    destruct (summarize_inv _ _ _ Hst)
      as (En & _ & Ehigh & _ & Epeak & (i & Ei & Epd) & _ & _ & Etrend
          & _ & _ & Eavg & _).
    rewrite Hanx in Ehigh, Epeak, Eavg, Ei. rewrite Hn in Eavg.
    assert (Hp : Stats.peak_anxiety st = 9) by (rewrite Epeak; reflexivity).
    rewrite Hp in Ei.
    vm_compute in Eavg. injection Eavg as Eavg.
    vm_compute in Ei. injection Ei as <-.
    split; [symmetry; exact Eavg|]. split; [exact Hp|].
    split.
    { destruct logs as [|l1 [|l2 [|l3 [|l4 [|l5 [|l6 [|l7 [|l8 r]]]]]]]];
        try discriminate Hlen.
      cbn in Hdates. injection Hdates as _ _ _ _ _ H6 _.
      exists l6. split; [reflexivity|]. split; [exact H6|].
      rewrite Epd. reflexivity. }
    split; [rewrite Ehigh; reflexivity|].
    split; [rewrite En; exact Hn|].
    destruct (trend_of_returns logs) as (t & Et & Hsome).
    rewrite Etrend in Et. injection Et as ->.
    rewrite Hsome, Hn. reflexivity.
Qed.

Lemma week_example_statistics_witness :
  exists st,
    _summarize_window DEFAULT_GOALS week_logs = Ok st
    /\ Stats.avg_anxiety st = 6%float
    /\ Stats.peak_anxiety st = 9
    /\ (exists l6, week_logs !! 5%nat = Some l6
                   /\ _parse_yyyy_mm_dd (Log.date l6) = Ok (738892 - 1)
                   /\ Stats.peak_date st = Some (Log.date l6))
    /\ Stats.high_anxiety_days st = 3
    /\ Stats.n st = 7
    /\ is_some (Stats.trend st) = true.
Proof.
  apply (week_example_statistics 738892 week_logs).
  - unfold MAXORDINAL. lia.
  - reflexivity.
  - reflexivity.
  - reflexivity.
  - unfold week_logs, day_log. repeat constructor; cbn; lia.
Defined.

(** The example week evaluated: the count of high-anxiety days is 3, not
    the 2 of the specification's example. *)
Lemma week_example_high_days_is_three :
  exists st,
    _summarize_window DEFAULT_GOALS week_logs = Ok st
    /\ Stats.avg_anxiety st = 6%float
    /\ Stats.peak_anxiety st = 9
    /\ Stats.peak_date st = Some "2024-01-06"
    /\ Stats.n st = 7
    /\ Stats.high_anxiety_days st = 3
    /\ Stats.high_anxiety_days st <> 2.
Proof.
  eexists. split; [vm_compute; reflexivity|].
  repeat split. cbn. lia.
Qed.

Lemma anx_where_filter (flag : bool) (logs : list Log.t) :
  anx_where flag (List.map Log.anxiety logs) (List.map Log.trained logs)
  = List.map Log.anxiety
      (List.filter (fun l => Bool.eqb (Log.trained l) flag) logs).
Proof.
  unfold anx_where. induction logs as [|l rest IH]; [reflexivity|].
  cbn. destruct (Bool.eqb (Log.trained l) flag); cbn; rewrite IH; reflexivity.
Qed.

Lemma filter_ext_eq {A : Type} (f g : A -> bool) (l : list A) :
  (forall x, f x = g x) -> List.filter f l = List.filter g l.
Proof.
  intros H. induction l as [|x rest IH]; cbn; [reflexivity|].
  rewrite H, IH. reflexivity.
Qed.

Lemma filter_nil_forallb {A : Type} (f : A -> bool) (l : list A) :
  List.filter f l = [] <-> forallb (fun x => negb (f x)) l = true.
Proof.
  induction l as [|x rest IH]; cbn; [tauto|].
  destruct (f x); cbn; [|exact IH]. split; discriminate.
Qed.

Lemma forallb_ext_eq {A : Type} (f g : A -> bool) (l : list A) :
  (forall x, f x = g x) -> forallb f l = forallb g l.
Proof.
  intros H. induction l as [|x rest IH]; cbn; [reflexivity|].
  rewrite H, IH. reflexivity.
Qed.

Lemma train_effect_of_spec (logs : list Log.t) :
  train_effect_of (List.map Log.anxiety logs) (List.map Log.trained logs)
  = train_effect_spec logs.
Proof.
  unfold train_effect_of, train_effect_spec, same_trained, mean_anxiety.
  rewrite !anx_where_filter.
  rewrite (filter_ext_eq (fun l => Bool.eqb (Log.trained l) true) Log.trained)
    by (intros x; destruct (Log.trained x); reflexivity).
  rewrite (filter_ext_eq (fun l => Bool.eqb (Log.trained l) false)
             (fun l => negb (Log.trained l)))
    by (intros x; destruct (Log.trained x); reflexivity).
  set (tr := List.filter Log.trained logs).
  set (nt := List.filter (fun l => negb (Log.trained l)) logs).
  assert (Htr : forallb (fun l => negb (Log.trained l)) logs = true <-> tr = []).
  { symmetry. apply filter_nil_forallb. }
  assert (Hnt : forallb Log.trained logs = true <-> nt = []).
  { unfold nt. rewrite filter_nil_forallb.
    rewrite (forallb_ext_eq (fun x => negb (negb (Log.trained x))) Log.trained)
      by (intros x; apply Bool.negb_involutive).
    tauto. }
  rewrite !len_map.
  destruct tr as [|t tr'], nt as [|u nt']; cbn [List.map].
  - rewrite (proj2 Hnt eq_refl). reflexivity.
  - rewrite (proj2 Htr eq_refl), Bool.orb_true_r. reflexivity.
  - rewrite (proj2 Hnt eq_refl). reflexivity.
  - destruct (forallb Log.trained logs);
      [discriminate (proj1 Hnt eq_refl)|].
    destruct (forallb (fun l => negb (Log.trained l)) logs);
      [discriminate (proj1 Htr eq_refl)|].
    reflexivity.
Qed.

(** C7. The train effect of a window is absent whenever all its entries
    share the same [trained] value (one of the two groups is empty);
    otherwise it is the mean anxiety over the non-training days minus the
    mean anxiety over the training days, rounded to three decimals. *)
Theorem train_effect_is_difference_of_means
  (goals : Goals) (logs : list Log.t) :
  train_effect_of (List.map Log.anxiety logs) (List.map Log.trained logs)
  = train_effect_spec logs
  /\ forall st, _summarize_window goals logs = Ok st ->
       (same_trained logs = true -> Stats.train_effect st = None)
       /\ (same_trained logs = false ->
           exists resting training,
             mean_anxiety (List.filter (fun l => negb (Log.trained l)) logs)
             = Ok resting
             /\ mean_anxiety (List.filter Log.trained logs) = Ok training
             /\ Stats.train_effect st
                = Some (py_round (resting - training)%float 3)).
Proof.
  split; [apply train_effect_of_spec|].
  intros st Hst.
  destruct (summarize_inv _ _ _ Hst) as (_ & _ & _ & _ & _ & _ & Hte & _).
  rewrite train_effect_of_spec in Hte. unfold train_effect_spec in Hte.
  split; intros Hsame; rewrite Hsame in Hte.
  - injection Hte as <-. reflexivity.
  - apply res_bind_ok in Hte as (a & Ha & Hte).
    apply res_bind_ok in Hte as (b & Hb & Hte).
    injection Hte as <-. exists a, b. auto.
Qed.

Lemma train_effect_is_difference_of_means_witness :
  train_effect_of (List.map Log.anxiety week_logs)
                  (List.map Log.trained week_logs)
  = train_effect_spec week_logs
  /\ same_trained week_logs = false
  /\ mean_anxiety (List.filter (fun l => negb (Log.trained l)) week_logs)
     = Ok 7%float
  /\ train_effect_spec week_logs = Ok (Some 0x1.2a9fbe76c8b44p+1%float).
Proof.
  split.
  - exact (proj1 (train_effect_is_difference_of_means DEFAULT_GOALS week_logs)).
  - split; [reflexivity|]. split; vm_compute; reflexivity.
Defined.

(** C10 (where the code departs from the claim). A non-empty log list
    whose only entry has a date text that passes the upsert guard but is no
    calendar date makes [_select_window_from_logs] raise: the date of the
    newest entry of the base is parsed outside any handler.  And a window
    that the selector does return can make [_summarize_window] raise: with
    an entry dated 9999-12-31 the loop over the calendar days steps past
    the last representable date. *)
Theorem select_window_raises_on_unparseable_newest :
  unparseable_logs <> []
  /\ fst (upsert_log ∅ (sample_payload "2024-13-40")) = Ok tt
  /\ List.map snd (map_to_list (snd (upsert_log ∅ (sample_payload "2024-13-40"))))
     = unparseable_logs
  /\ _select_window_from_logs 738892 unparseable_logs 14 = Raise ValueError
  /\ exists sel,
       _select_window_from_logs 738892 last_day_logs 14 = Ok sel
       /\ window sel = last_day_logs
       /\ _summarize_window DEFAULT_GOALS (window sel) = Raise OverflowError.
Proof.
  split; [discriminate|].
  split; [reflexivity|].
  split; [vm_compute; reflexivity|].
  split; [reflexivity|].
  eexists. split; [vm_compute; reflexivity|].
  split; [reflexivity|]. vm_compute. reflexivity.
Qed.

(** ** Pearson correlation *)



















(** ** The Gemini gateway *)

(** A rejected model name is reported as an [HTTPException]. *)
Lemma validate_model_raises (model : string) (e : exn) :
  _validate_gemini_model_name model = Raise e ->
  exists status detail, e = HTTPException status detail
                        /\ (status = 503 \/ status = 422).
Proof.
  unfold _validate_gemini_model_name, service_unavailable, unprocessable.
  repeat match goal with
         | |- context [if ?b then _ else _] => destruct b
         end; intros H; try discriminate; injection H as <-; eauto.
Qed.

(** A missing key or a rejected model name fails every attempt alike,
    before anything is sent upstream. *)
Lemma once_configuration_error
  (cfg : Config) (upstream : upstream_t) (sys user model : string)
  (temp : float) (tokens : Z) (top_p : float) :
  GEMINI_API_KEY cfg = "" \/ is_ok (_validate_gemini_model_name model) = false ->
  exists status detail,
    (status = 503 \/ status = 422)
    /\ forall attempt,
        _gemini_generate_once cfg upstream attempt sys user model temp tokens
          top_p = (Raise (HTTPException status detail), []).
Proof.
  intros H. unfold _gemini_generate_once.
  destruct (String.eqb_spec (GEMINI_API_KEY cfg) "") as [Hk|Hk].
  - exists 503, "GEMINI_API_KEY não configurada no .env.". split; [auto|].
    reflexivity.
  - destruct H as [H|H]; [contradiction|].
    destruct (_validate_gemini_model_name model) as [m|e] eqn:E;
      [discriminate|].
    destruct (validate_model_raises model e E) as (st & d & -> & Hst).
    exists st, d. split; [exact Hst | reflexivity].
Qed.

(** When every attempt fails with the same [HTTPException], the loop goes
    through the whole retry budget, sleeping before each further attempt,
    and ends with a 502. *)
Lemma retry_loop_all_attempts
  (cfg : Config) (upstream : upstream_t) (jitter : Z -> float)
  (sys user model : string) (temp : float) (tokens : Z) (top_p : float)
  (status : Z) (detail : string) :
  (forall attempt,
      _gemini_generate_once cfg upstream attempt sys user model temp tokens
        top_p = (Raise (HTTPException status detail), [])) ->
  forall (left : nat) (first : Z) (last_err : option string) (tr : list event),
    SNIX_RETRIES cfg = first + Z.of_nat left ->
    retry_loop cfg upstream jitter sys user model temp tokens top_p
      (seqZ first (Z.of_nat left + 1)) last_err tr
    = (Raise (bad_gateway
                ("Gemini erro inesperado: "
                 +:+ str_take 200 (exn_str (HTTPException status detail)))),
       (tr ++ List.map (fun a => Sleep (backoff cfg jitter a))
                       (seqZ first (Z.of_nat left)))%list).
Proof.
  intros Honce left.
  induction left as [|k IH]; intros first last_err tr Hbudget.
  - rewrite seqZ_cons by lia. rewrite seqZ_nil by lia.
    cbn [retry_loop]. rewrite Honce.
    replace (SNIX_RETRIES cfg <=? first) with true
      by (symmetry; apply Z.leb_le; lia).
    rewrite seqZ_nil by lia. cbn. rewrite !app_nil_r. reflexivity.
  - rewrite seqZ_cons by lia. cbn [retry_loop]. rewrite Honce.
    replace (SNIX_RETRIES cfg <=? first) with false
      by (symmetry; apply Z.leb_gt; lia).
    replace (Z.pred (Z.of_nat (S k) + 1)) with (Z.of_nat k + 1) by lia.
    rewrite app_nil_r.
    rewrite (IH (Z.succ first)) by lia.
    rewrite (seqZ_cons first (Z.of_nat (S k))) by lia.
    replace (Z.pred (Z.of_nat (S k))) with (Z.of_nat k) by lia.
    cbn [List.map]. rewrite <- app_assoc. reflexivity.
Qed.

(** For every retry budget: a missing key or a rejected model name is
    retried through the whole budget, with a sleep before each further
    attempt, no request is sent upstream, and the error that comes out is
    a 502. *)
Lemma gateway_retries_configuration_error
  (cfg : Config) (upstream : upstream_t) (jitter : Z -> float)
  (sys user model : string) (temp : float) (tokens : Z) (top_p : float) :
  0 <= SNIX_RETRIES cfg ->
  GEMINI_API_KEY cfg = "" \/ is_ok (_validate_gemini_model_name model) = false ->
  exists detail trace,
    _gemini_generate cfg upstream jitter sys user model temp tokens top_p
    = (Raise (bad_gateway detail), trace)
    /\ len (List.filter is_sleep trace) = SNIX_RETRIES cfg
    /\ List.filter is_call trace = [].
Proof.
  intros Hbudget Hcfg.
  destruct (once_configuration_error cfg upstream sys user model temp tokens
              top_p Hcfg) as (st & d & _ & Honce).
  unfold _gemini_generate.
  pose proof (retry_loop_all_attempts cfg upstream jitter sys user model temp
                tokens top_p st d Honce (Z.to_nat (SNIX_RETRIES cfg)) 0 None [])
    as H.
  rewrite Z2Nat.id in H by lia. rewrite (H eq_refl).
  eexists _, _. split; [reflexivity|].
  cbn [app].
  assert (Hl : forall l : list Z,
             List.length (List.filter is_sleep
                    (List.map (fun a => Sleep (backoff cfg jitter a)) l))
             = List.length l
             /\ List.filter is_call
                  (List.map (fun a => Sleep (backoff cfg jitter a)) l) = []).
  { induction l as [|a l [IH1 IH2]];
      cbn [List.map List.filter is_sleep is_call List.length]; [auto|].
    split; [f_equal; exact IH1 | exact IH2]. }
  destruct (Hl (seqZ 0 (SNIX_RETRIES cfg))) as [H1 H2].
  split; [|exact H2].
  unfold len. rewrite H1, length_seqZ. lia.
Qed.

(** C1 (where the code departs from the claim). With the default budget
    of three retries, a missing API key, and likewise a model name that
    carries a competitor marker, is not reported at once: the validation
    error raised by the first attempt is caught by the gateway's catch-all
    handler, the call sleeps three times and makes four attempts, and what
    comes out is a 502 gateway error wrapping the validation message.  An
    answer that cannot be decoded is retried in the same way, so retries
    are not limited to 429/500/503 answers and transport errors. *)
Theorem gateway_sleeps_on_configuration_error
  (upstream : upstream_t) (jitter : Z -> float) (sys user : string)
  (temp : float) (tokens : Z) (top_p : float) :
  _gemini_generate no_key_config upstream jitter sys user
    (GEMINI_MODEL no_key_config) temp tokens top_p
  = (Raise (bad_gateway
              "Gemini erro inesperado: 503: GEMINI_API_KEY não configurada no .env."),
     [ Sleep (backoff no_key_config jitter 0);
       Sleep (backoff no_key_config jitter 1);
       Sleep (backoff no_key_config jitter 2) ])
  /\ _gemini_generate llama_config upstream jitter sys user
       (GEMINI_MODEL llama_config) temp tokens top_p
     = (Raise (bad_gateway
                 "Gemini erro inesperado: 422: GEMINI_MODEL inválido para Gemini: 'llama-3'. Use um modelo Gemini (ex.: gemini-2.5-flash)."),
        [ Sleep (backoff llama_config jitter 0);
          Sleep (backoff llama_config jitter 1);
          Sleep (backoff llama_config jitter 2) ])
  /\ _gemini_generate good_config undecodable jitter sys user
       (GEMINI_MODEL good_config) temp tokens top_p
     = (Raise (bad_gateway "Gemini erro inesperado: Expecting value"),
        [ UpstreamCall 0; Sleep (backoff good_config jitter 0);
          UpstreamCall 1; Sleep (backoff good_config jitter 1);
          UpstreamCall 2; Sleep (backoff good_config jitter 2);
          UpstreamCall 3 ]).
Proof.
  split; [|split]; vm_compute; reflexivity.
Qed.

(** ** Texts *)

Lemma append_cons (ch : ascii) (a b : string) :
  String ch a +:+ b = String ch (a +:+ b).
Proof. reflexivity. Qed.










(** ** Fallback reporter *)

Section FallbackFacts.
Variable float_repr : float -> string.

End FallbackFacts.

(** ** Response cache and coach orchestrator *)

(** A lookup either finds a fresh entry and leaves the cache as it is, or
    answers [None] and leaves a cache without the key. *)
Lemma cache_get_cases (cfg : Config) (now : float) (key : string)
  (cache : cache_t) :
  (exists item,
      cache !! key = Some item
      /\ PrimFloat.ltb (Z2F (SNIX_CACHE_TTL_SEC cfg)) (now - ts item) = false
      /\ _cache_get cfg now key cache = (Some (value item), cache))
  \/ (exists cache',
         _cache_get cfg now key cache = (None, cache')
         /\ cache' !! key = None).
Proof.
  unfold _cache_get. destruct (cache !! key) as [item|] eqn:E.
  - destruct (PrimFloat.ltb _ _) eqn:Hage.
    + right. eexists. split; [reflexivity|]. apply lookup_delete_eq.
    + left. exists item. auto.
  - right. eauto.
Qed.



Section CoachFacts.
Variable float_repr : float -> string.
Variable json_dumps : UserPayload -> string.

(** The statistics of a prepared request are those of its window. *)
Lemma coach_prepare_stats (w : World) (db : Db) (payload : SnixCoachIn.t)
  (p : Prepared) :
  coach_prepare json_dumps w db payload = Ok p ->
  _summarize_window (p_goals p) (window (p_sel p)) = Ok (p_stats p)
  /\ 3 <= len (window (p_sel p)).
Proof.
  unfold coach_prepare. intros H.
  destruct (db_goals db) as [goals|]; [|discriminate].
  destruct (rows_desc _ _) as [|l rest]; [discriminate|].
  apply res_bind_ok in H as (sel & _ & H).
  destruct (Z.ltb_spec (len (window sel)) 3) as [|Hlen]; [discriminate|].
  apply res_bind_ok in H as (prompt & Hprompt & H).
  destruct prompt as [[system_text user_text] stats].
  injection H as <-. cbn.
  unfold _build_snix_prompt in Hprompt.
  apply res_bind_ok in Hprompt as (stats' & Hstats & Hprompt).
  injection Hprompt as _ _ <-. auto.
Qed.



End CoachFacts.



(** * Further properties *)

(** ** The log store endpoints *)

Lemma out_of_range_false (lo hi x : Z) :
  out_of_range lo hi x = false <-> lo <= x <= hi.
Proof.
  unfold out_of_range. rewrite Bool.orb_false_iff, !Z.ltb_ge. tauto.
Qed.

(** [validate_log] accepts exactly the bodies with a shaped date and
    scores in range, and then builds the row of the body. *)
Lemma validate_log_spec (p : LogIn.t) :
  (date_shape (LogIn.date p) /\ payload_in_range p
   /\ validate_log p = Ok (row_of_payload p))
  \/ (~ (date_shape (LogIn.date p) /\ payload_in_range p)
      /\ exists detail, validate_log p = Raise (unprocessable detail)).
Proof.
  unfold validate_log, payload_in_range.
  destruct (date_guard_fails_shape (LogIn.date p)) as [[-> Hs]|[-> Hs]];
    cbn [res_bind].
  2:{ right. split; [tauto | eauto]. }
  destruct (out_of_range_f 0 24 (LogIn.sleep p)) eqn:E1.
  { right. split; [intros (_ & H & _); discriminate | eauto]. }
  destruct (out_of_range 1 5 (LogIn.sleepQual p)) eqn:E2.
  { right. split; [|eauto]. intros (_ & _ & H & _).
    apply out_of_range_false in H. congruence. }
  destruct (out_of_range 1 5 (LogIn.foodScore p)) eqn:E3.
  { right. split; [|eauto]. intros (_ & _ & _ & H & _).
    apply out_of_range_false in H. congruence. }
  destruct (out_of_range 0 10 (LogIn.mood p)) eqn:E4.
  { right. split; [|eauto]. intros (_ & _ & _ & _ & H & _).
    apply out_of_range_false in H. congruence. }
  destruct (out_of_range 0 10 (LogIn.anxiety p)) eqn:E5.
  { right. split; [|eauto]. intros (_ & _ & _ & _ & _ & H & _).
    apply out_of_range_false in H. congruence. }
  destruct (out_of_range 0 600 (LogIn.trainMin p)) eqn:E6.
  { right. split; [|eauto]. intros (_ & _ & _ & _ & _ & _ & H).
    apply out_of_range_false in H. congruence. }
  left. rewrite out_of_range_false in E2, E3, E4, E5, E6.
  split; [exact Hs|]. split; [|reflexivity].
  repeat split; try lia; auto.
Qed.

Lemma upsert_log_cases (db : store) (p : LogIn.t) :
  match upsert_log db p with
  | (Ok _, db') =>
      date_shape (LogIn.date p) /\ payload_in_range p
      /\ db' !! LogIn.date p = Some (row_of_payload p)
      /\ forall k, k <> LogIn.date p -> db' !! k = db !! k
  | (Raise e, db') =>
      db' = db
      /\ ~ (date_shape (LogIn.date p) /\ payload_in_range p)
      /\ exists detail, e = HTTPException 422 detail
  end.
Proof.
  unfold upsert_log.
  destruct (validate_log_spec p) as [(Hs & Hr & ->)|(Hn & detail & ->)].
  - split; [exact Hs|]. split; [exact Hr|]. cbn [row_of_payload Log.date].
    split; [apply lookup_insert_eq|].
    intros k Hk. apply lookup_insert_ne. congruence.
  - split; [reflexivity|]. split; [exact Hn|]. eauto.
Qed.


(** X2. Writing to the same date twice leaves one row with the values of
    the second write: the store after both writes is the store after the
    second write alone.  In particular a repeated write changes nothing. *)
Theorem upsert_log_last_write_wins (db : store) (p1 p2 : LogIn.t) :
  LogIn.date p1 = LogIn.date p2 ->
  fst (upsert_log db p2) = Ok tt ->
  snd (upsert_log (snd (upsert_log db p1)) p2) = snd (upsert_log db p2)
  /\ snd (upsert_log (snd (upsert_log db p2)) p2) = snd (upsert_log db p2).
Proof.
  intros Hd Hok. unfold upsert_log in *.
  destruct (validate_log_spec p2) as [(_ & _ & E2)|(_ & d & E2)];
    rewrite E2 in *; [|discriminate Hok].
  cbn [snd row_of_payload Log.date].
  destruct (validate_log_spec p1) as [(_ & _ & E1)|(_ & d & E1)]; rewrite E1;
    cbn [snd row_of_payload Log.date].
  - rewrite Hd. split; apply insert_insert_eq.
  - split; [reflexivity | apply insert_insert_eq].
Qed.

Lemma upsert_log_last_write_wins_witness :
  snd (upsert_log (snd (upsert_log ∅ (sample_payload "2024-01-01")))
         (sample_payload "2024-01-01"))
  = snd (upsert_log ∅ (sample_payload "2024-01-01")).
Proof.
  exact (proj2 (upsert_log_last_write_wins ∅ (sample_payload "2024-01-01")
                  (sample_payload "2024-01-01") eq_refl eq_refl)).
Defined.

Lemma delete_log_cases (db : store) (date_str : string) :
  match delete_log db date_str with
  | (Ok _, db') =>
      date_shape date_str
      /\ db' !! date_str = None
      /\ forall k, k <> date_str -> db' !! k = db !! k
  | (Raise e, db') =>
      db' = db /\ ~ date_shape date_str
      /\ e = HTTPException 422 date_format_detail
  end.
Proof.
  unfold delete_log.
  destruct (date_guard_fails_shape date_str) as [[-> Hs]|[-> Hs]].
  - split; [exact Hs|]. split; [apply lookup_delete_eq|].
    intros k Hk. apply lookup_delete_ne. congruence.
  - auto.
Qed.

(** X3. [delete_log] answers a malformed date text with a 422 and leaves
    the store as it was; for a shaped text it removes the row of that date
    (if any) and touches no other date. *)
Theorem delete_log_outcome (db : store) (date_str : string) :
  match delete_log db date_str with
  | (Ok _, db') =>
      date_shape date_str
      /\ db' !! date_str = None
      /\ forall k, k <> date_str -> db' !! k = db !! k
  | (Raise e, db') =>
      db' = db /\ ~ date_shape date_str
      /\ e = HTTPException 422 date_format_detail
  end.
Proof. exact (delete_log_cases db date_str). Qed.

(** X4. Deleting the date just written to gives back the store as it was
    when that date had no row before. *)
Theorem delete_after_upsert_restores (db : store) (p : LogIn.t) :
  db !! LogIn.date p = None ->
  fst (upsert_log db p) = Ok tt ->
  delete_log (snd (upsert_log db p)) (LogIn.date p) = (Ok tt, db).
Proof.
  intros Hfresh Hok.
  pose proof (upsert_log_cases db p) as H.
  unfold upsert_log in *.
  destruct (validate_log_spec p) as [(Hs & _ & E)|(_ & d & E)];
    rewrite E in *; [|discriminate Hok].
  cbn [snd row_of_payload Log.date]. unfold delete_log.
  destruct (date_guard_fails_shape (LogIn.date p)) as [[-> _]|[_ Hn]];
    [|contradiction].
  rewrite delete_insert_id by exact Hfresh. reflexivity.
Qed.

Lemma delete_after_upsert_restores_witness :
  delete_log (snd (upsert_log ∅ (sample_payload "2024-01-01"))) "2024-01-01"
  = (Ok tt, ∅).
Proof.
  apply (delete_after_upsert_restores ∅ (sample_payload "2024-01-01"));
    reflexivity.
Defined.




(** ** Sorting by date text *)

Lemma leb_trans (a b c : string) :
  String.leb a b = true -> String.leb b c = true -> String.leb a c = true.
Proof.
  intros H1 H2. apply Is_true_true.
  apply (@transitivity _ String.le _ a b c); apply Is_true_true; assumption.
Qed.

Lemma leb_refl (a : string) : String.leb a a = true.
Proof. destruct (String.leb_total a a); assumption. Qed.

Lemma leb_false_flip (a b : string) :
  String.leb a b = false -> String.leb b a = true /\ a <> b.
Proof.
  intros H. split.
  - destruct (String.leb_total a b) as [E|E]; [congruence | exact E].
  - intros ->. rewrite leb_refl in H. discriminate.
Qed.

Lemma insert_by_date_perm (x : Log.t) (sorted : list Log.t) :
  Permutation (insert_by_date x sorted) (x :: sorted).
Proof.
  induction sorted as [|h t IH]; cbn [insert_by_date]; [reflexivity|].
  destruct (String.leb (Log.date x) (Log.date h)); [reflexivity|].
  rewrite IH. apply perm_swap.
Qed.

Lemma insert_by_date_sorted (x : Log.t) (sorted : list Log.t) :
  StronglySorted date_le sorted ->
  StronglySorted date_le (insert_by_date x sorted).
Proof.
  induction 1 as [|h t Hs IH Hall]; cbn [insert_by_date].
  - repeat constructor.
  - destruct (String.leb (Log.date x) (Log.date h)) eqn:E.
    + constructor; [constructor; assumption|].
      constructor; [exact E|].
      eapply List.Forall_impl; [|exact Hall].
      intros y Hy. unfold date_le in *. eapply leb_trans; eassumption.
    + constructor; [exact IH|].
      apply List.Forall_forall. intros y Hy.
      apply (Permutation_in _ (insert_by_date_perm x t)) in Hy.
      destruct Hy as [<-|Hy].
      * exact (proj1 (leb_false_flip _ _ E)).
      * rewrite List.Forall_forall in Hall. apply Hall. exact Hy.
Qed.

Lemma insert_by_date_with_date (k : string) (x : Log.t) (sorted : list Log.t) :
  StronglySorted date_le sorted ->
  with_date k (insert_by_date x sorted) = with_date k (x :: sorted).
Proof.
  unfold with_date.
  induction 1 as [|h t Hs IH Hall]; cbn [insert_by_date]; [reflexivity|].
  destruct (String.leb (Log.date x) (Log.date h)) eqn:E; [reflexivity|].
  destruct (leb_false_flip _ _ E) as [_ Hne].
  cbn [List.filter] in *. rewrite IH.
  destruct (String.eqb_spec (Log.date x) k) as [Hx|Hx];
    destruct (String.eqb_spec (Log.date h) k) as [Hh|Hh];
    try reflexivity.
  congruence.
Qed.

Lemma sorted_by_date_sorts (logs : list Log.t) :
  Permutation (sorted_by_date logs) logs
  /\ StronglySorted date_le (sorted_by_date logs)
  /\ forall k, with_date k (sorted_by_date logs) = with_date k logs.
Proof.
  induction logs as [|x rest (Hperm & Hsorted & Hstable)];
    cbn [sorted_by_date List.fold_right].
  - repeat split; constructor.
  - fold (sorted_by_date rest). split; [|split].
    + rewrite insert_by_date_perm. constructor. exact Hperm.
    + apply insert_by_date_sorted. exact Hsorted.
    + intros k. rewrite insert_by_date_with_date by exact Hsorted.
      unfold with_date in *. cbn [List.filter]. rewrite Hstable. reflexivity.
Qed.

(** X6. [sorted(base, key=date)] as modelled is a stable sort: its result
    is a rearrangement of the input, in non-decreasing order of the date
    text, and logs that carry the same date text keep the order they had. *)
Theorem sorted_by_date_is_stable_sort (logs : list Log.t) :
  Permutation (sorted_by_date logs) logs
  /\ StronglySorted date_le (sorted_by_date logs)
  /\ forall k, with_date k (sorted_by_date logs) = with_date k logs.
Proof. exact (sorted_by_date_sorts logs). Qed.

Lemma StronglySorted_app_inv {A : Type} (R : A -> A -> Prop) (l1 l2 : list A) :
  StronglySorted R (l1 ++ l2)%list ->
  StronglySorted R l1 /\ StronglySorted R l2
  /\ forall a b, In a l1 -> In b l2 -> R a b.
Proof.
  induction l1 as [|x l1 IH]; cbn [app]; intros H.
  - split; [constructor|]. split; [exact H|]. intros a b [].
  - apply StronglySorted_inv in H as [Hs Hall].
    destruct (IH Hs) as (H1 & H2 & Hcross).
    rewrite List.Forall_forall in Hall.
    split.
    + constructor; [exact H1|]. apply List.Forall_forall.
      intros y Hy. apply Hall. apply in_or_app. auto.
    + split; [exact H2|]. intros a b [<-|Ha] Hb.
      * apply Hall. apply in_or_app. auto.
      * apply Hcross; assumption.
Qed.

Lemma StronglySorted_rev_flip {A : Type} (R : A -> A -> Prop) (l : list A) :
  StronglySorted R l -> StronglySorted (fun a b => R b a) (List.rev l).
Proof.
  induction 1 as [|x l Hs IH Hall]; cbn [List.rev]; [constructor|].
  rewrite List.Forall_forall in Hall.
  assert (Hgen : forall l', StronglySorted (fun a b => R b a) l' ->
                            (forall y, In y l' -> R x y) ->
                            StronglySorted (fun a b => R b a) (l' ++ [x])%list).
  { induction l' as [|y l' IH']; cbn [app]; intros Hs' Hx.
    - repeat constructor.
    - apply StronglySorted_inv in Hs' as [Hs'' Hall'].
      constructor.
      + apply IH'; [exact Hs''|]. intros z Hz. apply Hx. right. exact Hz.
      + apply List.Forall_forall. intros z Hz.
        apply in_app_or in Hz as [Hz|[<-|[]]].
        * rewrite List.Forall_forall in Hall'. apply Hall'. exact Hz.
        * apply Hx. left. reflexivity. }
  apply Hgen; [exact IH|]. intros y Hy. apply Hall.
  apply List.in_rev. exact Hy.
Qed.

Lemma rows_desc_spec (logs : store) (limit : Z) :
  let rows := rows_desc logs limit in
  StronglySorted date_ge rows
  /\ List.length rows = Nat.min (Z.to_nat limit) (size logs)
  /\ (forall r, In r rows -> exists k, logs !! k = Some r)
  /\ (forall k r, logs !! k = Some r ->
                  In r rows \/ forall r', In r' rows -> date_le r r').
Proof.
  cbn zeta. unfold rows_desc.
  set (all := List.rev (sorted_by_date (List.map snd (map_to_list logs)))).
  destruct (sorted_by_date_sorts (List.map snd (map_to_list logs)))
    as (Hperm & Hsorted & _).
  assert (Hall : StronglySorted date_ge all).
  { unfold all, date_ge. apply StronglySorted_rev_flip. exact Hsorted. }
  assert (Hin : forall r, In r all <-> exists k, logs !! k = Some r).
  { intros r. unfold all. rewrite <- List.in_rev. split.
    - intros H. apply (Permutation_in _ Hperm) in H.
      apply List.in_map_iff in H as ([k r'] & <- & H).
      exists k. apply elem_of_map_to_list, list_elem_of_In. exact H.
    - intros (k & Hk). apply (Permutation_in _ (Permutation_sym Hperm)).
      apply List.in_map_iff. exists (k, r). split; [reflexivity|].
      apply list_elem_of_In, elem_of_map_to_list. exact Hk. }
  assert (Hlen : List.length all = size logs).
  { unfold all. rewrite List.length_rev, (Permutation_length Hperm),
      List.length_map. apply length_map_to_list. }
  rewrite <- (List.firstn_skipn (Z.to_nat limit) all) in Hall.
  apply StronglySorted_app_inv in Hall as (H1 & _ & Hcross).
  split; [exact H1|]. split; [rewrite List.length_firstn, Hlen; reflexivity|].
  split.
  - intros r Hr. apply Hin.
    rewrite <- (List.firstn_skipn (Z.to_nat limit) all).
    apply in_or_app. left. exact Hr.
  - intros k r Hk.
    assert (Hr : In r all) by (apply Hin; eauto).
    rewrite <- (List.firstn_skipn (Z.to_nat limit) all) in Hr.
    apply in_app_or in Hr as [Hr|Hr]; [left; exact Hr|].
    right. intros r' Hr'. exact (Hcross r' r Hr' Hr).
Qed.

(** X7. The rows fetched for the coach ([ORDER BY date DESC LIMIT n]) are
    rows of the table, newest date text first, [min n size] of them, and
    they are the newest ones: any stored row that is left out is not newer
    than any row that is returned. *)
Theorem rows_desc_newest_first (logs : store) (limit : Z) :
  let rows := rows_desc logs limit in
  StronglySorted date_ge rows
  /\ List.length rows = Nat.min (Z.to_nat limit) (size logs)
  /\ (forall r, In r rows -> exists k, logs !! k = Some r)
  /\ (forall k r, logs !! k = Some r ->
                  In r rows \/ forall r', In r' rows -> date_le r r').
Proof. exact (rows_desc_spec logs limit). Qed.

(** ** Dates *)

Ltac div_lia := Z.to_euclidean_division_equations; lia.

Lemma days_before_month_bound (y m d : Z) :
  1 <= m <= 12 -> 1 <= d <= _days_in_month y m ->
  1 <= _days_before_month y m + d <= (if _is_leap y then 366 else 365).
Proof.
  intros Hm Hd. unfold _days_before_month, _days_in_month in *.
  assert (m = 1 \/ m = 2 \/ m = 3 \/ m = 4 \/ m = 5 \/ m = 6 \/ m = 7 \/ m = 8
          \/ m = 9 \/ m = 10 \/ m = 11 \/ m = 12) as Hcases by lia.
  destruct (_is_leap y);
    repeat (destruct Hcases as [->|Hcases]; [cbn in *; lia|]);
    subst m; cbn in *; lia.
Qed.

Lemma days_before_next_year (y : Z) :
  _days_before_year (y + 1)
  = _days_before_year y + (if _is_leap y then 366 else 365).
Proof.
  unfold _days_before_year, _is_leap.
  replace (y + 1 - 1) with y by lia.
  destruct (Z.eqb_spec (y mod 4) 0), (Z.eqb_spec (y mod 100) 0),
    (Z.eqb_spec (y mod 400) 0); cbv iota beta delta [andb orb negb];
    div_lia.
Qed.

Lemma days_before_year_bounds (y : Z) :
  1 <= y <= 10000 -> 0 <= _days_before_year y <= MAXORDINAL.
Proof.
  intros Hy. unfold _days_before_year, MAXORDINAL. div_lia.
Qed.

Lemma mk_date_valid (y m d o : Z) :
  mk_date y m d = Ok o ->
  1 <= y <= 9999 /\ 1 <= m <= 12 /\ 1 <= d <= _days_in_month y m
  /\ o = _ymd2ord y m d.
Proof.
  unfold mk_date. intros H.
  destruct ((1 <=? y) && (y <=? 9999) && (1 <=? m) && (m <=? 12)
            && (1 <=? d) && (d <=? _days_in_month y m)) eqn:E; [|discriminate].
  injection H as <-.
  repeat rewrite Bool.andb_true_iff in E. rewrite !Z.leb_le in E.
  intuition.
Qed.

Lemma mk_date_range (y m d o : Z) :
  mk_date y m d = Ok o -> 1 <= o <= MAXORDINAL.
Proof.
  intros H. apply mk_date_valid in H as (Hy & Hm & Hd & ->).
  pose proof (days_before_month_bound y m d Hm Hd) as Hb.
  pose proof (days_before_next_year y) as Hn.
  pose proof (days_before_year_bounds y ltac:(lia)) as H1.
  pose proof (days_before_year_bounds (y + 1) ltac:(lia)) as H2.
  unfold _ymd2ord. destruct (_is_leap y); lia.
Qed.

Lemma parsed_date_range (s : string) (d : Z) :
  _parse_yyyy_mm_dd s = Ok d -> 1 <= d <= MAXORDINAL.
Proof.
  unfold _parse_yyyy_mm_dd.
  destruct (strptime_match (chars s)) as [[[[y m] dd] rest]|]; [|discriminate].
  destruct rest; [|discriminate]. apply mk_date_range.
Qed.

(** X8. A date text that [_parse_yyyy_mm_dd] accepts denotes a day between
    0001-01-01 and 9999-12-31: its ordinal lies between 1 and
    [MAXORDINAL]. *)
Theorem parsed_date_is_representable (s : string) (d : Z) :
  _parse_yyyy_mm_dd s = Ok d -> 1 <= d <= MAXORDINAL.
Proof. exact (parsed_date_range s d). Qed.

Lemma parsed_date_is_representable_witness :
  1 <= 738892 <= MAXORDINAL.
Proof. exact (parsed_date_is_representable "2024-01-07" 738892 eq_refl). Defined.

(** ** More on the window selector *)

Lemma last_item_greatest {A : Type} (R : A -> A -> Prop) (l : list A) (x : A) :
  (forall a, R a a) -> StronglySorted R l -> last_item l = Ok x ->
  forall y, In y l -> R y x.
Proof.
  intros Hrefl Hs. revert x.
  induction Hs as [|a l Hs IH Hall]; intros x Hlast y Hy; [destruct Hy|].
  destruct l as [|b l'].
  - cbn in Hlast. injection Hlast as <-. destruct Hy as [<-|[]]. apply Hrefl.
  - change (last_item (a :: b :: l')) with (last_item (b :: l')) in Hlast.
    destruct Hy as [<-|Hy].
    + rewrite List.Forall_forall in Hall. apply Hall.
      apply last_item_In. exact Hlast.
    + apply (IH x Hlast y Hy).
Qed.

Lemma StronglySorted_filter {A : Type} (R : A -> A -> Prop) (f : A -> bool)
  (l : list A) :
  StronglySorted R l -> StronglySorted R (List.filter f l).
Proof.
  induction 1 as [|a l Hs IH Hall]; cbn [List.filter]; [constructor|].
  destruct (f a); [|exact IH].
  constructor; [exact IH|].
  rewrite List.Forall_forall in *. intros y Hy.
  apply List.filter_In in Hy as [Hy _]. apply Hall. exact Hy.
Qed.

Lemma length_filter_le {A : Type} (f : A -> bool) (l : list A) :
  (List.length (List.filter f l) <= List.length l)%nat.
Proof.
  induction l as [|a l IH]; cbn; [lia|]. destruct (f a); cbn; lia.
Qed.

Lemma select_base_length (today : Z) (logs : list Log.t) :
  (List.length (select_base today logs) <= List.length logs)%nat.
Proof.
  destruct (Nat.le_gt_cases 3 (List.length (List.filter (dated_by today) logs)))
    as [H|H].
  - rewrite (select_base_past today logs H). apply length_filter_le.
  - rewrite (select_base_all today logs H). lia.
Qed.

Lemma select_window_spec
  (today : Z) (logs : list Log.t) (days : Z) (sel : Selection) :
  _select_window_from_logs today logs days = Ok sel ->
  exists newest end_date start_date,
    In newest (select_base today logs)
    /\ (forall l, In l (select_base today logs) -> date_le l newest)
    /\ _parse_yyyy_mm_dd (Log.date newest) = Ok end_date
    /\ start_date = end_date - (days - 1)
    /\ 1 <= start_date <= MAXORDINAL
    /\ used_end_date sel = isoformat end_date
    /\ used_start_date sel = isoformat start_date
    /\ (forall l,
           In l (window sel)
           <-> In l (select_base today logs)
               /\ exists d, _parse_yyyy_mm_dd (Log.date l) = Ok d
                            /\ start_date <= d <= end_date)
    /\ StronglySorted date_le (window sel)
    /\ (List.length (window sel) <= List.length logs)%nat.
Proof.
  unfold _select_window_from_logs. intros H.
  destruct (split_by_today today logs) as [p f].
  set (base := select_base today logs) in *.
  destruct (sorted_by_date_sorts base) as (Hperm & Hsorted & _).
  apply res_bind_ok in H as (newest & Hlast & H).
  apply res_bind_ok in H as (end_date & Hend & H).
  apply res_bind_ok in H as (start_date & Hstart & H).
  injection H as <-. cbn [window used_end_date used_start_date].
  exists newest, end_date, start_date.
  assert (Hin : forall l, In l (sorted_by_date base) <-> In l base)
    by (intros l; apply In_sorted_by_date).
  unfold date_add_days in Hstart.
  destruct ((0 <? end_date + - (days - 1))
            && (end_date + - (days - 1) <=? MAXORDINAL)) eqn:E;
    [|discriminate].
  injection Hstart as <-.
  apply Bool.andb_true_iff in E as [E1 E2].
  apply Z.ltb_lt in E1. apply Z.leb_le in E2.
  split; [apply Hin, last_item_In; exact Hlast|].
  split.
  { intros l Hl. apply (last_item_greatest date_le (sorted_by_date base));
      [intros a; apply leb_refl | exact Hsorted | exact Hlast | apply Hin, Hl]. }
  split; [exact Hend|]. split; [lia|]. split; [lia|].
  split; [reflexivity|]. split; [reflexivity|].
  split.
  { intros l. rewrite List.filter_In, Hin. unfold in_window.
    split.
    - intros [Hl Hw]. split; [exact Hl|].
      destruct (_parse_yyyy_mm_dd (Log.date l)) as [d|]; [|discriminate].
      exists d. split; [reflexivity|]. lia.
    - intros [Hl (d & -> & Hd)]. split; [exact Hl | lia]. }
  split; [apply StronglySorted_filter; exact Hsorted|].
  etransitivity; [apply length_filter_le|].
  rewrite (Permutation_length Hperm). apply select_base_length.
Qed.

(** X9. A returned window is exactly the range it reports.  The end date
    is the date of a base entry whose date text is greatest; the start date
    is [days - 1] days before it and is a representable date; the window
    holds precisely the base entries whose date parses to a day from start
    to end, in non-decreasing order of date text, and it is never longer
    than the input. *)
Theorem window_is_the_reported_range
  (today : Z) (logs : list Log.t) (days : Z) (sel : Selection) :
  _select_window_from_logs today logs days = Ok sel ->
  exists newest end_date start_date,
    In newest (select_base today logs)
    /\ (forall l, In l (select_base today logs) -> date_le l newest)
    /\ _parse_yyyy_mm_dd (Log.date newest) = Ok end_date
    /\ start_date = end_date - (days - 1)
    /\ 1 <= start_date <= MAXORDINAL
    /\ used_end_date sel = isoformat end_date
    /\ used_start_date sel = isoformat start_date
    /\ (forall l,
           In l (window sel)
           <-> In l (select_base today logs)
               /\ exists d, _parse_yyyy_mm_dd (Log.date l) = Ok d
                            /\ start_date <= d <= end_date)
    /\ StronglySorted date_le (window sel)
    /\ (List.length (window sel) <= List.length logs)%nat.
Proof. exact (select_window_spec today logs days sel). Qed.

Lemma window_is_the_reported_range_witness :
  exists sel newest,
    _select_window_from_logs 738892 mixed_logs 14 = Ok sel
    /\ In newest (select_base 738892 mixed_logs)
    /\ _parse_yyyy_mm_dd (Log.date newest) = Ok 738892
    /\ used_start_date sel = "2023-12-25".
Proof.
  destruct (window_is_the_reported_range 738892 mixed_logs 14
              {| window := [ day_log "2024-01-05" 6 7 true;
                             day_log "2024-01-06" 5 8 false;
                             day_log "2024-01-07" 6 5 true ];
                 future_count := 1;
                 used_start_date := "2023-12-25";
                 used_end_date := "2024-01-07";
                 used_past_only := true |} eq_refl)
    as (newest & e & s & Hin & _ & Hparse & _ & _ & He & Hs & _).
  eexists _, newest. split; [reflexivity|]. split; [exact Hin|].
  split; [|reflexivity].
  rewrite Hparse. f_equal.
  assert (In newest (List.filter (dated_by 738892) mixed_logs)) as Hn
      by exact Hin.
  cbn in Hn. destruct Hn as [<-|[<-|[<-|[]]]]; 
    cbn in Hparse, He; injection Hparse as <-; try reflexivity;
    vm_compute in He; discriminate He.
Defined.

(** ** More on the statistics engine *)

Lemma map_res_In {A B : Type} (f : A -> res B) (l : list A) (vs : list B) :
  map_res f l = Ok vs ->
  List.map f l = List.map Ok vs.
Proof.
  revert vs. induction l as [|x rest IH]; intros vs H; cbn in H.
  - injection H as <-. reflexivity.
  - apply res_bind_ok in H as (y & Hy & H).
    apply res_bind_ok in H as (ys & Hys & H). injection H as <-.
    cbn. rewrite Hy, (IH ys Hys). reflexivity.
Qed.

Lemma max_of_ge (x : Z) (xs : list Z) :
  forall y, In y (x :: xs) -> y <= max_of x xs.
Proof.
  unfold max_of. revert x. induction xs as [|z zs IH]; intros x y Hy; cbn.
  - destruct Hy as [<-|[]]. lia.
  - assert (Hmono : Z.max x z <= List.fold_left Z.max zs (Z.max x z))
      by (apply IH; left; reflexivity).
    destruct Hy as [<-|[<-|Hy]]; [lia | lia |].
    apply IH. right. exact Hy.
Qed.

Lemma min_of_le (x : Z) (xs : list Z) :
  forall y, In y (x :: xs) -> min_of x xs <= y.
Proof.
  unfold min_of. revert x. induction xs as [|z zs IH]; intros x y Hy; cbn.
  - destruct Hy as [<-|[]]. lia.
  - assert (Hmono : List.fold_left Z.min zs (Z.min x z) <= Z.min x z)
      by (apply IH; left; reflexivity).
    destruct Hy as [<-|[<-|Hy]]; [lia | lia |].
    apply IH. right. exact Hy.
Qed.

Lemma min_of_In (x : Z) (xs : list Z) : In (min_of x xs) (x :: xs).
Proof.
  unfold min_of. revert x. induction xs as [|y ys IH]; intros x; cbn.
  - auto.
  - destruct (IH (Z.min x y)) as [H|H].
    + rewrite <- H.
      destruct (Z.min_spec x y) as [[_ E]|[_ E]]; rewrite E; auto.
    + auto.
Qed.

(** The loop over the calendar days, in closed form: it fails exactly when
    it would step past the last date, and otherwise counts the days of the
    range that are not in the set. *)
Lemma missing_loop_spec (steps : nat) (cur : Z) (have : gset Z) (m : Z) :
  1 <= cur <= MAXORDINAL ->
  missing_loop steps cur have m
  = if cur + Z.of_nat steps <=? MAXORDINAL
    then Ok (m + len (List.filter (fun d => negb (bool_decide (d ∈ have)))
                                  (seqZ cur (Z.of_nat steps))))
    else Raise OverflowError.
Proof.
  revert cur m. induction steps as [|k IH]; intros cur m Hcur.
  - cbn [missing_loop]. rewrite seqZ_nil by lia.
    destruct (Z.leb_spec (cur + Z.of_nat 0) MAXORDINAL) as [H|H]; [|lia].
    f_equal. unfold len. cbn. lia.
  - cbn [missing_loop]. unfold date_add_days.
    destruct (Z.ltb_spec 0 (cur + 1)); [|lia].
    destruct (Z.leb_spec (cur + 1) MAXORDINAL) as [H1|H1]; cbn [andb res_bind].
    + rewrite IH by lia.
      replace (cur + 1 + Z.of_nat k) with (cur + Z.of_nat (S k)) by lia.
      destruct (Z.leb_spec (cur + Z.of_nat (S k)) MAXORDINAL); [|reflexivity].
      f_equal. rewrite (seqZ_cons cur (Z.of_nat (S k))) by lia.
      replace (Z.pred (Z.of_nat (S k))) with (Z.of_nat k) by lia.
      replace (Z.succ cur) with (cur + 1) by lia.
      cbn [List.filter]. unfold len.
      destruct (bool_decide (cur ∈ have)); cbn [negb List.length]; lia.
    + destruct (Z.leb_spec (cur + Z.of_nat (S k)) MAXORDINAL); [lia|].
      reflexivity.
Qed.

Lemma filter_split_length {A : Type} (f : A -> bool) (l : list A) :
  (List.length (List.filter f l)
   + List.length (List.filter (fun x => negb (f x)) l) = List.length l)%nat.
Proof.
  induction l as [|a l IH]; cbn; [reflexivity|].
  destruct (f a); cbn; lia.
Qed.

(** The days of a range that belong to a set inside the range are as many
    as the set has elements. *)
Lemma days_in_set_count (have : gset Z) (s n : Z) :
  (forall d, d ∈ have -> s <= d < s + n) ->
  List.length (List.filter (fun d => bool_decide (d ∈ have)) (seqZ s n))
  = size have.
Proof.
  intros Hin.
  set (L := List.filter (fun d => bool_decide (d ∈ have)) (seqZ s n)).
  assert (Hnd : NoDup L).
  { unfold L. apply NoDup_ListNoDup, List.NoDup_filter, NoDup_ListNoDup,
      NoDup_seqZ. }
  assert (Hset : list_to_set L = have).
  { apply set_eq. intros d. rewrite elem_of_list_to_set.
    unfold L. rewrite list_elem_of_In, List.filter_In, <- list_elem_of_In,
      elem_of_seqZ, bool_decide_eq_true.
    split; [tauto|]. intros Hd. split; [apply Hin; exact Hd | exact Hd]. }
  transitivity (size (list_to_set L : gset Z)).
  - symmetry. apply size_list_to_set. exact Hnd.
  - rewrite Hset. reflexivity.
Qed.

Lemma index_of_first (v : Z) (xs : list Z) (i : nat) :
  index_of v xs = Ok i ->
  xs !! i = Some v /\ forall j y, (j < i)%nat -> xs !! j = Some y -> y <> v.
Proof.
  revert i. induction xs as [|x rest IH]; intros i H; cbn in H;
    [discriminate|].
  destruct (Z.eqb_spec x v) as [->|Hne].
  - injection H as <-. split; [reflexivity|]. intros j y Hj. lia.
  - apply res_bind_ok in H as (i' & Hi' & H). injection H as <-.
    destruct (IH i' Hi') as [Hl Hfirst]. split; [exact Hl|].
    intros [|j] y Hj Hy; cbn in Hy.
    + injection Hy as <-. exact Hne.
    + apply (Hfirst j y); [lia | exact Hy].
Qed.

Lemma summarize_ok_inputs
  (goals : Goals) (logs : list Log.t) (st : Stats.t) :
  _summarize_window goals logs = Ok st ->
  logs <> []
  /\ Stats.n st = len logs
  /\ forall l, In l logs ->
       exists d, _parse_yyyy_mm_dd (Log.date l) = Ok d
                 /\ 1 <= d < MAXORDINAL.
Proof.
  intros H. split; [|split].
  - intros ->. vm_compute in H. discriminate H.
  - exact (proj1 (summarize_inv goals logs st H)).
  - unfold _summarize_window in H.
    apply res_bind_ok in H as (peak_idx & _ & H).
    apply res_bind_ok in H as (pd & _ & H).
    apply res_bind_ok in H as (te & _ & H).
    apply res_bind_ok in H as (corr & _ & H).
    apply res_bind_ok in H as (dts & Hdts & H).
    apply res_bind_ok in H as (missing & Hmiss & _).
    apply map_res_In in Hdts.
    assert (Hrange : forall d, In d dts -> 1 <= d <= MAXORDINAL).
    { intros d Hd.
      assert (In (Ok d) (List.map (fun l => _parse_yyyy_mm_dd (Log.date l)) logs))
        as Hd' by (rewrite Hdts; apply List.in_map; exact Hd).
      apply List.in_map_iff in Hd' as (l & Hl & _).
      exact (parsed_date_range _ _ Hl). }
    intros l Hl.
    assert (In (_parse_yyyy_mm_dd (Log.date l)) (List.map Ok dts)) as Hp
      by (rewrite <- Hdts;
          apply (List.in_map (fun l => _parse_yyyy_mm_dd (Log.date l)));
          exact Hl).
    apply List.in_map_iff in Hp as (d & Hd & Hin).
    exists d. split; [symmetry; exact Hd|].
    destruct dts as [|d0 rest]; [destruct Hin|].
    pose proof (min_of_In d0 rest) as Hmin.
    pose proof (max_of_ge d0 rest d Hin) as Hmax.
    pose proof (min_of_le d0 rest d Hin) as Hmin'.
    rewrite missing_loop_spec in Hmiss by (apply Hrange; exact Hmin).
    destruct (Z.leb_spec (min_of d0 rest
                          + Z.of_nat (Z.to_nat (max_of d0 rest
                                                - min_of d0 rest + 1)))
                         MAXORDINAL) as [Hle|]; [|discriminate].
    specialize (Hrange d Hin). lia.
Qed.

(** X10. [_summarize_window] returns a record only for a non-empty window
    whose date texts all parse to days before 9999-12-31: an empty window
    ends in a division by zero, a date that does not parse raises, and the
    loop over the calendar days steps past the last representable date
    when the window reaches 9999-12-31. *)
Theorem summarize_returns_only_if
  (goals : Goals) (logs : list Log.t) (st : Stats.t) :
  _summarize_window goals logs = Ok st ->
  logs <> []
  /\ Stats.n st = len logs
  /\ forall l, In l logs ->
       exists d, _parse_yyyy_mm_dd (Log.date l) = Ok d
                 /\ 1 <= d < MAXORDINAL.
Proof. exact (summarize_ok_inputs goals logs st). Qed.

Lemma summarize_returns_only_if_witness :
  week_logs <> []
  /\ forall l, In l week_logs ->
       exists d, _parse_yyyy_mm_dd (Log.date l) = Ok d /\ 1 <= d < MAXORDINAL.
Proof.
  destruct (_summarize_window DEFAULT_GOALS week_logs) as [st|e] eqn:Hst;
    [|vm_compute in Hst; discriminate Hst].
  destruct (summarize_returns_only_if DEFAULT_GOALS week_logs st Hst)
    as (Hne & _ & Hall).
  split; assumption.
Defined.

Lemma count_if_bounds {A : Type} (p : A -> bool) (xs : list A) :
  0 <= count_if p xs <= len xs.
Proof.
  unfold count_if, len. pose proof (length_filter_le p xs). lia.
Qed.

(** X11. In every record [_summarize_window] returns: the workout count
    and the high-anxiety-day count lie between 0 and the window size; the
    peak anxiety is the greatest anxiety of the window, and the peak date
    is the date of the first log that reaches it; the trend deltas are
    present exactly when the window has six logs or more. *)
Theorem summarize_peak_and_counts
  (goals : Goals) (logs : list Log.t) (st : Stats.t) :
  _summarize_window goals logs = Ok st ->
  0 <= Stats.workouts st <= Stats.n st
  /\ 0 <= Stats.high_anxiety_days st <= Stats.n st
  /\ (forall l, In l logs -> Log.anxiety l <= Stats.peak_anxiety st)
  /\ (exists i l,
         logs !! i = Some l
         /\ Log.anxiety l = Stats.peak_anxiety st
         /\ Stats.peak_date st = Some (Log.date l)
         /\ forall j l', (j < i)%nat -> logs !! j = Some l' ->
                         Log.anxiety l' < Stats.peak_anxiety st)
  /\ is_some (Stats.trend st) = (6 <=? Stats.n st).
Proof.
  intros H.
  destruct (summarize_ok_inputs goals logs st H) as (Hne & _ & _).
  destruct (summarize_inv goals logs st H)
    as (En & _ & Ehigh & Ework & Epeak & (i & Ei & Epd) & _ & _ & Etrend & _).
  rewrite En, Ework, Ehigh.
  pose proof (count_if_bounds (fun t : bool => t) (List.map Log.trained logs))
    as Hw.
  pose proof (count_if_bounds (fun a => anxietyMax goals <? a)
                (List.map Log.anxiety logs)) as Hh.
  rewrite len_map in Hw. rewrite len_map in Hh.
  split; [exact Hw|]. split; [exact Hh|].
  destruct logs as [|l0 rest]; [contradiction|].
  cbn [List.map] in Epeak, Ei.
  assert (Hmax : forall l, In l (l0 :: rest) ->
                           Log.anxiety l <= Stats.peak_anxiety st).
  { intros l Hl. rewrite Epeak.
    apply (max_of_ge (Log.anxiety l0) (List.map Log.anxiety rest)).
    change (In (Log.anxiety l) (List.map Log.anxiety (l0 :: rest))).
    apply List.in_map. exact Hl. }
  split; [exact Hmax|]. split.
  - destruct (index_of_first _ _ _ Ei) as [Hl Hfirst].
    change (Log.anxiety l0 :: List.map Log.anxiety rest)
      with (List.map Log.anxiety (l0 :: rest)) in Hl, Hfirst.
    change (List.map Log.anxiety (l0 :: rest))
      with (Log.anxiety <$> (l0 :: rest)) in Hl, Hfirst.
    rewrite list_lookup_fmap in Hl.
    destruct ((l0 :: rest) !! i) as [l|] eqn:Hli; [|discriminate].
    cbn in Hl. injection Hl as Hl.
    exists i, l. split; [exact Hli|]. split; [exact Hl|].
    split; [rewrite Epd; reflexivity|].
    intros j l' Hj Hl'.
    assert (Log.anxiety l' <> Stats.peak_anxiety st).
    { apply (Hfirst j); [exact Hj|].
      rewrite list_lookup_fmap, Hl'. reflexivity. }
    assert (Log.anxiety l' <= Stats.peak_anxiety st).
    { apply Hmax. apply list_elem_of_In. eapply list_elem_of_lookup_2.
      exact Hl'. }
    lia.
  - destruct (trend_of_returns (l0 :: rest)) as (t & Et & Hsome).
    rewrite Etrend in Et. injection Et as ->. exact Hsome.
Qed.

Lemma summarize_peak_and_counts_witness :
  exists st,
    _summarize_window DEFAULT_GOALS week_logs = Ok st
    /\ (forall l, In l week_logs -> Log.anxiety l <= Stats.peak_anxiety st)
    /\ is_some (Stats.trend st) = (6 <=? Stats.n st).
Proof.
  destruct (_summarize_window DEFAULT_GOALS week_logs) as [st|e] eqn:Hst;
    [|vm_compute in Hst; discriminate Hst].
  destruct (summarize_peak_and_counts DEFAULT_GOALS week_logs st Hst)
    as (_ & _ & Hmax & _ & Htrend).
  exists st. split; [reflexivity|]. split; assumption.
Defined.

(** X12. In every record [_summarize_window] returns, the number of
    missing days is the number of calendar days from the earliest to the
    latest date of the window minus the number of distinct dates logged;
    in particular it is never negative. *)
Theorem summarize_missing_days
  (goals : Goals) (logs : list Log.t) (st : Stats.t) :
  _summarize_window goals logs = Ok st ->
  exists d0 rest,
    List.map (fun l => _parse_yyyy_mm_dd (Log.date l)) logs
    = List.map Ok (d0 :: rest)
    /\ Stats.missing_days_in_range st
       = (max_of d0 rest - min_of d0 rest + 1)
         - Z.of_nat (size (list_to_set (d0 :: rest) : gset Z))
    /\ 0 <= Stats.missing_days_in_range st.
Proof.
  intros H.
  destruct (summarize_ok_inputs goals logs st H) as (Hne & _ & Hall).
  unfold _summarize_window in H.
  apply res_bind_ok in H as (peak_idx & _ & H).
  apply res_bind_ok in H as (pd & _ & H).
  apply res_bind_ok in H as (te & _ & H).
  apply res_bind_ok in H as (corr & _ & H).
  apply res_bind_ok in H as (dts & Hdts & H).
  apply res_bind_ok in H as (missing & Hmiss & H).
  apply res_bind_ok in H as (tr & _ & H).
  apply res_bind_ok in H as (q & _ & H).
  apply res_bind_ok in H as (am & _ & H).
  apply res_bind_ok in H as (aa & _ & H).
  apply res_bind_ok in H as (af & _ & H).
  injection H as <-. cbn [Stats.missing_days_in_range].
  apply map_res_In in Hdts.
  destruct dts as [|d0 rest].
  { destruct logs; [contradiction | discriminate Hdts]. }
  exists d0, rest. split; [exact Hdts|].
  assert (Hrange : forall d, In d (d0 :: rest) -> 1 <= d <= MAXORDINAL).
  { intros d Hd.
    assert (In (Ok d) (List.map (fun l => _parse_yyyy_mm_dd (Log.date l)) logs))
      as Hd' by (rewrite Hdts; apply List.in_map; exact Hd).
    apply List.in_map_iff in Hd' as (l & Hl & _).
    exact (parsed_date_range _ _ Hl). }
  pose proof (min_of_In d0 rest) as Hmin.
  pose proof (max_of_ge d0 rest _ Hmin) as Hmm.
  set (s := min_of d0 rest) in *. set (e := max_of d0 rest) in *.
  rewrite missing_loop_spec in Hmiss by (apply Hrange; exact Hmin).
  destruct (Z.leb_spec (s + Z.of_nat (Z.to_nat (e - s + 1))) MAXORDINAL);
    [|discriminate].
  injection Hmiss as <-.
  replace (Z.of_nat (Z.to_nat (e - s + 1))) with (e - s + 1) by lia.
  pose proof (filter_split_length
                (fun d => bool_decide (d ∈ (list_to_set (d0 :: rest) : gset Z)))
                (seqZ s (e - s + 1))) as Hsplit.
  rewrite (days_in_set_count (list_to_set (d0 :: rest)) s (e - s + 1))
    in Hsplit.
  2:{ intros d Hd. apply elem_of_list_to_set, list_elem_of_In in Hd.
      pose proof (min_of_le d0 rest d Hd). pose proof (max_of_ge d0 rest d Hd).
      fold s in H0. fold e in H1. lia. }
  rewrite length_seqZ in Hsplit. unfold len.
  match goal with |- context [length ?x] => set (a := length x) end.
  match type of Hsplit with
  | context [length ?x] => change (length x) with a in Hsplit
  end.
  lia.
Qed.

Lemma summarize_missing_days_witness :
  exists st,
    _summarize_window DEFAULT_GOALS week_logs = Ok st
    /\ 0 <= Stats.missing_days_in_range st.
Proof.
  destruct (_summarize_window DEFAULT_GOALS week_logs) as [st|e] eqn:Hst;
    [|vm_compute in Hst; discriminate Hst].
  destruct (summarize_missing_days DEFAULT_GOALS week_logs st Hst)
    as (d0 & rest & _ & _ & Hpos).
  exists st. split; [reflexivity | exact Hpos].
Defined.

(** ** The gateway *)









(** ** Model names *)

Lemma drop_spaces_head (s : list ascii) :
  match drop_spaces s with
  | [] => True
  | c :: _ => is_py_space c = false
  end.
Proof.
  induction s as [|c s IH]; cbn; [exact I|].
  destruct (is_py_space c) eqn:E; [exact IH | exact E].
Qed.

Lemma drop_spaces_fixed (s : list ascii) :
  match s with [] => True | c :: _ => is_py_space c = false end ->
  drop_spaces s = s.
Proof. destruct s as [|c s]; cbn; [reflexivity|]. intros ->. reflexivity. Qed.

Lemma drop_spaces_suffix (s : list ascii) :
  exists pre, s = (pre ++ drop_spaces s)%list.
Proof.
  induction s as [|c s (pre & IH)]; cbn.
  - exists []. reflexivity.
  - destruct (is_py_space c).
    + exists (c :: pre). cbn. rewrite <- IH. reflexivity.
    + exists []. reflexivity.
Qed.

(** The characters [strip] keeps begin and end with a character that is
    not white space. *)
Lemma strip_chars_fixed (s : list ascii) :
  let kept := List.rev (drop_spaces (List.rev (drop_spaces s))) in
  List.rev (drop_spaces (List.rev (drop_spaces kept))) = kept.
Proof.
  cbv zeta.
  set (X := drop_spaces s).
  set (Y := drop_spaces (List.rev X)).
  assert (HY : drop_spaces Y = Y)
    by (apply drop_spaces_fixed, drop_spaces_head).
  assert (HX : drop_spaces (List.rev Y) = List.rev Y).
  { apply drop_spaces_fixed.
    destruct (drop_spaces_suffix (List.rev X)) as (pre & Hpre).
    fold Y in Hpre.
    assert (HXY : X = (List.rev Y ++ List.rev pre)%list).
    { rewrite <- List.rev_app_distr, <- Hpre, List.rev_involutive.
      reflexivity. }
    pose proof (drop_spaces_head s) as Hhead. fold X in Hhead.
    rewrite HXY in Hhead.
    destruct (List.rev Y) as [|c r]; [exact I | exact Hhead]. }
  rewrite HX, List.rev_involutive, HY. reflexivity.
Qed.

Lemma chars_string_of_list (l : list ascii) :
  chars (string_of_list_ascii l) = l.
Proof. apply list_ascii_of_string_of_list_ascii. Qed.

Lemma str_strip_idempotent (s : string) :
  str_strip (str_strip s) = str_strip s.
Proof.
  unfold str_strip. rewrite chars_string_of_list.
  rewrite (strip_chars_fixed (chars s)). reflexivity.
Qed.

Lemma prefix_lower_first (c : ascii) (p s : string) :
  String.prefix (String c p) (str_lower s) = true ->
  exists d rest, s = String d rest /\ lower_char d = c.
Proof.
  destruct s as [|d rest]; cbn [str_lower String.prefix]; [discriminate|].
  destruct (Ascii.ascii_dec c (lower_char d)) as [->|]; [|discriminate].
  eauto.
Qed.

(** X15. A name [_validate_gemini_model_name] accepts is returned in
    canonical form: it is not empty, carries no white space at either end,
    starts with "gemini-" when lowered, names neither "llama" nor
    "mixtral", and validating it again returns it unchanged. *)
Theorem validated_model_is_canonical (model m : string) :
  _validate_gemini_model_name model = Ok m ->
  m <> ""
  /\ str_strip m = m
  /\ String.prefix "gemini-" (str_lower m) = true
  /\ str_contains "llama" (str_lower m) = false
  /\ str_contains "mixtral" (str_lower m) = false
  /\ _validate_gemini_model_name m = Ok m.
Proof.
  intros H.
  assert (Hfacts : str_strip m = m
                   /\ String.prefix "gemini-" (str_lower m) = true
                   /\ str_contains "llama" (str_lower m) = false
                   /\ str_contains "mixtral" (str_lower m) = false).
  { unfold _validate_gemini_model_name in H.
    destruct (String.eqb (str_strip model) ""); [discriminate|].
    set (m0 := if String.prefix "models/" (str_strip model)
               then str_strip (str_drop 7 (str_strip model))
               else str_strip model) in H.
    assert (Hm0 : str_strip m0 = m0).
    { unfold m0. destruct (String.prefix "models/" (str_strip model));
        apply str_strip_idempotent. }
    destruct (str_contains "llama" (str_lower m0)
              || str_contains "mixtral" (str_lower m0)) eqn:Hbad;
      [discriminate|].
    destruct (String.prefix "gemini-" (str_lower m0)) eqn:Hpre;
      [|discriminate].
    cbn [negb] in H. injection H as <-.
    apply Bool.orb_false_iff in Hbad as [Hl Hx]. auto. }
  destruct Hfacts as (Hstrip & Hpre & Hl & Hx).
  destruct (prefix_lower_first _ _ _ Hpre) as (d & rest & -> & Hd).
  split; [discriminate|]. split; [exact Hstrip|].
  split; [exact Hpre|]. split; [exact Hl|]. split; [exact Hx|].
  unfold _validate_gemini_model_name. rewrite Hstrip.
  cbn [String.eqb].
  assert (Hnot : String.prefix "models/" (String d rest) = false).
  { cbn [String.prefix].
    destruct (Ascii.ascii_dec "m" d) as [<-|]; [|reflexivity].
    vm_compute in Hd. discriminate Hd. }
  rewrite Hnot, Hl, Hx, Hpre. reflexivity.
Qed.

Lemma validated_model_is_canonical_witness :
  _validate_gemini_model_name "  models/Gemini-2.5-Flash " = Ok "Gemini-2.5-Flash"
  /\ _validate_gemini_model_name "Gemini-2.5-Flash" = Ok "Gemini-2.5-Flash".
Proof.
  assert (H : _validate_gemini_model_name "  models/Gemini-2.5-Flash "
              = Ok "Gemini-2.5-Flash") by (vm_compute; reflexivity).
  split; [exact H|].
  apply (validated_model_is_canonical _ _ H).
Defined.

(** ** The coach *)

Lemma clamp_bounds (lo hi v : Z) : lo <= hi -> lo <= clamp lo hi v <= hi.
Proof. unfold clamp. lia. Qed.

Lemma join_lines_not_empty (c : ascii) (l : string) (rest : list string) :
  join_lines (String c l :: rest) <> "".
Proof.
  destruct rest as [|l' rest]; cbn [join_lines]; [discriminate|].
  rewrite append_cons. discriminate.
Qed.

Lemma append_not_empty (a b : string) : a <> "" -> a +:+ b <> "".
Proof.
  destruct a as [|c a]; [contradiction|]. intros _.
  rewrite append_cons. discriminate.
Qed.

Lemma cache_ok_delete (cache : cache_t) (key : string) :
  cache_ok cache -> cache_ok (delete key cache).
Proof.
  intros Hok k item Hk. apply lookup_delete_Some in Hk as [_ Hk].
  exact (Hok k item Hk).
Qed.

Lemma cache_ok_set (cache : cache_t) (now : float) (key : string)
  (v : SnixCoachOut.t) :
  cache_ok cache -> well_formed_answer v ->
  cache_key (SnixCoachOut.stats v) = key ->
  cache_ok (_cache_set now key v cache).
Proof.
  intros Hok Hv Hkey k item Hk. unfold _cache_set in Hk.
  destruct (decide (key = k)) as [<-|Hne].
  - rewrite lookup_insert_eq in Hk. injection Hk as <-. cbn. auto.
  - rewrite lookup_insert_ne in Hk by exact Hne. exact (Hok k item Hk).
Qed.

Section CoachInvariant.
Variable float_repr : float -> string.
Variable json_dumps : UserPayload -> string.

(** What [snix_coach] has established when it reaches the cache. *)
Lemma coach_prepare_bounds (w : World) (db : Db) (payload : SnixCoachIn.t)
  (p : Prepared) :
  coach_prepare json_dumps w db payload = Ok p ->
  3 <= p_days p <= 60
  /\ 3 <= len (window (p_sel p)) <= 240
  /\ Stats.n (p_stats p) = len (window (p_sel p)).
Proof.
  intros H.
  destruct (coach_prepare_stats json_dumps w db payload p H) as [Hst Hlen].
  destruct (summarize_inv _ _ _ Hst) as (Hn & _).
  unfold coach_prepare in H.
  destruct (db_goals db) as [goals|]; [|discriminate].
  set (rows := rows_desc (db_logs db) (clamp 10 240 (SnixCoachIn.max_items payload)))
    in *.
  assert (Hrows : (List.length rows <= 240)%nat).
  { pose proof (rows_desc_spec (db_logs db)
                  (clamp 10 240 (SnixCoachIn.max_items payload)))
      as (_ & Hl & _).
    fold rows in Hl. rewrite Hl.
    pose proof (clamp_bounds 10 240 (SnixCoachIn.max_items payload)
                  ltac:(lia)).
    lia. }
  destruct rows as [|l rest] eqn:Erows; [discriminate|].
  apply res_bind_ok in H as (sel & Hsel & H).
  destruct (len (window sel) <? 3); [discriminate|].
  apply res_bind_ok in H as (prompt & _ & H).
  destruct prompt as [[system_text user_text] stats].
  injection H as <-. cbn [p_days p_sel p_stats] in *.
  destruct (select_window_spec _ _ _ _ Hsel)
    as (_ & _ & _ & _ & _ & _ & _ & _ & _ & _ & _ & _ & Hwl).
  split; [apply clamp_bounds; lia|]. split; [|exact Hn].
  unfold len in *. lia.
Qed.

Lemma answer_of_llm_well_formed (w : World) (p : Prepared) (out : GenOut)
  (a : SnixCoachOut.t) :
  3 <= p_days p <= 60 ->
  3 <= len (window (p_sel p)) <= 240 ->
  Stats.n (p_stats p) = len (window (p_sel p)) ->
  answer_of_llm w p out = Ok a ->
  well_formed_answer a /\ cache_key (SnixCoachOut.stats a) = p_cache_key p.
Proof.
  intros Hd Hw Hn H. unfold answer_of_llm in H.
  apply res_bind_ok in H as (model & _ & H). injection H as <-.
  unfold well_formed_answer.
  cbn [SnixCoachOut.ok SnixCoachOut.coach SnixCoachOut.days
       SnixCoachOut.n_logs_used SnixCoachOut.stats SnixCoachOut.report
       stats_out_of so_stats cache_key].
  split; [|reflexivity].
  repeat (split; [first [reflexivity | assumption]|]).
  set (r1 := if truthy (block_reason (meta out)) then blocked_report
             else str_strip (text out)).
  assert (Hr2 : (if String.eqb r1 "" then empty_report else r1) <> "").
  { destruct (String.eqb_spec r1 ""); [discriminate | assumption]. }
  destruct (0 <? future_count (p_sel p)); [|exact Hr2].
  apply append_not_empty. exact Hr2.
Qed.

Lemma fallback_answer_well_formed (p : Prepared) :
  3 <= p_days p <= 60 ->
  3 <= len (window (p_sel p)) <= 240 ->
  Stats.n (p_stats p) = len (window (p_sel p)) ->
  well_formed_answer (fallback_answer float_repr p)
  /\ cache_key (SnixCoachOut.stats (fallback_answer float_repr p))
     = p_cache_key p.
Proof.
  intros Hd Hw Hn. unfold well_formed_answer, fallback_answer.
  cbn [SnixCoachOut.ok SnixCoachOut.coach SnixCoachOut.days
       SnixCoachOut.n_logs_used SnixCoachOut.stats SnixCoachOut.report
       stats_out_of so_stats cache_key].
  split; [|reflexivity].
  repeat (split; [first [reflexivity | assumption]|]).
  unfold _snix_fallback_report. cbn [List.app].
  change "# Snix (modo offline) — foco: "
    with (String "#" " Snix (modo offline) — foco: ").
  rewrite append_cons. apply join_lines_not_empty.
Qed.

(** X16. Serving a coach request keeps the answers well formed.  If every
    cached answer is well formed and stored under its own fingerprint,
    then so is every entry of the cache after the request, and an answer
    returned has [ok = true], coach name "Snix", a day count between 3 and
    60, between 3 and 240 logs used (the size its statistics report) and a
    report that is not empty. *)
Theorem coach_answers_are_well_formed
  (w : World) (db : Db) (cache : cache_t) (now_get now_set : float)
  (payload : SnixCoachIn.t) :
  cache_ok cache ->
  let result :=
    snix_coach float_repr json_dumps w db cache now_get now_set payload in
  cache_ok (snd (fst result))
  /\ forall a, fst (fst result) = Ok a -> well_formed_answer a.
Proof.
  intros Hok. cbv zeta. unfold snix_coach.
  destruct (coach_prepare json_dumps w db payload) as [p|e] eqn:Hp;
    cbn [fst snd]; [|split; [exact Hok | discriminate]].
  destruct (coach_prepare_bounds w db payload p Hp) as (Hd & Hw & Hn).
  unfold coach_answer.
  destruct (cache_get_cases (w_cfg w) now_get (p_cache_key p) cache)
    as [(item & Hl & _ & ->)|(cache' & Hget & _)].
  - cbn [fst snd]. split; [exact Hok|].
    intros a Ha. injection Ha as <-. exact (proj1 (Hok _ _ Hl)).
  - assert (Hok' : cache_ok cache').
    { unfold _cache_get in Hget.
      destruct (cache !! p_cache_key p) as [item|].
      - destruct (PrimFloat.ltb _ _); [|discriminate Hget].
        injection Hget as <-. apply cache_ok_delete, Hok.
      - injection Hget as <-. exact Hok. }
    rewrite Hget. destruct (coach_llm_call w p) as [llm trace].
    assert (Hfb := fallback_answer_well_formed p Hd Hw Hn).
    destruct llm as [out|e]; cbn [res_bind].
    + destruct (answer_of_llm w p out) as [a|e] eqn:Ha.
      * destruct (answer_of_llm_well_formed w p out a Hd Hw Hn Ha)
          as [Hwf Hkey].
        cbn [fst snd]. split; [apply cache_ok_set; assumption|].
        intros a' Ha'. injection Ha' as <-. exact Hwf.
      * destruct e; cbn [fst snd]; try (split; [exact Hok' | discriminate]).
        destruct (is_quota detail); cbn [fst snd];
          [|split; [exact Hok' | discriminate]].
        split; [apply cache_ok_set; [exact Hok'|apply Hfb..]|].
        intros a' Ha'. injection Ha' as <-. apply Hfb.
    + destruct e; cbn [fst snd]; try (split; [exact Hok' | discriminate]).
      destruct (is_quota detail); cbn [fst snd];
        [|split; [exact Hok' | discriminate]].
      split; [apply cache_ok_set; [exact Hok'|apply Hfb..]|].
      intros a' Ha'. injection Ha' as <-. apply Hfb.
Qed.

(** X17. A coach request touches the cache at one key only, the
    fingerprint of the request: whatever it returns, every other entry is
    as it was; when the request fails before the fingerprint is computed,
    the cache is not touched and nothing is sent or slept. *)
Theorem coach_touches_only_its_fingerprint
  (w : World) (db : Db) (cache : cache_t) (now_get now_set : float)
  (payload : SnixCoachIn.t) :
  let result :=
    snix_coach float_repr json_dumps w db cache now_get now_set payload in
  match coach_prepare json_dumps w db payload with
  | Ok p =>
      forall k, k <> p_cache_key p -> snd (fst result) !! k = cache !! k
  | Raise e => result = (Raise e, cache, [])
  end.
Proof.
  cbv zeta. unfold snix_coach.
  destruct (coach_prepare json_dumps w db payload) as [p|e]; [|reflexivity].
  intros k Hk. unfold coach_answer.
  assert (Hget : snd (_cache_get (w_cfg w) now_get (p_cache_key p) cache) !! k
                 = cache !! k).
  { unfold _cache_get. destruct (cache !! p_cache_key p) as [item|];
      [|reflexivity].
    destruct (PrimFloat.ltb _ _); cbn [snd]; [|reflexivity].
    apply lookup_delete_ne. congruence. }
  destruct (_cache_get _ _ _ _) as [[cached|] cache']; cbn [snd] in Hget;
    [exact Hget|].
  destruct (coach_llm_call w p) as [llm trace].
  assert (Hset : forall v,
             _cache_set now_set (p_cache_key p) v cache' !! k = cache !! k).
  { intros v. unfold _cache_set. rewrite lookup_insert_ne by congruence.
    exact Hget. }
  destruct (do out <- llm; answer_of_llm w p out) as [a|e]; cbn [fst snd];
    [apply Hset|].
  destruct e; cbn [fst snd]; try exact Hget.
  destruct (is_quota detail); cbn [fst snd]; [apply Hset | exact Hget].
Qed.
End CoachInvariant.

Lemma coach_answers_are_well_formed_witness :
  cache_ok ∅
  /\ exists a,
       fst (fst (snix_coach plain_repr plain_dumps answering_world week_db ∅
                   1000 1003 week_request)) = Ok a
       /\ well_formed_answer a.
Proof.
  assert (Hempty : cache_ok ∅).
  { intros k item Hk. rewrite lookup_empty in Hk. discriminate Hk. }
  split; [exact Hempty|].
  assert (Hok : is_ok (fst (fst (snix_coach plain_repr plain_dumps
                                   answering_world week_db ∅ 1000 1003
                                   week_request))) = true)
    by (vm_compute; reflexivity).
  pose proof (proj2 (coach_answers_are_well_formed plain_repr plain_dumps
                       answering_world week_db ∅ 1000 1003 week_request
                       Hempty)) as Hwf.
  destruct (fst (fst (snix_coach plain_repr plain_dumps answering_world
                        week_db ∅ 1000 1003 week_request))) as [a|e];
    [|discriminate Hok].
  exists a. split; [reflexivity|]. apply Hwf. reflexivity.
Defined.

(** ** What the statistics and the prompt read *)

Lemma map_eq_of_Forall2 {A B : Type} (g : A -> B) (R : A -> A -> Prop)
  (l1 l2 : list A) :
  (forall a b, R a b -> g a = g b) ->
  List.Forall2 R l1 l2 -> List.map g l1 = List.map g l2.
Proof.
  intros Hg H. induction H as [|a b l1 l2 Hab _ IH]; cbn; [reflexivity|].
  rewrite (Hg a b Hab), IH. reflexivity.
Qed.

Lemma Forall2_length_eq {A : Type} (R : A -> A -> Prop) (l1 l2 : list A) :
  List.Forall2 R l1 l2 -> List.length l1 = List.length l2.
Proof. induction 1; cbn; congruence. Qed.

Lemma Forall2_skipn_keep {A : Type} (R : A -> A -> Prop) (n : nat)
  (l1 l2 : list A) :
  List.Forall2 R l1 l2 -> List.Forall2 R (List.skipn n l1) (List.skipn n l2).
Proof.
  intros H. revert n. induction H; intros [|n]; cbn; auto.
Qed.

Lemma Forall2_firstn_keep {A : Type} (R : A -> A -> Prop) (n : nat)
  (l1 l2 : list A) :
  List.Forall2 R l1 l2 -> List.Forall2 R (List.firstn n l1) (List.firstn n l2).
Proof.
  intros H. revert n. induction H; intros [|n]; cbn; auto.
Qed.

Lemma map_res_eq_of_Forall2 {A B : Type} (g : A -> res B)
  (R : A -> A -> Prop) (l1 l2 : list A) :
  (forall a b, R a b -> g a = g b) ->
  List.Forall2 R l1 l2 -> map_res g l1 = map_res g l2.
Proof.
  intros Hg H. induction H as [|a b l1 l2 Hab _ IH]; cbn; [reflexivity|].
  rewrite (Hg a b Hab), IH. reflexivity.
Qed.

Lemma item_at_eq_of_Forall2 {A B : Type} (g : A -> B) (R : A -> A -> Prop)
  (l1 l2 : list A) (i : nat) :
  (forall a b, R a b -> g a = g b) ->
  List.Forall2 R l1 l2 ->
  (do l <- item_at l1 i; Ok (Some (g l)))
  = (do l <- item_at l2 i; Ok (Some (g l))).
Proof.
  intros Hg H. revert i. unfold item_at.
  induction H as [|a b l1 l2 Hab _ IH]; intros [|i]; cbn; try reflexivity.
  - rewrite (Hg a b Hab). reflexivity.
  - apply IH.
Qed.

Lemma delta_of_eq_of_Forall2 (key : Log.t -> float) (R : Log.t -> Log.t -> Prop)
  (l1 l2 : list Log.t) :
  (forall a b, R a b -> key a = key b) ->
  List.Forall2 R l1 l2 -> delta_of key l1 = delta_of key l2.
Proof.
  intros Hk H. unfold delta_of, mean_key, last3, prev3, len.
  rewrite (Forall2_length_eq R l1 l2 H).
  rewrite (map_eq_of_Forall2 key R _ _ Hk
             (Forall2_skipn_keep R (List.length l2 - 3) l1 l2 H)).
  rewrite (Forall2_length_eq R _ _
             (Forall2_skipn_keep R (List.length l2 - 3) l1 l2 H)).
  rewrite (map_eq_of_Forall2 key R _ _ Hk
             (Forall2_firstn_keep R 3 _ _
                (Forall2_skipn_keep R (List.length l2 - 6) l1 l2 H))).
  rewrite (Forall2_length_eq R _ _
             (Forall2_firstn_keep R 3 _ _
                (Forall2_skipn_keep R (List.length l2 - 6) l1 l2 H))).
  reflexivity.
Qed.

(** The statistics read six fields of a log and nothing else. *)
Lemma summarize_same_measures (goals : Goals) (logs1 logs2 : list Log.t) :
  List.Forall2 same_measures logs1 logs2 ->
  _summarize_window goals logs1 = _summarize_window goals logs2.
Proof.
  intros H. unfold _summarize_window.
  assert (Hlen : len logs1 = len logs2)
    by (unfold len; rewrite (Forall2_length_eq _ _ _ H); reflexivity).
  assert (Hsleep : List.map (fun l => float_or0 (Log.sleep l)) logs1
                   = List.map (fun l => float_or0 (Log.sleep l)) logs2).
  { apply (map_eq_of_Forall2 _ same_measures); [|exact H].
    intros a b (_ & -> & _). reflexivity. }
  assert (Hmood : List.map Log.mood logs1 = List.map Log.mood logs2).
  { apply (map_eq_of_Forall2 _ same_measures); [|exact H].
    intros a b (_ & _ & Hm & _). exact Hm. }
  assert (Hanx : List.map Log.anxiety logs1 = List.map Log.anxiety logs2).
  { apply (map_eq_of_Forall2 _ same_measures); [|exact H].
    intros a b (_ & _ & _ & Ha & _). exact Ha. }
  assert (Hfood : List.map Log.foodScore logs1 = List.map Log.foodScore logs2).
  { apply (map_eq_of_Forall2 _ same_measures); [|exact H].
    intros a b (_ & _ & _ & _ & Hf & _). exact Hf. }
  assert (Htr : List.map Log.trained logs1 = List.map Log.trained logs2).
  { apply (map_eq_of_Forall2 _ same_measures); [|exact H].
    intros a b (_ & _ & _ & _ & _ & Ht). exact Ht. }
  assert (Hdts : map_res (fun l => _parse_yyyy_mm_dd (Log.date l)) logs1
                 = map_res (fun l => _parse_yyyy_mm_dd (Log.date l)) logs2).
  { apply (map_res_eq_of_Forall2 _ same_measures); [|exact H].
    intros a b (-> & _). reflexivity. }
  assert (Htrend : trend_of logs1 = trend_of logs2).
  { unfold trend_of. rewrite Hlen.
    rewrite (delta_of_eq_of_Forall2 (fun l => Z2F (Log.anxiety l))
               same_measures logs1 logs2)
      by (try exact H; intros a b (_ & _ & _ & -> & _); reflexivity).
    rewrite (delta_of_eq_of_Forall2 (fun l => float_or0 (Log.sleep l))
               same_measures logs1 logs2)
      by (try exact H; intros a b (_ & -> & _); reflexivity).
    rewrite (delta_of_eq_of_Forall2 (fun l => Z2F (Log.mood l))
               same_measures logs1 logs2)
      by (try exact H; intros a b (_ & _ & -> & _); reflexivity).
    reflexivity. }
  assert (Hpd : forall i,
             match logs1 with
             | [] => Ok None
             | _ => do l <- item_at logs1 i; Ok (Some (Log.date l))
             end
             = match logs2 with
               | [] => Ok None
               | _ => do l <- item_at logs2 i; Ok (Some (Log.date l))
               end).
  { intros i.
    pose proof (item_at_eq_of_Forall2 Log.date same_measures logs1 logs2 i
                  ltac:(intros a b (Hd & _); exact Hd) H) as Hi.
    destruct H; [reflexivity | exact Hi]. }
  rewrite Hlen, Hsleep, Hmood, Hanx, Hfood, Htr, Hdts, Htrend.
  destruct (match List.map Log.anxiety logs2 with
            | [] => Ok O
            | _ => index_of _ (List.map Log.anxiety logs2)
            end) as [i|e]; cbn [res_bind]; [|reflexivity].
  rewrite (Hpd i). reflexivity.
Qed.

(** X18. The statistics depend on six fields of a log only: two windows
    whose logs agree, one by one, on date, sleep, mood, anxiety, food
    score and the trained flag get the same result from
    [_summarize_window], be it a record or an exception. *)
Theorem summarize_reads_six_fields
  (goals : Goals) (logs1 logs2 : list Log.t) :
  List.Forall2 same_measures logs1 logs2 ->
  _summarize_window goals logs1 = _summarize_window goals logs2.
Proof. exact (summarize_same_measures goals logs1 logs2). Qed.

Lemma week_notes_same_but_notes :
  List.Forall2 same_but_notes week_logs_with_notes week_logs.
Proof.
  unfold week_logs_with_notes.
  induction week_logs as [|l rest IH]; cbn [List.map]; constructor;
    [|exact IH].
  unfold same_but_notes. cbn. repeat split; reflexivity.
Qed.

Lemma same_but_notes_measures (l1 l2 : list Log.t) :
  List.Forall2 same_but_notes l1 l2 -> List.Forall2 same_measures l1 l2.
Proof.
  induction 1 as [|a b l1 l2 Hab _ IH]; constructor; [|exact IH].
  unfold same_but_notes in Hab. unfold same_measures. tauto.
Qed.

Lemma summarize_reads_six_fields_witness :
  _summarize_window DEFAULT_GOALS week_logs_with_notes
  = _summarize_window DEFAULT_GOALS week_logs.
Proof.
  apply summarize_reads_six_fields, same_but_notes_measures,
    week_notes_same_but_notes.
Defined.

Section PromptPrivacy.
Variable json_dumps : UserPayload -> string.

(** X19. With [include_notes] off, the notes never reach the prompt: two
    windows that differ in notes only give the same system text, the same
    user text and the same statistics. *)
Theorem prompt_without_notes_ignores_notes
  (goals : Goals) (window1 window2 : list Log.t) (focus : string) :
  List.Forall2 same_but_notes window1 window2 ->
  _build_snix_prompt json_dumps goals window1 focus false
  = _build_snix_prompt json_dumps goals window2 focus false.
Proof.
  intros H. unfold _build_snix_prompt.
  rewrite (summarize_same_measures goals window1 window2
             (same_but_notes_measures _ _ H)).
  rewrite (map_eq_of_Forall2 (compact_of false) same_but_notes
             window1 window2); [reflexivity | | exact H].
  intros a b (Hd & Hs & Hq & Ht & Hm & Hty & Hf & Hw & Hme & Hmo & Ha).
  unfold compact_of. congruence.
Qed.
End PromptPrivacy.

Lemma prompt_without_notes_ignores_notes_witness :
  _build_snix_prompt plain_dumps DEFAULT_GOALS week_logs_with_notes "sono" false
  = _build_snix_prompt plain_dumps DEFAULT_GOALS week_logs "sono" false.
Proof.
  apply prompt_without_notes_ignores_notes, week_notes_same_but_notes.
Defined.

Section CoachNeedsData.
Variable float_repr : float -> string.
Variable json_dumps : UserPayload -> string.

Lemma coach_prepare_window_stored (w : World) (db : Db)
  (payload : SnixCoachIn.t) (p : Prepared) :
  coach_prepare json_dumps w db payload = Ok p ->
  db_goals db <> None
  /\ 3 <= len (window (p_sel p)) <= Z.of_nat (size (db_logs db)).
Proof.
  intros H.
  destruct (coach_prepare_stats json_dumps w db payload p H) as [_ Hlen].
  unfold coach_prepare in H.
  destruct (db_goals db) as [goals|]; [|discriminate].
  split; [discriminate|].
  pose proof (rows_desc_spec (db_logs db)
                (clamp 10 240 (SnixCoachIn.max_items payload)))
    as (_ & Hl & _).
  destruct (rows_desc _ _) as [|l rest] eqn:Erows; [discriminate|].
  apply res_bind_ok in H as (sel & Hsel & H).
  destruct (len (window sel) <? 3); [discriminate|].
  apply res_bind_ok in H as (prompt & _ & H).
  destruct prompt as [[system_text user_text] stats].
  injection H as <-. cbn [p_sel] in *.
  destruct (select_window_spec _ _ _ _ Hsel)
    as (_ & _ & _ & _ & _ & _ & _ & _ & _ & _ & _ & _ & Hwl).
  unfold len in *. lia.
Qed.

(** X22. The coach needs data before it does anything: when the state
    row is missing or the store holds fewer than three logs, the request
    ends in an exception, the cache is left as it was and nothing is sent
    to the provider or slept. *)
Theorem coach_needs_three_logs
  (w : World) (db : Db) (cache : cache_t) (now_get now_set : float)
  (payload : SnixCoachIn.t) :
  db_goals db = None \/ (size (db_logs db) < 3)%nat ->
  exists e,
    snix_coach float_repr json_dumps w db cache now_get now_set payload
    = (Raise e, cache, []).
Proof.
  intros Hfew. unfold snix_coach.
  destruct (coach_prepare json_dumps w db payload) as [p|e] eqn:Hp;
    [|eauto].
  destruct (coach_prepare_window_stored w db payload p Hp) as [Hg Hlen].
  destruct Hfew as [Hnone|Hfew]; [contradiction | lia].
Qed.
End CoachNeedsData.

Lemma coach_needs_three_logs_witness :
  exists e,
    snix_coach plain_repr plain_dumps answering_world
      {| db_goals := Some DEFAULT_GOALS; db_logs := ∅ |} ∅ 1000 1003
      week_request
    = (Raise e, ∅, []).
Proof.
  apply coach_needs_three_logs. right. cbn [db_logs].
  rewrite map_size_empty. lia.
Defined.

(** ** Goals *)

Example float_to_int_truncates :
  float_to_int 0x1.ecccccccccccdp+1%float = Ok 3
  /\ float_to_int (-0x1.ecccccccccccdp+1)%float = Ok (-3)
  /\ float_to_int 0x1p-1%float = Ok 0
  /\ float_to_int 0x1p+60%float = Ok (2 ^ 60).
Proof. repeat split; vm_compute; reflexivity. Qed.

Example merge_goals_examples :
  _merge_goals no_int no_float ∅ = DEFAULT_GOALS
  /\ _merge_goals no_int no_float
       {[ "anxietyMax" := JFloat 0x1.ecccccccccccdp+1; "sleepMin" := JInt 8;
          "foodTarget" := JNull; "theme" := JStr "dark" ]}
     = {| sleepMin := 8; workoutsPerWeek := 3; foodTarget := 4;
          anxietyMax := 3 |}.
Proof. split; vm_compute; reflexivity. Qed.

Section MergeGoalsFacts.
Variable int_of_str : string -> option Z.
Variable float_of_str : string -> option float.

Lemma merged_get (goals : gmap string JVal) (k : string) :
  dict_get (goals ∪ default_goals_dict) k
  = match goals !! k with
    | Some v => v
    | None => dict_get default_goals_dict k
    end.
Proof.
  unfold dict_get. rewrite lookup_union.
  destruct (goals !! k) as [v|]; destruct (default_goals_dict !! k);
    reflexivity.
Qed.

(** X20. [_merge_goals] gives back a goals record it is handed as a
    dictionary: the four values of a record are read as they are, so that
    merging what a merge returned changes nothing. *)
Theorem merge_goals_round_trip :
  (forall g : Goals, _merge_goals int_of_str float_of_str (goals_dict g) = g)
  /\ forall goals : gmap string JVal,
       _merge_goals int_of_str float_of_str
         (goals_dict (_merge_goals int_of_str float_of_str goals))
       = _merge_goals int_of_str float_of_str goals.
Proof.
  assert (H : forall g : Goals,
             _merge_goals int_of_str float_of_str (goals_dict g) = g).
  { intros [s w f a]. unfold _merge_goals. rewrite !merged_get.
    reflexivity. }
  split; [exact H | intros goals; apply H].
Qed.

(** X21. [_merge_goals] reads four keys and nothing else: two
    dictionaries that agree on "sleepMin", "workoutsPerWeek", "foodTarget"
    and "anxietyMax" (present with the same value, or absent in both) are
    merged into the same record. *)
Theorem merge_goals_reads_four_keys (goals1 goals2 : gmap string JVal) :
  (forall k, In k goal_keys -> goals1 !! k = goals2 !! k) ->
  _merge_goals int_of_str float_of_str goals1
  = _merge_goals int_of_str float_of_str goals2.
Proof.
  intros H. unfold _merge_goals. rewrite !merged_get.
  rewrite (H "sleepMin"), (H "workoutsPerWeek"), (H "foodTarget"),
    (H "anxietyMax") by (cbn; tauto).
  reflexivity.
Qed.
End MergeGoalsFacts.

Lemma merge_goals_reads_four_keys_witness :
  _merge_goals no_int no_float
    {[ "anxietyMax" := JInt 8; "theme" := JStr "dark" ]}
  = _merge_goals no_int no_float {[ "anxietyMax" := JInt 8 ]}.
Proof.
  apply merge_goals_reads_four_keys.
  intros k [<-|[<-|[<-|[<-|[]]]]]; vm_compute; reflexivity.
Defined.

(** ** Symmetry of the correlation *)

Lemma SFmul_comm (x y : spec_float) :
  SFmul prec emax x y = SFmul prec emax y x.
Proof.
  destruct x as [sx|sx| |sx mx ex], y as [sy|sy| |sy my ey]; cbn;
    rewrite ?(Bool.xorb_comm sx sy); try reflexivity.
  rewrite (Pos.mul_comm mx my), (Z.add_comm ex ey). reflexivity.
Qed.

Lemma float_mul_comm (x y : float) : (x * y = y * x)%float.
Proof.
  apply Prim2SF_inj. rewrite !mul_spec. apply SFmul_comm.
Qed.

Lemma map_combine_swap {A B C : Type} (f : A -> B -> C) (xs : list A)
  (ys : list B) :
  List.map (fun p => f (fst p) (snd p)) (List.combine xs ys)
  = List.map (fun p => f (snd p) (fst p)) (List.combine ys xs).
Proof.
  revert ys. induction xs as [|x xs IH]; intros [|y ys]; cbn;
    try reflexivity.
  rewrite IH. reflexivity.
Qed.

Section PearsonSymmetry.
Context {num : Type} (ar : arith num).
Hypothesis mul_comm : forall x y, a_mul ar x y = a_mul ar y x.
Hypothesis div_raises_by_divisor :
  forall x y d e, a_div ar x d = Raise e -> a_div ar y d = Raise e.
Variable sq_error : exn.
Hypothesis sq_raises_one : forall x e, a_sq ar x = Raise e -> e = sq_error.

Lemma map_res_sq_raises (m : num) (l : list num) (e : exn) :
  map_res (fun x => a_sq ar (a_sub ar x m)) l = Raise e -> e = sq_error.
Proof.
  induction l as [|x l IH]; cbn [map_res]; [discriminate|].
  destruct (a_sq ar (a_sub ar x m)) as [y|e'] eqn:E; cbn [res_bind].
  - destruct (map_res _ l) as [ys|e'']; cbn [res_bind]; [discriminate|].
    intros H. injection H as <-. apply IH. reflexivity.
  - intros H. injection H as <-. exact (sq_raises_one _ _ E).
Qed.

Lemma pearson_symmetric (xs ys : list num) :
  _pearson_corr ar xs ys = _pearson_corr ar ys xs.
Proof.
  unfold _pearson_corr.
  destruct (Nat.eqb_spec (List.length xs) (List.length ys)) as [Hlen|Hne].
  2:{ destruct (Nat.eqb_spec (List.length ys) (List.length xs)) as [E|_];
        [congruence | reflexivity]. }
  rewrite <- Hlen, Nat.eqb_refl. cbn [negb orb].
  destruct (Nat.ltb (List.length xs) 4); [reflexivity|].
  set (n := a_of_len ar (List.length xs)).
  destruct (a_div ar (a_sum ar xs) n) as [mx|e1] eqn:Ex;
    destruct (a_div ar (a_sum ar ys) n) as [my|e2] eqn:Ey;
    cbn [res_bind]; try reflexivity.
  2:{ rewrite (div_raises_by_divisor _ (a_sum ar ys) _ _ Ex) in Ey.
      congruence. }
  rewrite (map_combine_swap
             (fun a b => a_mul ar (a_sub ar a mx) (a_sub ar b my)) xs ys).
  assert (Hnum : List.map
                   (fun p => a_mul ar (a_sub ar (snd p) mx) (a_sub ar (fst p) my))
                   (List.combine ys xs)
                 = List.map
                     (fun p => a_mul ar (a_sub ar (fst p) my) (a_sub ar (snd p) mx))
                     (List.combine ys xs)).
  { apply List.map_ext. intros p. apply mul_comm. }
  rewrite Hnum.
  destruct (map_res (fun x => a_sq ar (a_sub ar x mx)) xs) as [sqx|e1] eqn:Sx;
    destruct (map_res (fun y => a_sq ar (a_sub ar y my)) ys) as [sqy|e2] eqn:Sy;
    cbn [res_bind]; try reflexivity.
  - rewrite Bool.orb_comm, mul_comm. reflexivity.
  - rewrite (map_res_sq_raises _ _ _ Sx), (map_res_sq_raises _ _ _ Sy).
    reflexivity.
Qed.
End PearsonSymmetry.

(** X23. The correlation does not depend on the order of its two series,
    in binary64 as the program computes it - the same float, [None] or
    exception, bit for bit - and in exact arithmetic. *)
Theorem pearson_corr_is_symmetric :
  (forall xs ys : list float,
      _pearson_corr binary64 xs ys = _pearson_corr binary64 ys xs)
  /\ (forall xs ys : list R,
         _pearson_corr exact_reals xs ys = _pearson_corr exact_reals ys xs).
Proof.
  split; intros xs ys.
  - apply (pearson_symmetric binary64 float_mul_comm) with (sq_error := OverflowError).
    + cbn. unfold float_truediv. intros x y d e.
      destruct (PrimFloat.eqb d 0); [auto | discriminate].
    + cbn. unfold float_sq. intros x e.
      destruct (_ && _); [|discriminate]. intros H. injection H as <-.
      reflexivity.
  - apply (pearson_symmetric exact_reals Rmult_comm) with (sq_error := ValueError).
    + cbn. intros x y d e. destruct (R_is_zero d); [auto | discriminate].
    + cbn. discriminate.
Qed.

(** ** Date texts and dates *)

Lemma days_before_year_mono (y y' : Z) :
  y <= y' -> _days_before_year y <= _days_before_year y'.
Proof.
  intros H. unfold _days_before_year.
  rewrite <- !(Z.div_div _ 4 25) by lia.
  rewrite <- !(Z.div_div _ 100 4) by lia.
  rewrite <- !(Z.div_div _ 4 25) by lia.
  div_lia.
Qed.

Lemma days_before_month_step (y m m' : Z) :
  1 <= m -> m < m' -> m' <= 12 ->
  _days_before_month y m + _days_in_month y m <= _days_before_month y m'.
Proof.
  intros H1 H2 H3. unfold _days_before_month, _days_in_month.
  assert (m = 1 \/ m = 2 \/ m = 3 \/ m = 4 \/ m = 5 \/ m = 6 \/ m = 7 \/ m = 8
          \/ m = 9 \/ m = 10 \/ m = 11) as Hm by lia.
  assert (m' = 2 \/ m' = 3 \/ m' = 4 \/ m' = 5 \/ m' = 6 \/ m' = 7
          \/ m' = 8 \/ m' = 9 \/ m' = 10 \/ m' = 11 \/ m' = 12) as Hm' by lia.
  destruct (_is_leap y);
    repeat (destruct Hm as [->|Hm]);
    try subst m;
    repeat (destruct Hm' as [->|Hm']);
    try subst m'; cbn; lia.
Qed.

(** The ordinal of a valid date grows with (year, month, day) read as one
    number. *)
Lemma ymd2ord_order (y1 m1 d1 y2 m2 d2 : Z) :
  1 <= m1 <= 12 -> 1 <= d1 <= _days_in_month y1 m1 ->
  1 <= m2 <= 12 -> 1 <= d2 <= _days_in_month y2 m2 ->
  (y1 * 10000 + m1 * 100 + d1 <= y2 * 10000 + m2 * 100 + d2
   <-> _ymd2ord y1 m1 d1 <= _ymd2ord y2 m2 d2).
Proof.
  intros Hm1 Hd1 Hm2 Hd2.
  assert (Hdim : forall y m, 1 <= m <= 12 -> _days_in_month y m <= 31).
  { intros y m Hm. unfold _days_in_month.
    assert (m = 1 \/ m = 2 \/ m = 3 \/ m = 4 \/ m = 5 \/ m = 6 \/ m = 7
            \/ m = 8 \/ m = 9 \/ m = 10 \/ m = 11 \/ m = 12) as Hc by lia.
    destruct (_is_leap y);
      repeat (destruct Hc as [->|Hc]; [cbn; lia|]); subst m; cbn; lia. }
  pose proof (Hdim y1 m1 Hm1). pose proof (Hdim y2 m2 Hm2).
  assert (Hlt : forall ya ma da yb mb db,
             1 <= ma <= 12 -> 1 <= da <= _days_in_month ya ma ->
             1 <= mb <= 12 -> 1 <= db <= _days_in_month yb mb ->
             ya < yb \/ (ya = yb /\ (ma < mb \/ (ma = mb /\ da < db))) ->
             _ymd2ord ya ma da < _ymd2ord yb mb db).
  { intros ya ma da yb mb db Ha1 Ha2 Hb1 Hb2 Hord. unfold _ymd2ord.
    destruct Hord as [Hy|[<- [Hm|[<- Hd]]]].
    - pose proof (days_before_month_bound ya ma da Ha1 Ha2).
      pose proof (days_before_month_bound yb mb db Hb1 Hb2).
      pose proof (days_before_next_year ya).
      pose proof (days_before_year_mono (ya + 1) yb ltac:(lia)).
      destruct (_is_leap ya), (_is_leap yb); lia.
    - pose proof (days_before_month_step ya ma mb ltac:(lia) Hm ltac:(lia)).
      lia.
    - lia. }
  split; intros Hle.
  - destruct (Z.lt_trichotomy (y1 * 10000 + m1 * 100 + d1)
                (y2 * 10000 + m2 * 100 + d2)) as [Hk|[Hk|Hk]]; [| |lia].
    + apply Z.lt_le_incl, Hlt; try assumption. lia.
    + assert (y1 = y2 /\ m1 = m2 /\ d1 = d2) as (-> & -> & ->) by lia. lia.
  - destruct (Z.le_gt_cases (y1 * 10000 + m1 * 100 + d1)
                (y2 * 10000 + m2 * 100 + d2)) as [Hk|Hk]; [exact Hk|].
    assert (_ymd2ord y2 m2 d2 < _ymd2ord y1 m1 d1); [|lia].
    apply Hlt; try assumption. lia.
Qed.

Lemma digit_of_code (c : ascii) :
  is_digit c = true ->
  exists v, digit_of c = Some v /\ 0 <= v <= 9 /\ code_of c = v + 48.
Proof.
  unfold is_digit, digit_of.
  destruct ((48 <=? code_of c) && (code_of c <=? 57)) eqn:E; [|discriminate].
  intros _. apply Bool.andb_true_iff in E as [E1 E2].
  apply Z.leb_le in E1. apply Z.leb_le in E2.
  exists (code_of c - 48). split; [reflexivity|]. lia.
Qed.

Lemma ascii_compare_codes (a b : ascii) :
  Ascii.compare a b = (code_of a ?= code_of b).
Proof.
  unfold Ascii.compare, code_of. symmetry. apply N2Z.inj_compare.
Qed.

(** What the parser reads in a canonical text. *)
Lemma parse_canonical (s : string) (o : Z) :
  canonical_date_text s = true ->
  _parse_yyyy_mm_dd s = Ok o ->
  exists a b c d p e f q g h,
    s = string_of_list_ascii [a; b; c; d; p; e; f; q; g; h]
    /\ code_of p = 45 /\ code_of q = 45
    /\ (48 <= code_of a <= 57) /\ (48 <= code_of b <= 57)
    /\ (48 <= code_of c <= 57) /\ (48 <= code_of d <= 57)
    /\ (48 <= code_of e <= 57) /\ (48 <= code_of f <= 57)
    /\ (48 <= code_of g <= 57) /\ (48 <= code_of h <= 57)
    /\ mk_date
         (1000 * (code_of a - 48) + 100 * (code_of b - 48)
          + 10 * (code_of c - 48) + (code_of d - 48))
         (10 * (code_of e - 48) + (code_of f - 48))
         (10 * (code_of g - 48) + (code_of h - 48)) = Ok o.
Proof.
  unfold canonical_date_text, _parse_yyyy_mm_dd. intros Hc Hp.
  assert (Hs : s = string_of_list_ascii (chars s))
    by (symmetry; apply string_of_list_ascii_of_string).
  destruct (chars s) as [|a [|b [|c [|d [|p [|e [|f [|q [|g [|h [|? ?]]]]]]]]]]];
    try discriminate Hc.
  repeat rewrite Bool.andb_true_iff in Hc.
  destruct Hc as (((((((((Ha & Hb) & Hc) & Hd) & Hp1) & He) & Hf) & Hq) & Hg) & Hh).
  apply digit_of_code in Ha as (va & Ea & Ra & Ca).
  apply digit_of_code in Hb as (vb & Eb & Rb & Cb).
  apply digit_of_code in Hc as (vc & Ec & Rc & Cc).
  apply digit_of_code in Hd as (vd & Ed & Rd & Cd).
  apply digit_of_code in He as (ve & Ee & Re & Ce).
  apply digit_of_code in Hf as (vf & Ef & Rf & Cf).
  apply digit_of_code in Hg as (vg & Eg & Rg & Cg).
  apply digit_of_code in Hh as (vh & Eh & Rh & Ch).
  assert (Hfd : is_dash f = false) by (unfold is_dash; apply Z.eqb_neq; lia).
  assert (Hgs : is_space g = false) by (unfold is_space; apply Z.eqb_neq; lia).
  unfold is_dash in Hp1, Hq. apply Z.eqb_eq in Hp1. apply Z.eqb_eq in Hq.
  exists a, b, c, d, p, e, f, q, g, h.
  split; [exact Hs|]. split; [exact Hp1|]. split; [exact Hq|].
  repeat (split; [lia|]).
  replace (code_of a - 48) with va by lia.
  replace (code_of b - 48) with vb by lia.
  replace (code_of c - 48) with vc by lia.
  replace (code_of d - 48) with vd by lia.
  replace (code_of e - 48) with ve by lia.
  replace (code_of f - 48) with vf by lia.
  replace (code_of g - 48) with vg by lia.
  replace (code_of h - 48) with vh by lia.
  revert Hp.
  assert (Hpd : is_dash p = true) by (apply Z.eqb_eq; exact Hp1).
  assert (Hqd : is_dash q = true) by (apply Z.eqb_eq; exact Hq).
  unfold strptime_match.
  cbn [match_year]. rewrite Ea, Eb, Ec, Ed.
  cbn [match_dash]. rewrite Hpd.
  unfold month_alts, day_alts.
  repeat (first
            [ progress (unfold digit_in, two_digits, one_digit, space_digit)
            | progress cbn [first_alt match_dash]
            | rewrite Ee | rewrite Ef | rewrite Eg | rewrite Eh
            | rewrite Hfd | rewrite Hgs | rewrite Hqd
            | match goal with
              | |- context [if ?t then _ else _] => destruct t eqn:?
              end ]);
    intros Hp; first [discriminate Hp | exact Hp].
Qed.

Lemma code_of_inj (a b : ascii) : code_of a = code_of b -> a = b.
Proof.
  unfold code_of. intros H. apply N2Z.inj in H.
  rewrite <- (ascii_N_embedding a), <- (ascii_N_embedding b), H.
  reflexivity.
Qed.

Lemma date_text_order (s1 s2 : string) (o1 o2 : Z) :
  canonical_date_text s1 = true ->
  canonical_date_text s2 = true ->
  _parse_yyyy_mm_dd s1 = Ok o1 ->
  _parse_yyyy_mm_dd s2 = Ok o2 ->
  (String.leb s1 s2 = true <-> o1 <= o2) /\ (o1 = o2 -> s1 = s2).
Proof.
  intros C1 C2 P1 P2.
  destruct (parse_canonical s1 o1 C1 P1)
    as (a & b & c & d & p & e & f & q & g & h & -> & Hp & Hq
        & Ha & Hb & Hc & Hd & He & Hf & Hg & Hh & M1).
  destruct (parse_canonical s2 o2 C2 P2)
    as (a' & b' & c' & d' & p' & e' & f' & q' & g' & h' & -> & Hp' & Hq'
        & Ha' & Hb' & Hc' & Hd' & He' & Hf' & Hg' & Hh' & M2).
  apply mk_date_valid in M1 as (Hy1 & Hm1 & Hd1 & ->).
  apply mk_date_valid in M2 as (Hy2 & Hm2 & Hd2 & ->).
  pose proof (ymd2ord_order _ _ _ _ _ _ Hm1 Hd1 Hm2 Hd2) as Hord.
  pose proof (ymd2ord_order _ _ _ _ _ _ Hm2 Hd2 Hm1 Hd1) as Hord'.
  split.
  - rewrite <- Hord. clear Hord Hord' Hd1 Hd2.
    unfold String.leb. cbn [string_of_list_ascii String.compare].
    rewrite !ascii_compare_codes, Hp, Hp', Hq, Hq'.
    repeat (match goal with
            | |- context [(code_of ?x ?= code_of ?y)] =>
                destruct (Z.compare_spec (code_of x) (code_of y))
            end; cbv iota);
      cbn [Z.compare Pos.compare Pos.compare_cont]; cbv iota;
      split; intros; first [reflexivity | discriminate | lia].
  - intros Heq.
    assert (K : (1000 * (code_of a - 48) + 100 * (code_of b - 48)
                 + 10 * (code_of c - 48) + (code_of d - 48)) * 10000
                + (10 * (code_of e - 48) + (code_of f - 48)) * 100
                + (10 * (code_of g - 48) + (code_of h - 48))
                = (1000 * (code_of a' - 48) + 100 * (code_of b' - 48)
                   + 10 * (code_of c' - 48) + (code_of d' - 48)) * 10000
                  + (10 * (code_of e' - 48) + (code_of f' - 48)) * 100
                  + (10 * (code_of g' - 48) + (code_of h' - 48))).
    { apply Z.le_antisymm; [apply Hord | apply Hord']; lia. }
    clear Hord Hord' Hd1 Hd2 Heq.
    assert (Ea : code_of a = code_of a') by lia.
    assert (Eb : code_of b = code_of b') by lia.
    assert (Ec : code_of c = code_of c') by lia.
    assert (Ed : code_of d = code_of d') by lia.
    assert (Ee : code_of e = code_of e') by lia.
    assert (Ef : code_of f = code_of f') by lia.
    assert (Eg : code_of g = code_of g') by lia.
    assert (Eh : code_of h = code_of h') by lia.
    rewrite (code_of_inj a a' Ea), (code_of_inj b b' Eb),
      (code_of_inj c c' Ec), (code_of_inj d d' Ed), (code_of_inj e e' Ee),
      (code_of_inj f f' Ef), (code_of_inj g g' Eg), (code_of_inj h h' Eh).
    rewrite (code_of_inj p p') by lia.
    rewrite (code_of_inj q q') by lia.
    reflexivity.
Qed.

(** X24. On canonical date texts (four, two and two digits around two
    dashes) the order of texts is the order of dates: of two such texts
    that parse, one is less than or equal to the other as a text exactly
    when its date is on or before the other's, and two of them that parse
    to the same date are the same text. *)
Theorem date_text_order_is_date_order (s1 s2 : string) (d1 d2 : Z) :
  canonical_date_text s1 = true ->
  canonical_date_text s2 = true ->
  _parse_yyyy_mm_dd s1 = Ok d1 ->
  _parse_yyyy_mm_dd s2 = Ok d2 ->
  (String.leb s1 s2 = true <-> d1 <= d2) /\ (d1 = d2 -> s1 = s2).
Proof. exact (date_text_order s1 s2 d1 d2). Qed.

Lemma date_text_order_is_date_order_witness :
  String.leb "2023-12-31" "2024-01-07" = true <-> 738885 <= 738892.
Proof.
  apply (date_text_order_is_date_order "2023-12-31" "2024-01-07");
    vm_compute; reflexivity.
Defined.

(** A text that passes the guard of [upsert_log] without being canonical:
    it sorts before a text of an earlier day. *)
Example space_day_sorts_first :
  date_guard_fails "2024-01- 7" = Ok false
  /\ _parse_yyyy_mm_dd "2024-01- 7" = Ok 738892
  /\ _parse_yyyy_mm_dd "2024-01-05" = Ok 738890
  /\ String.leb "2024-01- 7" "2024-01-05" = true.
Proof. repeat split; vm_compute; reflexivity. Qed.

Lemma StronglySorted_weaken {A : Type} (R R' : A -> A -> Prop) (l : list A) :
  (forall a b, In a l -> In b l -> R a b -> R' a b) ->
  StronglySorted R l -> StronglySorted R' l.
Proof.
  intros Himp H. induction H as [|a l Hs IH Hall]; constructor.
  - apply IH. intros x y Hx Hy. apply Himp; right; assumption.
  - rewrite List.Forall_forall in *. intros b Hb.
    apply Himp; [left; reflexivity | right; exact Hb | apply Hall, Hb].
Qed.

Lemma select_base_In (today : Z) (logs : list Log.t) (l : Log.t) :
  In l (select_base today logs) -> In l logs.
Proof.
  destruct (Nat.le_gt_cases 3 (List.length (List.filter (dated_by today) logs)))
    as [H|H].
  - rewrite (select_base_past today logs H). intros Hl.
    apply List.filter_In in Hl. exact (proj1 Hl).
  - rewrite (select_base_all today logs H). auto.
Qed.

(** X25. When every date text is canonical, a returned window ends at the
    latest date of the base: the reported end date is the date of a base
    entry, no base entry that parses is dated after it, the window holds
    the base entries dated within the last [days] days up to it, and the
    window is in chronological order. *)
Theorem window_ends_at_latest_date
  (today : Z) (logs : list Log.t) (days : Z) (sel : Selection) :
  (forall l, In l logs -> canonical_date_text (Log.date l) = true) ->
  _select_window_from_logs today logs days = Ok sel ->
  exists end_date,
    used_end_date sel = isoformat end_date
    /\ (exists l, In l (select_base today logs)
                  /\ _parse_yyyy_mm_dd (Log.date l) = Ok end_date)
    /\ (forall l d, In l (select_base today logs) ->
                    _parse_yyyy_mm_dd (Log.date l) = Ok d -> d <= end_date)
    /\ (forall l, In l (window sel)
                  <-> In l (select_base today logs)
                      /\ exists d, _parse_yyyy_mm_dd (Log.date l) = Ok d
                                   /\ end_date - (days - 1) <= d)
    /\ StronglySorted
         (fun a b => exists da db,
              _parse_yyyy_mm_dd (Log.date a) = Ok da
              /\ _parse_yyyy_mm_dd (Log.date b) = Ok db /\ da <= db)
         (window sel).
Proof.
  intros Hcanon H.
  destruct (select_window_spec today logs days sel H)
    as (newest & end_date & start_date & Hnew & Hgreatest & Hend & -> & _
        & Hue & _ & Hwin & Hsorted & _).
  assert (Hcb : forall l, In l (select_base today logs) ->
                          canonical_date_text (Log.date l) = true).
  { intros l Hl. apply Hcanon, (select_base_In today logs l Hl). }
  assert (Hlatest : forall l d, In l (select_base today logs) ->
                                _parse_yyyy_mm_dd (Log.date l) = Ok d ->
                                d <= end_date).
  { intros l d Hl Hd.
    apply (proj1 (date_text_order (Log.date l) (Log.date newest) d end_date
                    (Hcb l Hl) (Hcb newest Hnew) Hd Hend)).
    exact (Hgreatest l Hl). }
  exists end_date. split; [exact Hue|]. split; [eauto|].
  split; [exact Hlatest|]. split.
  - intros l. rewrite Hwin. split.
    + intros (Hl & d & Hd & Hr). split; [exact Hl|]. exists d.
      split; [exact Hd | lia].
    + intros (Hl & d & Hd & Hr). split; [exact Hl|]. exists d.
      split; [exact Hd|]. split; [exact Hr | exact (Hlatest l d Hl Hd)].
  - apply (StronglySorted_weaken date_le); [|exact Hsorted].
    intros a b Ha Hb Hab.
    apply Hwin in Ha as (Ha & da & Hda & _).
    apply Hwin in Hb as (Hb & db & Hdb & _).
    exists da, db. split; [exact Hda|]. split; [exact Hdb|].
    apply (proj1 (date_text_order (Log.date a) (Log.date b) da db
                    (Hcb a Ha) (Hcb b Hb) Hda Hdb)).
    exact Hab.
Qed.

Lemma window_ends_at_latest_date_witness :
  exists sel end_date,
    _select_window_from_logs 738892 week_logs 14 = Ok sel
    /\ used_end_date sel = isoformat end_date
    /\ forall l d, In l (select_base 738892 week_logs) ->
                   _parse_yyyy_mm_dd (Log.date l) = Ok d -> d <= end_date.
Proof.
  assert (Hcanon : forall l, In l week_logs ->
                             canonical_date_text (Log.date l) = true).
  { intros l Hl. cbn in Hl.
    repeat (destruct Hl as [<-|Hl]; [reflexivity|]). contradiction. }
  destruct (_select_window_from_logs 738892 week_logs 14) as [sel|e] eqn:Hsel;
    [|vm_compute in Hsel; discriminate Hsel].
  destruct (window_ends_at_latest_date 738892 week_logs 14 sel Hcanon Hsel)
    as (end_date & Hue & _ & Hlatest & _).
  exists sel, end_date. split; [reflexivity|]. split; assumption.
Defined.
